(** * AstralDraw: the draw / ticket engine of [core/models.py] and [core/views.py]

    A shallow embedding of the encrypted key storage, the winner resolution,
    the prize breakdown, the rarity classification and the two JSON views
    [draw_detail] and [process_draw], followed by the properties established
    about them.

    Conventions.
    - A Python [bytes] value is a list of 8-bit characters; a Python [str] is
      represented by its UTF-8 encoding, so [str.encode()] is the identity on
      the representation and [bytes.decode()] is a validity check.
    - A call that may raise returns a [res]: [Ok v], [Raise e] with the class
      of the exception (messages are not modelled), or [Unmodelled] where
      Python would go on with a value this development has no type for.
    - The wall clock, the random source and the environment variable
      [SECRET_KEY] are explicit arguments.
    - [Decimal] values are exact rationals; the rounding of a rational to a
      binary64 [float] is a parameter [fl] of the models, and [binary64] is
      the rounding of IEEE 754 for it. *)

From Stdlib Require Import ZArith QArith Qabs Qround Qpower String Ascii List Lia Lqa Bool Sorted.
From stdpp Require Import base list gmap strings.
Import ListNotations.

Local Open Scope Z_scope.

(* ===================================================================== *)
(** * Part I: the model                                                   *)
(* ===================================================================== *)

(** ** Exceptions and results *)

Inductive exn : Set :=
| ValueError
| JSONDecodeError      (* subclass of ValueError *)
| UnicodeDecodeError   (* subclass of ValueError *)
| BinasciiError        (* binascii.Error, subclass of ValueError *)
| OverflowError        (* int.to_bytes out of range *)
| InvalidToken         (* cryptography.fernet.InvalidToken *)
| TypeError
| Http404
| DoesNotExist
| FieldError           (* django.core.exceptions.FieldError *)
| InvalidOperation.    (* decimal.InvalidOperation *)

(** [isinstance(e, ValueError)] *)
Definition is_ValueError (e : exn) : bool :=
  match e with
  | ValueError | JSONDecodeError | UnicodeDecodeError | BinasciiError => true
  | _ => false
  end.

(** [isinstance(e, json.JSONDecodeError)] *)
Definition is_JSONDecodeError (e : exn) : bool :=
  match e with JSONDecodeError => true | _ => false end.

Inductive res (A : Type) : Type :=
| Ok (a : A)
| Raise (e : exn)
| Unmodelled.
Arguments Ok {A} a.
Arguments Raise {A} e.
Arguments Unmodelled {A}.

Definition rbind {A B : Type} (r : res A) (k : A -> res B) : res B :=
  match r with
  | Ok a => k a
  | Raise e => Raise e
  | Unmodelled => Unmodelled
  end.

Notation "'let*' x ':=' r 'in' k" := (rbind r (fun x => k))
  (at level 10, x name, r at level 100, k at level 200).

(** [try: body  except Exception as e: raise ValueError(...)] *)
Definition reraise_as_ValueError {A : Type} (r : res A) : res A :=
  match r with
  | Raise _ => Raise ValueError
  | other => other
  end.

(** ** Bytes *)

Definition bytes : Type := list ascii.

Definition byte_val (a : ascii) : Z := Z.of_N (N_of_ascii a).
Definition byte_of (z : Z) : ascii := ascii_of_N (Z.to_N z).

(** [str.encode()] and [bytes.decode()] (UTF-8). *)
Definition encode (s : string) : bytes := list_ascii_of_string s.

Definition is_cont (c : ascii) : bool :=
  (128 <=? byte_val c) && (byte_val c <=? 191).

Definition in_range (lo hi : Z) (c : ascii) : bool :=
  (lo <=? byte_val c) && (byte_val c <=? hi).

(** Well-formed UTF-8 (Unicode table 3-7): no overlong forms, no
    surrogates, nothing above U+10FFFF. *)
Fixpoint utf8_valid (b : bytes) : bool :=
  match b with
  | [] => true
  | c :: r =>
    if byte_val c <? 128 then utf8_valid r
    else if in_range 194 223 c then
      match r with
      | c1 :: r1 => is_cont c1 && utf8_valid r1
      | _ => false
      end
    else if in_range 224 239 c then
      match r with
      | c1 :: c2 :: r2 =>
        (if byte_val c =? 224 then in_range 160 191 c1
         else if byte_val c =? 237 then in_range 128 159 c1
         else is_cont c1)
        && is_cont c2 && utf8_valid r2
      | _ => false
      end
    else if in_range 240 244 c then
      match r with
      | c1 :: c2 :: c3 :: r3 =>
        (if byte_val c =? 240 then in_range 144 191 c1
         else if byte_val c =? 244 then in_range 128 143 c1
         else is_cont c1)
        && is_cont c2 && is_cont c3 && utf8_valid r3
      | _ => false
      end
    else false
  end.

Definition decode (b : bytes) : res string :=
  if utf8_valid b then Ok (string_of_list_ascii b) else Raise UnicodeDecodeError.

(** [b.ljust(width)]: pad on the right with spaces. *)
Definition ljust (width : nat) (b : bytes) : bytes :=
  b ++ repeat " "%char (width - length b).

(** [s.startswith(p)] *)
Definition startswith (p s : string) : bool := String.prefix p s.

(** [n.to_bytes(length=8, byteorder="big")] *)
Definition be_bytes (n : Z) : bytes :=
  map (fun i => byte_of (Z.land (Z.shiftr n (8 * i)) 255)) [7; 6; 5; 4; 3; 2; 1; 0].

Definition to_bytes8 (n : Z) : res bytes :=
  if (0 <=? n) && (n <? 2 ^ 64) then Ok (be_bytes n) else Raise OverflowError.

(** ** [base64.urlsafe_b64encode] / [base64.urlsafe_b64decode] *)

Module Base64.

Definition table_b2a_base64 : string :=
  "ABCDEFGHIJKLMNOPQRSTUVWXYZabcdefghijklmnopqrstuvwxyz0123456789+/".

Definition BASE64_PAD : ascii := "="%char.

Definition b2a_char (i : Z) : ascii :=
  nth (Z.to_nat i) (list_ascii_of_string table_b2a_base64) BASE64_PAD.

(** [binascii.b2a_base64(s, newline=False)], three input bytes at a time. *)
Fixpoint b2a_base64 (s : bytes) : bytes :=
  match s with
  | [] => []
  | [a] =>
    let a := byte_val a in
    [b2a_char (Z.shiftr a 2); b2a_char (Z.shiftl (Z.land a 3) 4);
     BASE64_PAD; BASE64_PAD]
  | [a; b] =>
    let a := byte_val a in
    let b := byte_val b in
    [b2a_char (Z.shiftr a 2);
     b2a_char (Z.lor (Z.shiftl (Z.land a 3) 4) (Z.shiftr b 4));
     b2a_char (Z.shiftl (Z.land b 15) 2); BASE64_PAD]
  | a :: b :: c :: rest =>
    let a := byte_val a in
    let b := byte_val b in
    let c := byte_val c in
    b2a_char (Z.shiftr a 2)
    :: b2a_char (Z.lor (Z.shiftl (Z.land a 3) 4) (Z.shiftr b 4))
    :: b2a_char (Z.lor (Z.shiftl (Z.land b 15) 2) (Z.shiftr c 6))
    :: b2a_char (Z.land c 63)
    :: b2a_base64 rest
  end.

(** [table_a2b_base64]: the position in the alphabet, if any. *)
Fixpoint index_of (c : ascii) (l : list ascii) (i : Z) : option Z :=
  match l with
  | [] => None
  | x :: l' => if Ascii.eqb c x then Some i else index_of c l' (i + 1)
  end.

Definition a2b_index (c : ascii) : option Z :=
  index_of c (list_ascii_of_string table_b2a_base64) 0.

(** The loop of [binascii.a2b_base64] in its default, non-strict mode:
    characters outside the alphabet are dropped, a pad sequence that
    completes a quad ends the parse, left-over sextets are an error. *)
Fixpoint a2b_loop (quad_pos : nat) (leftchar : Z) (pads : nat) (s : bytes)
  : res bytes :=
  match s with
  | [] => if Nat.eqb quad_pos 0 then Ok [] else Raise BinasciiError
  | this_ch :: rest =>
    if Ascii.eqb this_ch BASE64_PAD then
      if Nat.leb 2 quad_pos then
        if Nat.leb 4 (quad_pos + S pads) then Ok []
        else a2b_loop quad_pos leftchar (S pads) rest
      else a2b_loop quad_pos leftchar pads rest
    else
      match a2b_index this_ch with
      | None => a2b_loop quad_pos leftchar pads rest
      | Some v =>
        match quad_pos with
        | 0%nat => a2b_loop 1 v 0 rest
        | 1%nat =>
          let* out := a2b_loop 2 (Z.land v 15) 0 rest in
          Ok (byte_of (Z.lor (Z.shiftl leftchar 2) (Z.shiftr v 4)) :: out)
        | 2%nat =>
          let* out := a2b_loop 3 (Z.land v 3) 0 rest in
          Ok (byte_of (Z.lor (Z.shiftl leftchar 4) (Z.shiftr v 2)) :: out)
        | _ =>
          let* out := a2b_loop 0 0 0 rest in
          Ok (byte_of (Z.lor (Z.shiftl leftchar 6) v) :: out)
        end
      end
  end.

Definition a2b_base64 (s : bytes) : res bytes := a2b_loop 0 0 0 s.

(** [bytes.translate(bytes.maketrans(from, to))] for two characters. *)
Definition translate2 (f1 t1 f2 t2 : ascii) (s : bytes) : bytes :=
  map (fun c => if Ascii.eqb c f1 then t1 else if Ascii.eqb c f2 then t2 else c) s.

Definition urlsafe_b64encode (s : bytes) : bytes :=
  translate2 "+" "-" "/" "_" (b2a_base64 s).

Definition urlsafe_b64decode (s : bytes) : res bytes :=
  a2b_base64 (translate2 "-" "+" "_" "/" s).

End Base64.

(** ** The [cryptography] package: PKCS7, AES-128-CBC, HMAC-SHA256, Fernet *)

(** The block cipher and the MAC are not code of the repository; they are an
    interface here, with the three facts about them that the Fernet recipe
    relies on. *)
Class FernetPrimitives : Type := {
  aes128_cbc_encrypt : bytes -> bytes -> bytes -> bytes;   (* key, iv, data *)
  aes128_cbc_decrypt : bytes -> bytes -> bytes -> bytes;
  hmac_sha256 : bytes -> bytes -> bytes;                   (* key, message *)
  aes128_cbc_length : forall k iv p,
    (length p mod 16 = 0)%nat ->
    length (aes128_cbc_encrypt k iv p) = length p;
  aes128_cbc_inverse : forall k iv p,
    length k = 16%nat -> length iv = 16%nat -> (length p mod 16 = 0)%nat ->
    aes128_cbc_decrypt k iv (aes128_cbc_encrypt k iv p) = p;
  hmac_sha256_length : forall k m, length (hmac_sha256 k m) = 32%nat
}.

Module PKCS7.

(** [padding.PKCS7(128).padder()] *)
Definition pad (data : bytes) : bytes :=
  let n := (16 - length data mod 16)%nat in
  data ++ repeat (byte_of (Z.of_nat n)) n.

(** [padding.PKCS7(128).unpadder()]; [ValueError] on a bad padding. *)
Definition unpad (p : bytes) : res bytes :=
  let n := length p in
  if Nat.eqb n 0 || negb (Nat.eqb (n mod 16) 0) then Raise ValueError
  else
    let pad_size := Z.to_nat (byte_val (List.last p "000"%char)) in
    if Nat.leb 1 pad_size && Nat.leb pad_size 16
       && forallb (fun c => Z.to_nat (byte_val c) =? pad_size)%nat (skipn (n - pad_size) p)
    then Ok (firstn (n - pad_size) p)
    else Raise ValueError.

End PKCS7.

Module Fernet.
Section WithPrimitives.
Context `{FernetPrimitives}.

Record t : Type := { signing_key : bytes; encryption_key : bytes }.

(** [Fernet(key)] *)
Definition new (key : bytes) : res t :=
  let* k := reraise_as_ValueError (Base64.urlsafe_b64decode key) in
  if Nat.eqb (length k) 32
  then Ok {| signing_key := firstn 16 k; encryption_key := skipn 16 k |}
  else Raise ValueError.

(** [Fernet._encrypt_from_parts(data, current_time, iv)];
    [Fernet.encrypt(data)] calls it with [int(time.time())] and
    [os.urandom(16)]. *)
Definition encrypt (f : t) (current_time : Z) (iv : bytes) (data : bytes)
  : res bytes :=
  let padded_data := PKCS7.pad data in
  if negb (Nat.eqb (length iv) 16) then Raise ValueError
  else
    let ciphertext := aes128_cbc_encrypt (encryption_key f) iv padded_data in
    let* ts := to_bytes8 current_time in
    let basic_parts := byte_of 128 :: ts ++ iv ++ ciphertext in
    let hmac := hmac_sha256 (signing_key f) basic_parts in
    Ok (Base64.urlsafe_b64encode (basic_parts ++ hmac)).

(** [Fernet.decrypt(token)] with [ttl=None]. *)
Definition decrypt (f : t) (token : bytes) : res bytes :=
  match Base64.urlsafe_b64decode token with
  | Unmodelled => Unmodelled
  | Raise _ => Raise InvalidToken
  | Ok data =>
    match data with
    | [] => Raise InvalidToken
    | v :: _ =>
      if negb (byte_val v =? 128) then Raise InvalidToken
      else if Nat.ltb (length data) 9 then Raise InvalidToken
      else
        let n := length data in
        (* _verify_signature *)
        if negb (bool_decide (hmac_sha256 (signing_key f) (firstn (n - 32) data)
                              = skipn (n - 32) data))
        then Raise InvalidToken
        else
          let iv := firstn 16 (skipn 9 data) in
          let ciphertext := firstn (n - 32 - 25) (skipn 25 data) in
          if negb (Nat.eqb (length iv) 16) then Raise ValueError
          else if negb (Nat.eqb (length ciphertext mod 16) 0) then Raise InvalidToken
          else
            let plaintext_padded :=
              aes128_cbc_decrypt (encryption_key f) iv ciphertext in
            match PKCS7.unpad plaintext_padded with
            | Ok unpadded => Ok unpadded
            | _ => Raise InvalidToken
            end
    end
  end.

End WithPrimitives.
End Fernet.

(** ** [json.dumps] and [json.loads] on arrays of integers *)

Module Json.

Definition digit_char (d : Z) : ascii := byte_of (48 + d).

(** Decimal digits of a non-negative number, most significant first;
    the fuel bounds the number of digits. *)
Fixpoint digits (fuel : nat) (n : Z) (acc : list ascii) : list ascii :=
  match fuel with
  | O => acc
  | S fuel' =>
    if n <? 10 then digit_char n :: acc
    else digits fuel' (n / 10) (digit_char (n mod 10) :: acc)
  end.

(** [str(n)] for an [int]. *)
Definition int_repr (n : Z) : list ascii :=
  let m := Z.abs n in
  let ds := digits (S (Z.to_nat (Z.log2 m))) m [] in
  if n <? 0 then "-"%char :: ds else ds.

Fixpoint join_items (items : list (list ascii)) : list ascii :=
  match items with
  | [] => []
  | [x] => x
  | x :: rest => x ++ ","%char :: " "%char :: join_items rest
  end.

(** [json.dumps(keys_list)] for a list of integers, default separators. *)
Definition dumps (keys_list : list Z) : string :=
  string_of_list_ascii ("["%char :: join_items (map int_repr keys_list) ++ ["]"%char]).

Definition is_ws (c : ascii) : bool :=
  Ascii.eqb c " " || Ascii.eqb c "009" || Ascii.eqb c "010" || Ascii.eqb c "013".

Definition is_digit (c : ascii) : bool := in_range 48 57 c.

Fixpoint skip_ws (s : list ascii) : list ascii :=
  match s with
  | c :: r => if is_ws c then skip_ws r else s
  | [] => []
  end.

Fixpoint scan_digits (acc : Z) (s : list ascii) : Z * list ascii :=
  match s with
  | c :: r =>
    if is_digit c then scan_digits (acc * 10 + (byte_val c - 48)) r else (acc, s)
  | [] => (acc, [])
  end.

(** [sys.get_int_max_str_digits()]: from CPython 3.11 on, [int] refuses a
    literal of more digits with [ValueError]. *)
Definition max_str_digits : Z := 4300.

Fixpoint count_digits (s : list ascii) : nat :=
  match s with
  | c :: r => if is_digit c then S (count_digits r) else O
  | [] => O
  end.

(** The integer branch of the number scanner: an optional minus sign, then
    either a single 0 or a digit 1-9 followed by any digits, converted by
    [int].  A minus sign that no digit follows is no number, unless it
    starts [-Infinity].  What may be a fraction, an exponent or [-Infinity]
    leaves the fragment. *)
Definition match_number (s : list ascii) : res (Z * list ascii) :=
  let '(neg, s1) :=
    match s with
    | c :: r => if Ascii.eqb c "-" then (true, r) else (false, s)
    | [] => (false, s)
    end in
  match s1 with
  | [] => Raise JSONDecodeError
  | c :: r =>
    let '(ok, v, r', n_digits) :=
      if Ascii.eqb c "0" then (true, 0, r, 1%nat)
      else if is_digit c then
        let '(v, r') := scan_digits (byte_val c - 48) r in
        (true, v, r', S (count_digits r))
      else (false, 0, r, O) in
    if negb ok then
      if (neg : bool) && negb (Ascii.eqb c "I") then Raise JSONDecodeError else Unmodelled
    else
      let int_value :=
        if max_str_digits <? Z.of_nat n_digits then Raise ValueError
        else Ok (if neg : bool then - v else v, r') in
      match r' with
      | d :: _ =>
        if Ascii.eqb d "." || Ascii.eqb d "e" || Ascii.eqb d "E" then Unmodelled
        else int_value
      | [] => int_value
      end
  end.

(** The characters at which the scanner tries a string, an object, an
    array or one of [null], [true], [false], [NaN], [Infinity]; a minus
    sign or a digit starts a number.  At any other character it finds no
    value. *)
Definition starts_other_value (c : ascii) : bool :=
  Ascii.eqb c "034" || Ascii.eqb c "{" || Ascii.eqb c "[" || Ascii.eqb c "n"
  || Ascii.eqb c "t" || Ascii.eqb c "f" || Ascii.eqb c "N" || Ascii.eqb c "I".

(** The loop of the array parser, entered in front of a term. *)
Fixpoint parse_items (fuel : nat) (s : list ascii) : res (list Z * list ascii) :=
  match fuel with
  | O => Unmodelled
  | S fuel' =>
    match s with
    | [] => Raise JSONDecodeError
    | c :: _ =>
      if Ascii.eqb c "-" || is_digit c then
        let* vr := match_number s in
        let '(v, r) := vr in
        match skip_ws r with
        | [] => Raise JSONDecodeError
        | d :: r' =>
          if Ascii.eqb d "]" then Ok ([v], r')
          else if Ascii.eqb d "," then
            let* items := parse_items fuel' (skip_ws r') in
            Ok (v :: fst items, snd items)
          else Raise JSONDecodeError
        end
      else if starts_other_value c then Unmodelled
      else Raise JSONDecodeError
    end
  end.

(** [json.loads(s)].  The result is modelled for the documents that are
    arrays of integers, and the [JSONDecodeError] for a text that is empty,
    that has no value where one is expected, or whose array of integers is
    cut short or followed by more text.  A document that holds another
    kind of value (a string, an object, a nested array, a constant, a
    float) is outside the fragment, well-formed or not; so is the
    [RecursionError] that deep nesting gives. *)
Definition loads (s : string) : res (list Z) :=
  let l := list_ascii_of_string s in
  match skip_ws l with
  | [] => Raise JSONDecodeError
  | c :: r =>
    if Ascii.eqb c "[" then
      let* items :=
        match skip_ws r with
        | [] => Raise JSONDecodeError
        | d :: r' =>
          if Ascii.eqb d "]" then Ok ([], r')
          else parse_items (length l) (d :: r')
        end in
      match skip_ws (snd items) with
      | [] => Ok (fst items)
      | _ :: _ => Raise JSONDecodeError
      end
    else if starts_other_value c || Ascii.eqb c "-" || is_digit c then Unmodelled
    else Raise JSONDecodeError
  end.

End Json.

(** ** Numbers *)

(** Rounding of a rational to the nearest binary64 value: what [float(d)]
    returns for a [Decimal] [d], and how a [float] operation rounds its exact
    result.  The models take it as a parameter; [binary64] below is the
    rounding of IEEE 754. *)
Class Float64 : Type := fl : Q -> Q.

(** The nearest integer, ties to the even one. *)
Definition round_half_even (q : Q) : Z :=
  let f := Qfloor q in
  match (q - inject_Z f ?= 1 # 2)%Q with
  | Lt => f
  | Gt => f + 1
  | Eq => if Z.even f then f else f + 1
  end.

(** [2 ** e] for an integer [e] of either sign. *)
Definition pow2 (e : Z) : Q := (2 ^ e)%Q.

(** The exponent [e] with [2^52 <= |q| / 2^e < 2^53], for [q <> 0]: one of
    the two candidates that the bit lengths of numerator and denominator
    leave. *)
Definition binade (q : Q) : Z :=
  let e0 := Z.log2 (Z.abs (Qnum q)) - Z.log2 (Z.pos (Qden q)) - 52 in
  if Qle_bool (inject_Z (2 ^ 52)) (Qabs q / pow2 e0) then e0 else e0 - 1.

(** The exponent of the unit in the last place of the binary64 numbers
    around [q]; it stops at -1074, where the subnormal numbers begin. *)
Definition ulp_exponent (q : Q) : Z := Z.max (binade q) (-1074).

(** Round to nearest, ties to even, with 53 significant bits.  A result of
    [2^1024] or more is the infinity of the code, which [Q] does not have:
    the function is the rounding of the code below that only. *)
Definition binary64 : Float64 := fun q =>
  if Qeq_bool q 0 then 0%Q
  else (inject_Z (round_half_even (q / pow2 (ulp_exponent q))) * pow2 (ulp_exponent q))%Q.

Inductive pynum : Type :=
| PyInt (n : Z)
| PyFloat (x : Q)
| PyDecimal (d : Q).

Definition pynum_val (a : pynum) : Q :=
  match a with
  | PyInt n => inject_Z n
  | PyFloat x => x
  | PyDecimal d => d
  end.

(** [a * b].  [Decimal.__mul__] answers [NotImplemented] to a [float]
    operand, and so does [float.__mul__] to a [Decimal]: the product of the
    two raises [TypeError].  Products of [Decimal]s are exact as long as they
    fit the context precision of 28 digits, which those of a
    [DecimalField(max_digits=15)] with a two-digit constant do. *)
Definition py_mul `{Float64} (a b : pynum) : res pynum :=
  match a, b with
  | PyInt m, PyInt n => Ok (PyInt (m * n))
  | PyDecimal x, PyDecimal y => Ok (PyDecimal (x * y))
  | PyDecimal x, PyInt n | PyInt n, PyDecimal x => Ok (PyDecimal (x * inject_Z n))
  | PyFloat x, PyFloat y => Ok (PyFloat (fl (x * y)))
  | PyFloat x, PyInt n | PyInt n, PyFloat x => Ok (PyFloat (fl (x * fl (inject_Z n))))
  | PyDecimal _, PyFloat _ | PyFloat _, PyDecimal _ => Raise TypeError
  end.

(** [float(a)] *)
Definition float `{Float64} (a : pynum) : Q := fl (pynum_val a).

(** ** The process environment *)

Record Env : Type := {
  SECRET_KEY : option string;   (* os.getenv('SECRET_KEY') *)
  time_time : Z;                (* int(time.time()) *)
  urandom16 : bytes;            (* os.urandom(16) *)
  timezone_now : Z              (* timezone.now() *)
}.

(** ** [core/models.py]: the tables *)

Inductive DrawStatus : Set := UPCOMING | ACTIVE | ENDED | CANCELLED.

Definition DrawStatus_eqb (a b : DrawStatus) : bool :=
  match a, b with
  | UPCOMING, UPCOMING | ACTIVE, ACTIVE | ENDED, ENDED | CANCELLED, CANCELLED => true
  | _, _ => false
  end.

Record User : Type := {
  u_id : Z;
  u_username : string;
  u_is_staff : bool
}.

Record UserWallet : Type := {
  w_id : Z;
  w_user : Z;                        (* OneToOneField(User) *)
  w_fiat_balance : Q;
  w_public_key : option string;
  w_private_key : option string;
  w_recipient_id : option string
}.

Record Draw : Type := {
  d_id : Z;
  d_title : string;
  d_prize_pool : Q;
  d_star_keys : string;
  d_nft_id : option string;
  d_hcs_message_id : option string;
  d_status : DrawStatus;
  d_draw_datetime : Z;
  d_updated_at : Z;                  (* auto_now *)
  d_total_tickets_sold : Z;
  d_total_prize_distributed : Q;
  d_winning_ticket_serial : option string;
  d_winner_wallet : option Z         (* ForeignKey(UserWallet, null=True) *)
}.

(** The [uuid], [created_at], [nft_metadata] and [token_id] columns take no
    part in the functions below and are left out. *)
Record ForgedKey : Type := {
  fk_id : Z;
  fk_user_wallet : Z;                (* ForeignKey(UserWallet) *)
  fk_draw : Z;                       (* ForeignKey(Draw) *)
  fk_star_keys : option string;      (* null=True *)
  fk_serial_number : string;
  fk_created_at : Z;
  fk_updated_at : Z
}.

Record DB : Type := {
  users : list User;
  userwallets : list UserWallet;
  draws : list Draw;
  forgedkeys : list ForgedKey
}.

Definition with_draws (db : DB) (ds : list Draw) : DB :=
  {| users := users db; userwallets := userwallets db;
     draws := ds; forgedkeys := forgedkeys db |}.

Definition with_forgedkeys (db : DB) (fks : list ForgedKey) : DB :=
  {| users := users db; userwallets := userwallets db;
     draws := draws db; forgedkeys := fks |}.

Definition with_userwallets (db : DB) (ws : list UserWallet) : DB :=
  {| users := users db; userwallets := ws;
     draws := draws db; forgedkeys := forgedkeys db |}.

(** Row-level helpers of the ORM. *)

(** [Model.objects.get(id=...)] / [filter(id=...).first()] *)
Definition find_by {A : Type} (key : A -> Z) (id : Z) (rows : list A) : option A :=
  List.find (fun r => key r =? id) rows.

(** [super().save()] of a row that has a primary key: UPDATE, or INSERT when
    the key is new. *)
Fixpoint upsert {A : Type} (key : A -> Z) (x : A) (rows : list A) : list A :=
  match rows with
  | [] => [x]
  | y :: rows' => if key y =? key x then x :: rows' else y :: upsert key x rows'
  end.

(** [sorted(rows, key=..., reverse=True)]: stable, largest key first.  It is
    both [list.sort(key=..., reverse=True)] and the [ordering = ['-...']] of
    a [Meta] class (rows with equal keys stay in table order). *)
Fixpoint insert_desc {A : Type} (key : A -> Z) (x : A) (l : list A) : list A :=
  match l with
  | [] => [x]
  | y :: l' => if key y <=? key x then x :: l else y :: insert_desc key x l'
  end.

Definition sort_desc {A : Type} (key : A -> Z) (l : list A) : list A :=
  foldr (insert_desc key) [] l.

Definition set_d_star_keys (self : Draw) (v : string) : Draw :=
  {| d_id := d_id self; d_title := d_title self; d_prize_pool := d_prize_pool self;
     d_star_keys := v;
     d_nft_id := d_nft_id self; d_hcs_message_id := d_hcs_message_id self;
     d_status := d_status self; d_draw_datetime := d_draw_datetime self;
     d_updated_at := d_updated_at self;
     d_total_tickets_sold := d_total_tickets_sold self;
     d_total_prize_distributed := d_total_prize_distributed self;
     d_winning_ticket_serial := d_winning_ticket_serial self;
     d_winner_wallet := d_winner_wallet self |}.

Definition set_d_updated_at (self : Draw) (v : Z) : Draw :=
  {| d_id := d_id self; d_title := d_title self; d_prize_pool := d_prize_pool self;
     d_star_keys := d_star_keys self;
     d_nft_id := d_nft_id self; d_hcs_message_id := d_hcs_message_id self;
     d_status := d_status self; d_draw_datetime := d_draw_datetime self;
     d_updated_at := v;
     d_total_tickets_sold := d_total_tickets_sold self;
     d_total_prize_distributed := d_total_prize_distributed self;
     d_winning_ticket_serial := d_winning_ticket_serial self;
     d_winner_wallet := d_winner_wallet self |}.

Definition set_d_status (self : Draw) (v : DrawStatus) : Draw :=
  {| d_id := d_id self; d_title := d_title self; d_prize_pool := d_prize_pool self;
     d_star_keys := d_star_keys self;
     d_nft_id := d_nft_id self; d_hcs_message_id := d_hcs_message_id self;
     d_status := v; d_draw_datetime := d_draw_datetime self;
     d_updated_at := d_updated_at self;
     d_total_tickets_sold := d_total_tickets_sold self;
     d_total_prize_distributed := d_total_prize_distributed self;
     d_winning_ticket_serial := d_winning_ticket_serial self;
     d_winner_wallet := d_winner_wallet self |}.

Definition set_d_winner (self : Draw) (serial : option string) (wallet : option Z) : Draw :=
  {| d_id := d_id self; d_title := d_title self; d_prize_pool := d_prize_pool self;
     d_star_keys := d_star_keys self;
     d_nft_id := d_nft_id self; d_hcs_message_id := d_hcs_message_id self;
     d_status := d_status self; d_draw_datetime := d_draw_datetime self;
     d_updated_at := d_updated_at self;
     d_total_tickets_sold := d_total_tickets_sold self;
     d_total_prize_distributed := d_total_prize_distributed self;
     d_winning_ticket_serial := serial;
     d_winner_wallet := wallet |}.

Definition set_d_total_prize_distributed (self : Draw) (v : Q) : Draw :=
  {| d_id := d_id self; d_title := d_title self; d_prize_pool := d_prize_pool self;
     d_star_keys := d_star_keys self;
     d_nft_id := d_nft_id self; d_hcs_message_id := d_hcs_message_id self;
     d_status := d_status self; d_draw_datetime := d_draw_datetime self;
     d_updated_at := d_updated_at self;
     d_total_tickets_sold := d_total_tickets_sold self;
     d_total_prize_distributed := v;
     d_winning_ticket_serial := d_winning_ticket_serial self;
     d_winner_wallet := d_winner_wallet self |}.

Definition set_fk_star_keys (self : ForgedKey) (v : option string) : ForgedKey :=
  {| fk_id := fk_id self; fk_user_wallet := fk_user_wallet self;
     fk_draw := fk_draw self; fk_star_keys := v;
     fk_serial_number := fk_serial_number self;
     fk_created_at := fk_created_at self; fk_updated_at := fk_updated_at self |}.

Definition set_fk_updated_at (self : ForgedKey) (v : Z) : ForgedKey :=
  {| fk_id := fk_id self; fk_user_wallet := fk_user_wallet self;
     fk_draw := fk_draw self; fk_star_keys := fk_star_keys self;
     fk_serial_number := fk_serial_number self;
     fk_created_at := fk_created_at self; fk_updated_at := v |}.

Definition set_w_private_key (self : UserWallet) (v : option string) : UserWallet :=
  {| w_id := w_id self; w_user := w_user self;
     w_fiat_balance := w_fiat_balance self; w_public_key := w_public_key self;
     w_private_key := v; w_recipient_id := w_recipient_id self |}.

(** [not s] for a [str] *)
Definition str_empty (s : string) : bool :=
  match s with EmptyString => true | _ => false end.

(** [not s] for a [str] that may be [None] *)
Definition falsy (s : option string) : bool :=
  match s with None => true | Some s => str_empty s end.

(** ** [core/models.py]: the methods *)

Section Models.
Context `{FernetPrimitives} `{Float64}.

(** [Draw.encrypt_data], [ForgedKey.encrypt_data] and
    [UserWallet.encrypt_key] have the same body. *)
Definition encrypt_data (env : Env) (data : string) : res string :=
  reraise_as_ValueError
    (let secret_key := SECRET_KEY env in
     if falsy secret_key then Raise ValueError
     else
       let key_bytes := encode (default EmptyString secret_key) in
       let key_base64 := Base64.urlsafe_b64encode (firstn 32 (ljust 32 key_bytes)) in
       let* f := Fernet.new key_base64 in
       let* token := Fernet.encrypt f (time_time env) (urandom16 env) (encode data) in
       decode token).

(** [Draw.decrypt_data], [ForgedKey.decrypt_data]; [UserWallet.decrypt_key]
    applies the same body to [self.private_key]. *)
Definition decrypt_data (env : Env) (encrypted_data : string) : res string :=
  reraise_as_ValueError
    (let secret_key := SECRET_KEY env in
     if falsy secret_key then Raise ValueError
     else
       let key_bytes := encode (default EmptyString secret_key) in
       let key_base64 := Base64.urlsafe_b64encode (firstn 32 (ljust 32 key_bytes)) in
       let* f := Fernet.new key_base64 in
       let* plain := Fernet.decrypt f (encode encrypted_data) in
       decode plain).

Definition Draw_encrypt_data := encrypt_data.
Definition Draw_decrypt_data := decrypt_data.
Definition ForgedKey_encrypt_data := encrypt_data.
Definition ForgedKey_decrypt_data := decrypt_data.
Definition UserWallet_encrypt_key := encrypt_data.

Definition UserWallet_decrypt_key (env : Env) (self : UserWallet) : res string :=
  match w_private_key self with
  | None => Raise ValueError        (* AttributeError, re-raised *)
  | Some k => decrypt_data env k
  end.

(** [UserWallet.save]: the wallet as it is after the call, and the table. *)
Definition UserWallet_save (env : Env) (self : UserWallet) (db : DB)
  : res (UserWallet * DB) :=
  let* self1 :=
    if negb (falsy (w_private_key self)) then
      let key_str := default EmptyString (w_private_key self) in
      if negb (startswith "gAAAA" key_str) then
        let* c := UserWallet_encrypt_key env key_str in
        Ok (set_w_private_key self (Some c))
      else Ok self
    else Ok self in
  Ok (self1, with_userwallets db (upsert w_id self1 (userwallets db))).

(** [Draw.save] *)
Definition Draw_save (env : Env) (self : Draw) (db : DB) : res (Draw * DB) :=
  let* self1 :=
    if negb (str_empty (d_star_keys self)) && negb (startswith "gAAAA" (d_star_keys self))
    then
      let* c := Draw_encrypt_data env (d_star_keys self) in
      Ok (set_d_star_keys self c)
    else Ok self in
  let self2 := set_d_updated_at self1 (timezone_now env) in
  Ok (self2, with_draws db (upsert d_id self2 (draws db))).

(** [ForgedKey.save] *)
Definition ForgedKey_save (env : Env) (self : ForgedKey) (db : DB)
  : res (ForgedKey * DB) :=
  let* self1 :=
    if negb (falsy (fk_star_keys self))
       && negb (startswith "gAAAA" (default EmptyString (fk_star_keys self)))
    then
      let* c := ForgedKey_encrypt_data env (default EmptyString (fk_star_keys self)) in
      Ok (set_fk_star_keys self (Some c))
    else Ok self in
  let self2 := set_fk_updated_at self1 (timezone_now env) in
  Ok (self2, with_forgedkeys db (upsert fk_id self2 (forgedkeys db))).

(** The body shared by [Draw.get_star_keys] and [ForgedKey.get_star_keys]. *)
Definition get_star_keys (env : Env) (star_keys : option string) : res (list Z) :=
  if falsy star_keys then Ok []
  else
    match (let* decrypted := decrypt_data env (default EmptyString star_keys) in
           Json.loads decrypted) with
    | Raise e => if is_JSONDecodeError e || is_ValueError e then Ok [] else Raise e
    | r => r
    end.

Definition Draw_get_star_keys (env : Env) (self : Draw) : res (list Z) :=
  get_star_keys env (Some (d_star_keys self)).

Definition ForgedKey_get_star_keys (env : Env) (self : ForgedKey) : res (list Z) :=
  get_star_keys env (fk_star_keys self).

(** [Draw.set_star_keys] *)
Definition Draw_set_star_keys (env : Env) (self : Draw) (keys_list : list Z) : res Draw :=
  let* c := Draw_encrypt_data env (Json.dumps keys_list) in
  Ok (set_d_star_keys self c).

(** [ForgedKey.set_star_keys] *)
Definition ForgedKey_set_star_keys (env : Env) (self : ForgedKey) (keys_list : list Z)
  : res ForgedKey :=
  let* c := ForgedKey_encrypt_data env (Json.dumps keys_list) in
  Ok (set_fk_star_keys self (Some c)).

(** [ForgedKey.objects.filter(draw=self)], in the order of [Meta.ordering]. *)
Definition forged_keys_of (self : Draw) (db : DB) : list ForgedKey :=
  sort_desc fk_created_at
    (List.filter (fun fk => fk_draw fk =? d_id self) (forgedkeys db)).

(** [Draw.map_winner]: the result, [self] and the database after the call. *)
Definition Draw_map_winner (env : Env) (self : Draw) (db : DB)
  : res (option ForgedKey) * Draw * DB :=
  match Draw_get_star_keys env self with
  | Raise e => (Raise e, self, db)
  | Unmodelled => (Unmodelled, self, db)
  | Ok winning_keys =>
    if Nat.eqb (length winning_keys) 0 || negb (Nat.eqb (length winning_keys) 6)
    then (Ok None, self, db)
    else
      (* Find exact match *)
      let exact_match :=
        head (List.filter
                (fun fk => bool_decide (fk_star_keys fk = Some (d_star_keys self)))
                (forged_keys_of self db)) in
      match exact_match with
      | Some fk =>
        let self1 := set_d_winner self (Some (fk_serial_number fk)) (Some (fk_user_wallet fk)) in
        match Draw_save env self1 db with
        | Ok (self2, db') => (Ok (Some fk), self2, db')
        | Raise e => (Raise e, self1, db)
        | Unmodelled => (Unmodelled, self1, db)
        end
      | None => (Ok None, self, db)
      end
  end.

(** One entry of the list returned by [map_nearest_winner].  [matched_keys]
    is the list of a set, whose order Python leaves open: the set is kept. *)
Record Match : Type := {
  forged_key : ForgedKey;
  match_count : Z;
  matched_keys : gset Z
}.

(** The [for fk in forged_keys] loop of [map_nearest_winner]. *)
Fixpoint nearest_loop (env : Env) (winning_keys : gset Z) (min_matches : Z)
  (forged_keys : list ForgedKey) : res (list Match) :=
  match forged_keys with
  | [] => Ok []
  | fk :: rest =>
    match ForgedKey_get_star_keys env fk with
    | Unmodelled => Unmodelled
    | Raise e =>
      if is_ValueError e || is_JSONDecodeError e
      then nearest_loop env winning_keys min_matches rest   (* continue *)
      else Raise e
    | Ok keys =>
      let ticket_keys : gset Z := list_to_set keys in
      let count := Z.of_nat (size (winning_keys ∩ ticket_keys)) in
      let* matches := nearest_loop env winning_keys min_matches rest in
      if min_matches <=? count then
        Ok ({| forged_key := fk; match_count := count;
               matched_keys := winning_keys ∩ ticket_keys |} :: matches)
      else Ok matches
    end
  end.

(** [Draw.map_nearest_winner] *)
Definition Draw_map_nearest_winner (env : Env) (self : Draw) (db : DB) (min_matches : Z)
  : res (list Match) :=
  let* keys := Draw_get_star_keys env self in
  let winning_keys : gset Z := list_to_set keys in
  if Nat.eqb (size winning_keys) 0 || negb (Nat.eqb (size winning_keys) 6) then Ok []
  else
    let forged_keys := forged_keys_of self db in
    let* matches := nearest_loop env winning_keys min_matches forged_keys in
    (* Sort by match count (descending) *)
    Ok (sort_desc match_count matches).





(** [wallet.user.username] through the two foreign keys. *)
Definition wallet_username (db : DB) (wallet_id : Z) : res string :=
  match find_by w_id wallet_id (userwallets db) with
  | None => Raise DoesNotExist
  | Some w =>
    match find_by u_id (w_user w) (users db) with
    | None => Raise DoesNotExist
    | Some u => Ok (u_username u)
    end
  end.



(** [Draw.is_active] *)
Definition Draw_is_active (self : Draw) : bool :=
  DrawStatus_eqb (d_status self) ACTIVE.

(** [Draw.can_participate] *)
Definition Draw_can_participate (env : Env) (self : Draw) : bool :=
  (DrawStatus_eqb (d_status self) UPCOMING || DrawStatus_eqb (d_status self) ACTIVE)
  && (timezone_now env <? d_draw_datetime self).

(** [self.draw] of a ticket *)
Definition ForgedKey_draw (db : DB) (self : ForgedKey) : res Draw :=
  match find_by d_id (fk_draw self) (draws db) with
  | Some d => Ok d
  | None => Raise DoesNotExist
  end.

(** [ForgedKey.is_winner] *)
Definition ForgedKey_is_winner (db : DB) (self : ForgedKey) : res bool :=
  let* draw := ForgedKey_draw db self in
  if negb (DrawStatus_eqb (d_status draw) ENDED) then Ok false
  else Ok (bool_decide (d_winning_ticket_serial draw = Some (fk_serial_number self))).

(** [ForgedKey.get_match_count] *)
Definition ForgedKey_get_match_count (env : Env) (db : DB) (self : ForgedKey) : res Z :=
  let* draw := ForgedKey_draw db self in
  if negb (DrawStatus_eqb (d_status draw) ENDED) then Ok 0
  else
    let* dk := Draw_get_star_keys env draw in
    let* uk := ForgedKey_get_star_keys env self in
    let draw_keys : gset Z := list_to_set dk in
    let user_keys : gset Z := list_to_set uk in
    Ok (Z.of_nat (size (draw_keys ∩ user_keys))).

Inductive Rarity : Set := Common | Rare | Epic | Legendary.

(** The body of [ForgedKey.calculate_rarity] once [keys] is known. *)
Definition rarity_of_keys (keys : list Z) : Rarity :=
  if Nat.eqb (length keys) 0 then Common
  else
    let unique_keys := size (list_to_set keys : gset Z) in
    if Nat.eqb unique_keys 6 then Rare
    else if Nat.eqb (length (List.filter (fun k => k mod 2 =? 0) keys)) 6 then Epic
    else if Nat.eqb (length (List.filter (fun k => negb (k mod 2 =? 0)) keys)) 6 then Epic
    else if Nat.eqb (size (list_to_set keys : gset Z)) 1 then Legendary
    else Common.

(** [ForgedKey.calculate_rarity] *)
Definition ForgedKey_calculate_rarity (env : Env) (self : ForgedKey) : res Rarity :=
  let* keys := ForgedKey_get_star_keys env self in
  Ok (rarity_of_keys keys).

End Models.

(** ** [core/views.py]: [draw_detail] and [process_draw] *)

#[warnings="-register-all"]
Inductive jval : Type :=
| JNull
| JBool (b : bool)
| JInt (n : Z)
| JFloat (x : Q)
| JStr (s : string)
| JIntList (l : list Z)
| JDateTime (t : Z)
| JStrOf (e : exn)                       (* str(e) *)
| JDict (d : list (string * jval)).

(** [d[k]] / [d.get(k)] on a dictionary literal, kept in insertion order. *)
Fixpoint dict_get (k : string) (d : list (string * jval)) : option jval :=
  match d with
  | [] => None
  | (k', v) :: d' => if String.eqb k k' then Some v else dict_get k d'
  end.

Record Request : Type := {
  req_user : option User;     (* None: AnonymousUser *)
  req_method : string
}.

Inductive Response : Type :=
| JsonResponse (body : jval)
| RedirectToLogin                        (* @login_required *)
| HttpResponseNotAllowed.                (* @require_http_methods *)

(** The database and the keys that are live in the cache. *)
Record World : Type := {
  db : DB;
  cache : gset string
}.

Definition cache_delete_many (keys : list string) (w : World) : World :=
  {| db := db w; cache := cache w ∖ list_to_set keys |}.

Definition get_object_or_404 {A : Type} (key : A -> Z) (rows : list A) (id : Z) : res A :=
  match find_by key id rows with
  | Some r => Ok r
  | None => Raise Http404
  end.

(** [Model.objects.filter(id=...).update(...)] *)
Definition update_where {A : Type} (key : A -> Z) (id : Z) (f : A -> A) (rows : list A)
  : list A :=
  map (fun r => if key r =? id then f r else r) rows.

(** [with transaction.atomic(): body]: the writes of a body that raises are
    rolled back. *)
Definition atomic {A : Type} (body : DB -> res A * DB) (d : DB) : res A * DB :=
  match body d with
  | (Ok a, d') => (Ok a, d')
  | (r, _) => (r, d)
  end.

Section Views.
Context `{FernetPrimitives} `{Float64}.

(** [draw_detail] *)
Definition draw_detail (env : Env) (request : Request) (draw_id : Z) (w : World)
  : res Response :=
  match req_user request with
  | None => Ok RedirectToLogin
  | Some _ =>
    let* draw := get_object_or_404 d_id (draws (db w)) draw_id in
    let draw_data :=
      [("id", JInt (d_id draw));
       ("title", JStr (d_title draw));
       ("status", JStr (match d_status draw with
                        | UPCOMING => "UPCOMING" | ACTIVE => "ACTIVE"
                        | ENDED => "ENDED" | CANCELLED => "CANCELLED"
                        end));
       ("prize_pool", JFloat (float (PyDecimal (d_prize_pool draw))));
       ("draw_datetime", JDateTime (d_draw_datetime draw));
       ("total_tickets_sold", JInt (d_total_tickets_sold draw));
       ("can_participate", JBool (Draw_can_participate env draw))]%string in
    if DrawStatus_eqb (d_status draw) ENDED then
      let* keys := Draw_get_star_keys env draw in
      let draw_data := draw_data ++ [("winning_keys"%string, JIntList keys)] in
      match d_winner_wallet draw with
      | Some wid =>
        if negb (wid =? 0) then
          (* User.objects.filter(userwallet__id=...): the wallet's link to
             its user is declared with related_name='wallet', so [User] has
             no lookup named [userwallet] and the filter raises *)
          Raise FieldError
        else Ok (JsonResponse (JDict [("draw"%string, JDict draw_data)]))
      | None => Ok (JsonResponse (JDict [("draw"%string, JDict draw_data)]))
      end
    else Ok (JsonResponse (JDict [("draw"%string, JDict draw_data)]))
  end.

Definition json_failure (error : jval) : Response :=
  JsonResponse (JDict [("success", JBool false); ("error", error)]%string).

(** The body of the [try] of [process_draw] once the guard has passed. *)
Definition process_draw_run (env : Env) (draw_id : Z) (draw : Draw) (w : World)
  : res Response * World :=
  (* Find winner *)
  let '(found, draw1, db1) := Draw_map_winner env draw (db w) in
  let w1 := {| db := db1; cache := cache w |} in
  match found with
  | Unmodelled => (Unmodelled, w1)
  | Raise e => (Raise e, w1)
  | Ok winner =>
    let '(committed, db2) :=
      atomic
        (fun d =>
           match winner with
           | Some fk =>
             match py_mul (PyDecimal (d_prize_pool draw1)) (PyFloat (fl (7 # 10))) with
             | Ok prize_amount =>
               (Ok (Some prize_amount),
                with_draws d
                  (update_where d_id draw_id
                     (fun r =>
                        set_d_winner
                          (set_d_status
                             (set_d_total_prize_distributed r (pynum_val prize_amount))
                             ENDED)
                          (Some (fk_serial_number fk)) (Some (fk_user_wallet fk)))
                     (draws d)))
             | Raise e => (Raise e, d)
             | Unmodelled => (Unmodelled, d)
             end
           | None =>
             (Ok None,
              with_draws d
                (update_where d_id draw_id (fun r => set_d_status r ENDED) (draws d)))
           end)
        db1 in
    match committed with
    | Unmodelled => (Unmodelled, {| db := db2; cache := cache w |})
    | Raise e => (Raise e, {| db := db2; cache := cache w |})
    | Ok prize_amount =>
      (* Clear relevant caches *)
      let w2 :=
        cache_delete_many ["platform_stats"; "landing_page_data"]%string
          {| db := db2; cache := cache w |} in
      let winner_json :=
        match winner, prize_amount with
        | Some fk, Some amount =>
          let* name := wallet_username db2 (fk_user_wallet fk) in
          Ok (JDict [("username", JStr name);
                     ("serial_number", JStr (fk_serial_number fk));
                     ("prize_amount", JFloat (float amount))]%string)
        | _, _ => Ok JNull
        end in
      match winner_json with
      | Ok wj =>
        (Ok (JsonResponse
               (JDict [("success", JBool true);
                       ("winner", wj);
                       ("message", JStr "Draw processed successfully")]%string)),
         w2)
      | Raise e => (Raise e, w2)
      | Unmodelled => (Unmodelled, w2)
      end
    end
  end.

(** [process_draw] *)
Definition process_draw (env : Env) (request : Request) (draw_id : Z) (w : World)
  : res Response * World :=
  match req_user request with
  | None => (Ok RedirectToLogin, w)
  | Some user =>
    if negb (String.eqb (req_method request) "POST") then (Ok HttpResponseNotAllowed, w)
    else if negb (u_is_staff user) then
      (Ok (json_failure (JStr "Admin access required")), w)
    else
      let '(r, w') :=
        match get_object_or_404 d_id (draws (db w)) draw_id with
        | Ok draw =>
          if negb (DrawStatus_eqb (d_status draw) ACTIVE)
             || (timezone_now env <? d_draw_datetime draw)
          then (Ok (json_failure (JStr "Draw cannot be processed")), w)
          else process_draw_run env draw_id draw w
        | Raise e => (Raise e, w)
        | Unmodelled => (Unmodelled, w)
        end in
      (* except Exception as e *)
      match r with
      | Raise e => (Ok (json_failure (JStrOf e)), w')
      | _ => (r, w')
      end
  end.

End Views.

(** ** [core/views.py]: [submit_keys] and [create_draw] *)

(** [f"{n:04d}"]: decimal, padded with zeros to four characters, the sign
    included. *)
Definition fmt_04d (n : Z) : list ascii :=
  let ds := Json.int_repr (Z.abs n) in
  if n <? 0 then "-"%char :: repeat "0"%char (3 - length ds) ++ ds
  else repeat "0"%char (4 - length ds) ++ ds.

(** [f"AK{draw_id:04d}{user_wallet_id:04d}{next_serial:04d}"] *)
Definition serial_of (draw_id user_wallet_id next_serial : Z) : string :=
  string_of_list_ascii
    ("A"%char :: "K"%char :: fmt_04d draw_id ++ fmt_04d user_wallet_id ++ fmt_04d next_serial).

(** An element of the submitted [star_keys] list: an integer, or a value
    that [isinstance(k, int)] rejects.  (Booleans, which Python counts as
    integers, are not modelled.) *)
Inductive KeyItem : Type :=
| KInt (k : Z)
| KOther.

(** What [json.loads(request.body)] and [data.get('star_keys', [])] give:
    the body is not JSON or not a JSON object, so that one of the two
    raises, or the list found under [star_keys] (the empty list when the
    key is absent). *)
Inductive SubmitBody : Type :=
| NotAnObject
| StarKeys (items : list KeyItem).

Definition item_valid (i : KeyItem) : bool :=
  match i with
  | KInt k => (0 <=? k) && (k <=? 9)
  | KOther => false
  end.

Definition item_value (i : KeyItem) : Z :=
  match i with KInt k => k | KOther => 0 end.

(** The cache keys of a user. *)
Definition user_key (prefix : string) (user_id : Z) (suffix : string) : string :=
  (prefix ++ string_of_list_ascii (Json.int_repr user_id) ++ suffix)%string.

Definition cache_set (key : string) (w : World) : World :=
  {| db := db w; cache := cache w ∪ {[ key ]} |}.

Definition set_d_total_tickets_sold (self : Draw) (v : Z) : Draw :=
  {| d_id := d_id self; d_title := d_title self; d_prize_pool := d_prize_pool self;
     d_star_keys := d_star_keys self;
     d_nft_id := d_nft_id self; d_hcs_message_id := d_hcs_message_id self;
     d_status := d_status self; d_draw_datetime := d_draw_datetime self;
     d_updated_at := d_updated_at self;
     d_total_tickets_sold := v;
     d_total_prize_distributed := d_total_prize_distributed self;
     d_winning_ticket_serial := d_winning_ticket_serial self;
     d_winner_wallet := d_winner_wallet self |}.

(** What a view that swallows its exceptions needs to know of a failed
    block: that it failed. *)
Inductive attempt (A : Type) : Type :=
| Done (a : A)
| Failed
| Beyond.   (* the block left the modelled fragment *)
Arguments Done {A} a.
Arguments Failed {A}.
Arguments Beyond {A}.

Definition attempt_of {A : Type} (r : res A) : attempt A :=
  match r with
  | Ok a => Done a
  | Raise _ => Failed
  | Unmodelled => Beyond
  end.

Definition submission_failure (error : string) : Response :=
  json_failure (JStr error).

Section Views2.
Context `{FernetPrimitives} `{Float64}.

(** The [with transaction.atomic()] block of [submit_keys].  [new_pk] is
    the primary key the database gives the new row.  The result is the
    serial and the database, or a failure, in which case nothing is
    written.  The database refuses the new row, at the insert or when the
    block commits, if its wallet does not exist (the id may come from a
    stale cache entry) or if its serial is taken. *)
Definition submit_keys_atomic (env : Env) (draw_id user_wallet_id new_pk : Z)
  (star_keys : list Z) (d : DB) : attempt (string * DB) :=
  let next_serial :=
    Z.of_nat (length (List.filter (fun fk => fk_draw fk =? draw_id) (forgedkeys d))) + 1 in
  let serial_number := serial_of draw_id user_wallet_id next_serial in
  (* ForgedKey.objects.create(...): user_wallet is a foreign key,
     serial_number is unique *)
  if negb (existsb (fun wl => w_id wl =? user_wallet_id) (userwallets d))
     || existsb (fun fk => String.eqb (fk_serial_number fk) serial_number) (forgedkeys d)
  then Failed
  else
    let row :=
      {| fk_id := new_pk; fk_user_wallet := user_wallet_id; fk_draw := draw_id;
         fk_star_keys := None; fk_serial_number := serial_number;
         fk_created_at := timezone_now env; fk_updated_at := timezone_now env |} in
    match ForgedKey_save env row d with
    | Ok (forged_key, d1) =>
      (* the keys are set on the object; the object is not saved again *)
      match ForgedKey_set_star_keys env forged_key star_keys with
      | Ok _ =>
        Done (serial_number,
              with_draws d1
                (update_where d_id draw_id
                   (fun r => set_d_total_tickets_sold r (d_total_tickets_sold r + 1))
                   (draws d1)))
      | Raise _ => Failed
      | Unmodelled => Beyond
      end
    | Raise _ => Failed
    | Unmodelled => Beyond
    end.

(** [submit_keys].  [body] is the parsed request body, [cached_wallet] the
    value that [cache.get] finds under the wallet key of the user (None
    when the key is not live), [new_pk] the key of the row to be created. *)
Definition submit_keys (env : Env) (request : Request) (body : SubmitBody)
  (cached_wallet : option Z) (new_pk : Z) (draw_id : Z) (w : World)
  : attempt Response * World :=
  match req_user request with
  | None => (Done RedirectToLogin, w)
  | Some user =>
    if negb (String.eqb (req_method request) "POST") then (Done HttpResponseNotAllowed, w)
    else
      let '(r, w') :=
        match find_by d_id draw_id (draws (db w)) with
        | None => (Failed, w)                                (* Http404 *)
        | Some draw =>
          if negb (Draw_can_participate env draw)
          then (Done (submission_failure "Draw not accepting submissions"), w)
          else
            match body with
            | NotAnObject => (Failed, w)
            | StarKeys star_keys =>
              (* Fast validation *)
              if negb (Nat.eqb (length star_keys) 6) || negb (forallb item_valid star_keys)
              then (Done (submission_failure "Invalid keys format"), w)
              else
                let wallet_key := user_key "user_" (u_id user) "_wallet" in
                let found :=
                  match cached_wallet with
                  | Some id => if id =? 0 then None else Some (id, w)
                  | None => None
                  end in
                let looked_up :=
                  match found with
                  | Some hit => Some hit
                  | None =>
                    match List.find (fun wl => w_user wl =? u_id user) (userwallets (db w)) with
                    | Some user_wallet => Some (w_id user_wallet, cache_set wallet_key w)
                    | None => None                           (* Http404 *)
                    end
                  end in
                match looked_up with
                | None => (Failed, w)
                | Some (user_wallet_id, w1) =>
                  (* Check existing submission *)
                  if existsb (fun fk => (fk_user_wallet fk =? user_wallet_id)
                                        && (fk_draw fk =? draw_id))
                       (forgedkeys (db w1))
                  then (Done (submission_failure "Already submitted"), w1)
                  else
                    match submit_keys_atomic env draw_id user_wallet_id new_pk
                            (map item_value star_keys) (db w1) with
                    | Done (serial_number, d2) =>
                      (Done (JsonResponse
                               (JDict [("success", JBool true);
                                       ("serial_number", JStr serial_number);
                                       ("message", JStr "Keys submitted successfully!")]%string)),
                       cache_delete_many
                         [user_key "dashboard_" (u_id user) "";
                          user_key "user_" (u_id user) "_keys"]
                         {| db := d2; cache := cache w1 |})
                    | Failed => (Failed, w1)
                    | Beyond => (Beyond, w1)
                    end
                end
            end
        end in
      (* except Exception *)
      match r with
      | Failed => (Done (submission_failure "Submission failed"), w')
      | _ => (r, w')
      end
  end.

(** The body of [create_draw]: text that is not JSON, or a JSON object with
    the values found under the three required names (None for a name that
    is absent), each as the field of the model reads it: [title] a string,
    [prize_pool] the [Decimal] that [DecimalField.to_python] makes of a
    number or of a string, [draw_datetime] the instant that
    [DateTimeField.to_python] reads.  Values that the fields cannot read
    are not modelled. *)
Inductive CreateBody : Type :=
| NotJson
| Fields (title : option string) (prize_pool : option Q) (draw_datetime : option Z).

(** How a [DecimalField(max_digits=15, decimal_places=2)] prepares its value
    for the database: [value.quantize(Decimal('0.01'))] in a context of 15
    digits, which rounds half to even and raises [InvalidOperation] when
    the result has more than 15 digits. *)
Definition quantize_prize_pool (value : Q) : res Q :=
  let cents := round_half_even (value * 100) in
  if Z.abs cents <? 10 ^ 15 then Ok (inject_Z cents / 100)%Q
  else Raise InvalidOperation.

(** [create_draw].  [winning_keys] is the list drawn by the six calls of
    [random.randint(0, 9)], [new_pk] the key of the row to be created. *)
Definition create_draw (env : Env) (request : Request) (body : CreateBody)
  (winning_keys : list Z) (new_pk : Z) (w : World) : res Response * World :=
  match req_user request with
  | None => (Ok RedirectToLogin, w)
  | Some user =>
    if negb (String.eqb (req_method request) "POST") then (Ok HttpResponseNotAllowed, w)
    else if negb (u_is_staff user) then
      (Ok (json_failure (JStr "Admin access required")), w)
    else
      let '(r, w') :=
        match body with
        | NotJson => (Raise JSONDecodeError, w)
        | Fields (Some title) (Some prize_pool) (Some draw_datetime) =>
          (* Draw.objects.create(...): the columns take the prepared values.
             A title of more than 100 characters is refused by some
             databases and stored by others. *)
          if (100 <? String.length title)%nat then (Unmodelled, w)
          else
          match quantize_prize_pool prize_pool with
          | Raise e => (Raise e, w)
          | Unmodelled => (Unmodelled, w)
          | Ok stored_pool =>
          let row :=
            {| d_id := new_pk; d_title := title; d_prize_pool := stored_pool;
               d_star_keys := ""; d_nft_id := None; d_hcs_message_id := None;
               d_status := UPCOMING; d_draw_datetime := draw_datetime;
               d_updated_at := timezone_now env;
               d_total_tickets_sold := 0; d_total_prize_distributed := 0;
               d_winning_ticket_serial := None; d_winner_wallet := None |} in
          match Draw_save env row (db w) with
          | Ok (draw, d1) =>
            let w1 := {| db := d1; cache := cache w |} in
            match Draw_set_star_keys env draw winning_keys with
            | Ok draw1 =>
              match Draw_save env draw1 d1 with
              | Ok (draw2, d2) =>
                (Ok (JsonResponse
                       (JDict [("success", JBool true);
                               ("draw_id", JInt (d_id draw2));
                               ("draw_title", JStr (d_title draw2));
                               ("message", JStr "Draw created successfully")]%string)),
                 cache_delete_many ["platform_stats"; "landing_page_data"]%string
                   {| db := d2; cache := cache w |})
              | Raise e => (Raise e, w1)
              | Unmodelled => (Unmodelled, w1)
              end
            | Raise e => (Raise e, w1)
            | Unmodelled => (Unmodelled, w1)
            end
          | Raise e => (Raise e, w)
          | Unmodelled => (Unmodelled, w)
          end
          end
        | Fields _ _ _ =>
          (Ok (json_failure (JStr "Missing required fields")), w)
        end in
      (* except Exception as e *)
      match r with
      | Raise e => (Ok (json_failure (JStrOf e)), w')
      | _ => (r, w')
      end
  end.

End Views2.

(* ===================================================================== *)
(** * Part II: vocabulary of the statements                               *)
(* ===================================================================== *)

(** Checking a decidable property of small numbers by enumeration. *)
Definition all_below (n : nat) (P : Z -> bool) : bool :=
  forallb P (map Z.of_nat (seq 0 n)).

Definition is_ascii (b : bytes) : Prop := Forall (fun c => byte_val c < 128) b.

Module B64Spec.

(** The four sextets of three bytes. *)
Definition e0 (a : Z) : Z := Z.shiftr a 2.
Definition e1 (a b : Z) : Z := Z.lor (Z.shiftl (Z.land a 3) 4) (Z.shiftr b 4).
Definition e2 (b c : Z) : Z := Z.lor (Z.shiftl (Z.land b 15) 2) (Z.shiftr c 6).
Definition e3 (c : Z) : Z := Z.land c 63.

Definition to_url (c : ascii) : ascii :=
  if Ascii.eqb c "+" then "-"%char else if Ascii.eqb c "/" then "_"%char else c.
Definition of_url (c : ascii) : ascii :=
  if Ascii.eqb c "-" then "+"%char else if Ascii.eqb c "_" then "/"%char else c.

Definition in64 (z : Z) : bool := (0 <=? z) && (z <? 64).

(** The bit identities behind one quad, to be checked on all byte values. *)
Definition quad_facts (a b : Z) : bool :=
  in64 (e0 a) && in64 (e1 a b) && in64 (e2 a b) && in64 (e3 a)
  && (Z.lor (Z.shiftl (e0 a) 2) (Z.shiftr (e1 a b) 4) =? a)
  && (Z.land (e1 a b) 15 =? Z.shiftr b 4)
  && (Z.lor (Z.shiftl (Z.shiftr a 4) 4) (Z.shiftr (e2 a b) 2) =? a)
  && (Z.land (e2 a b) 3 =? Z.shiftr b 6)
  && (Z.lor (Z.shiftl (Z.shiftr a 6) 6) (e3 a) =? a).

End B64Spec.

Section Vocabulary.
Context `{FernetPrimitives}.

(** The bytes under the base64 layer of a token. *)
Definition token_bytes (f : Fernet.t) (t : Z) (iv data : bytes) : bytes :=
  let basic_parts :=
    byte_of 128 :: be_bytes t ++ iv
      ++ aes128_cbc_encrypt (Fernet.encryption_key f) iv (PKCS7.pad data) in
  basic_parts ++ hmac_sha256 (Fernet.signing_key f) basic_parts.

(** The key that the three codec methods derive from the secret. *)
Definition derived_key (secret_key : string) : bytes :=
  firstn 32 (ljust 32 (encode secret_key)).

Definition fernet_of (secret_key : string) : Fernet.t :=
  {| Fernet.signing_key := firstn 16 (derived_key secret_key);
     Fernet.encryption_key := skipn 16 (derived_key secret_key) |}.

(** The token that [encrypt_data] returns for a secret, a clock reading, an
    initialisation vector and a plaintext. *)
Definition ciphertext_of (secret_key : string) (t : Z) (iv : bytes) (data : string)
  : string :=
  string_of_list_ascii
    (Base64.urlsafe_b64encode (token_bytes (fernet_of secret_key) t iv (encode data))).

End Vocabulary.

(** An environment in which the codec works: a secret is configured, the
    random source yields sixteen bytes and the clock fits eight bytes. *)
Definition env_ok (env : Env) : Prop :=
  falsy (SECRET_KEY env) = false
  /\ length (urandom16 env) = 16%nat
  /\ 0 <= time_time env < 2 ^ 64.

Definition secret_of (env : Env) : string := default EmptyString (SECRET_KEY env).

(** A symbol is a digit 0-9; a combination is a list of symbols. *)
Definition is_symbol (x : Z) : Prop := 0 <= x <= 9.
Definition symbols (c : list Z) : Prop := Forall is_symbol c.

(** What may follow a number inside an array written by [dumps]. *)
Definition separated (rest : list ascii) : Prop :=
  exists r, rest = ","%char :: r \/ rest = "]"%char :: r.

(** Largest key first. *)
Definition descending {A : Type} (key : A -> Z) (l : list A) : Prop :=
  StronglySorted (fun a b => key b <= key a) l.

(** A degenerate instance of the primitives, the identity with a constant
    tag.  It only serves to run the model on examples. *)
Definition null_primitives : FernetPrimitives :=
  {| aes128_cbc_encrypt := fun _ _ p => p;
     aes128_cbc_decrypt := fun _ _ c => c;
     hmac_sha256 := fun _ _ => repeat "000"%char 32;
     aes128_cbc_length := fun _ _ _ _ => eq_refl;
     aes128_cbc_inverse := fun _ _ _ _ _ _ => eq_refl;
     hmac_sha256_length := fun _ _ => eq_refl |}.

(** Floats without rounding. *)
Definition exact_float : Float64 := fun q => q.

(** Example data. *)
Definition example_env (iv_byte : ascii) : Env :=
  {| SECRET_KEY := Some "s3cret"%string;
     time_time := 1700000000;
     urandom16 := repeat iv_byte 16;
     timezone_now := 1700000500 |}.

Definition example_draw (star_keys : string) (status : DrawStatus) : Draw :=
  {| d_id := 1; d_title := "Nebula-1 Convergence"; d_prize_pool := 1000;
     d_star_keys := star_keys; d_nft_id := None; d_hcs_message_id := None;
     d_status := status; d_draw_datetime := 1700000100; d_updated_at := 0;
     d_total_tickets_sold := 1; d_total_prize_distributed := 0;
     d_winning_ticket_serial := None; d_winner_wallet := None |}.

Definition example_ticket (id : Z) (star_keys : option string) : ForgedKey :=
  {| fk_id := id; fk_user_wallet := 7; fk_draw := 1; fk_star_keys := star_keys;
     fk_serial_number := "AK000100070001"; fk_created_at := id; fk_updated_at := 0 |}.

Definition example_wallet : UserWallet :=
  {| w_id := 7; w_user := 3; w_fiat_balance := 0; w_public_key := None;
     w_private_key := Some "302e020100300506032b657004220420"%string;
     w_recipient_id := None |}.

Definition example_user : User :=
  {| u_id := 3; u_username := "ann@example.org"; u_is_staff := true |}.

Definition example_db (d : Draw) (tickets : list ForgedKey) : DB :=
  {| users := [example_user]; userwallets := [example_wallet];
     draws := [d]; forgedkeys := tickets |}.

(** The token for a combination in the example environment. *)
Definition example_token (iv_byte : ascii) (c : list Z) : string :=
  @ciphertext_of null_primitives "s3cret" 1700000000 (repeat iv_byte 16) (Json.dumps c).

(** The rarity rules in the words of the specification: pairwise distinct,
    else all even, else all odd, else all identical, else common. *)
Definition all_identical (keys : list Z) : bool :=
  match keys with
  | [] => true
  | x :: rest => forallb (Z.eqb x) rest
  end.

Definition rarity_spec (keys : list Z) : Rarity :=
  if bool_decide (NoDup keys) then Rare
  else if forallb Z.even keys then Epic
  else if forallb Z.odd keys then Epic
  else if all_identical keys then Legendary
  else Common.

Definition staff_post : Request :=
  {| req_user := Some example_user; req_method := "POST" |}.

Definition is_staff_post (request : Request) : Prop :=
  exists user, req_user request = Some user /\ u_is_staff user = true
               /\ req_method request = "POST"%string.

Definition rejected : res Response :=
  Ok (json_failure (JStr "Draw cannot be processed")).

Definition example_world (d : Draw) (tickets : list ForgedKey) : World :=
  {| db := example_db d tickets; cache := {[ "platform_stats"%string ]} |}.


(** An environment without a secret. *)
Definition example_env_no_secret : Env :=
  {| SECRET_KEY := None; time_time := 1700000000;
     urandom16 := repeat "001"%char 16; timezone_now := 1700000500 |}.

(** The answer of a run of [process_draw] that found no winner. *)
Definition processed_no_winner : Response :=
  JsonResponse
    (JDict [("success", JBool true); ("winner", JNull);
            ("message", JStr "Draw processed successfully")]%string).

(** The database after [Draw.objects.filter(id=draw_id).update(status=ENDED)]. *)
Definition ended (draw_id : Z) (d : DB) : DB :=
  with_draws d (update_where d_id draw_id (fun r => set_d_status r ENDED) (draws d)).

(** The number that a list of decimal digits writes. *)
Definition digits_value (l : list ascii) : Z :=
  fold_left (fun acc c => 10 * acc + (byte_val c - 48)) l 0.

(** A draw of the example that still accepts tickets. *)
Definition example_open_draw : Draw :=
  {| d_id := 1; d_title := "Nebula-1 Convergence"; d_prize_pool := 1000;
     d_star_keys := ""; d_nft_id := None; d_hcs_message_id := None;
     d_status := ACTIVE; d_draw_datetime := 1800000000; d_updated_at := 0;
     d_total_tickets_sold := 0; d_total_prize_distributed := 0;
     d_winning_ticket_serial := None; d_winner_wallet := None |}.

(** The row that [Draw.objects.create] of [create_draw] inserts, with the
    value of its [star_keys] column. *)
Definition created_draw (env : Env) (new_pk : Z) (title : string) (prize_pool : Q)
  (draw_datetime : Z) (star_keys : string) : Draw :=
  {| d_id := new_pk; d_title := title; d_prize_pool := prize_pool;
     d_star_keys := star_keys; d_nft_id := None; d_hcs_message_id := None;
     d_status := UPCOMING; d_draw_datetime := draw_datetime;
     d_updated_at := timezone_now env;
     d_total_tickets_sold := 0; d_total_prize_distributed := 0;
     d_winning_ticket_serial := None; d_winner_wallet := None |}.

(** The keys that [get_star_keys] has read; the empty list where it gave
    no list. *)
Definition keys_read (r : res (list Z)) : list Z :=
  match r with
  | Ok keys => keys
  | _ => []
  end.

Section Matching.
Context `{FernetPrimitives}.

(** The distinct symbols that a ticket shares with the winning combination
    of a draw. *)
Definition shared_symbols (env : Env) (d : Draw) (fk : ForgedKey) : gset Z :=
  list_to_set (keys_read (Draw_get_star_keys env d))
  ∩ list_to_set (keys_read (ForgedKey_get_star_keys env fk)).

Definition shared_count (env : Env) (d : Draw) (fk : ForgedKey) : Z :=
  Z.of_nat (size (shared_symbols env d fk)).

(** The entry of a ticket in a list of near winners. *)
Definition near_match (env : Env) (d : Draw) (fk : ForgedKey) : Match :=
  {| forged_key := fk;
     match_count := shared_count env d fk;
     matched_keys := shared_symbols env d fk |}.

(** The tickets of a draw that share at least [min_matches] distinct
    symbols with its winning combination, in the order of the table. *)
Definition qualifying_tickets (env : Env) (d : Draw) (db0 : DB) (min_matches : Z)
  : list ForgedKey :=
  List.filter (fun fk => min_matches <=? shared_count env d fk) (forged_keys_of d db0).

(** The near winners of a draw: one entry for each qualifying ticket, the
    best first, and in the order of the table among equals. *)
Definition near_winners (env : Env) (d : Draw) (db0 : DB) (min_matches : Z)
  : list Match :=
  sort_desc match_count (map (near_match env d) (qualifying_tickets env d db0 min_matches)).

(** The winning combination of the draw has six distinct symbols. *)
Definition six_distinct (env : Env) (d : Draw) : bool :=
  Nat.eqb (size (list_to_set (keys_read (Draw_get_star_keys env d)) : gset Z)) 6.

End Matching.



(* ===================================================================== *)
(** * Part III: facts about the libraries and the codec                   *)
(* ===================================================================== *)

(** ** Bytes *)

Lemma byte_val_range (a : ascii) : 0 <= byte_val a < 256.
Proof.
  unfold byte_val. pose proof (N_ascii_bounded a) as Hb. lia.
Qed.

Lemma byte_of_val (a : ascii) : byte_of (byte_val a) = a.
Proof.
  unfold byte_of, byte_val. rewrite N2Z.id. apply ascii_N_embedding.
Qed.

Lemma byte_val_of (z : Z) : 0 <= z < 256 -> byte_val (byte_of z) = z.
Proof.
  intros Hz. unfold byte_of, byte_val.
  rewrite N_ascii_embedding by lia. lia.
Qed.

Lemma all_below_spec (n : nat) (P : Z -> bool) :
  all_below n P = true -> forall z, 0 <= z < Z.of_nat n -> P z = true.
Proof.
  unfold all_below. intros Hall z Hz.
  rewrite forallb_forall in Hall. apply Hall.
  apply in_map_iff. exists (Z.to_nat z). split; [lia|].
  apply in_seq. lia.
Qed.

Lemma list_ind3 {A : Type} (P : list A -> Prop) :
  P [] -> (forall a, P [a]) -> (forall a b, P [a; b]) ->
  (forall a b c l, P l -> P (a :: b :: c :: l)) ->
  forall l, P l.
Proof.
  intros H0 H1 H2 H3.
  assert (Hall : forall l, P l /\ (forall a, P (a :: l)) /\ (forall a b, P (a :: b :: l))).
  { induction l as [|x l [IH0 [IH1 IH2]]].
    - auto.
    - repeat split; auto. }
  intros l. apply Hall.
Qed.

Module Base64Facts.
Import Base64 B64Spec.

Lemma sextet_char (i : Z) :
  0 <= i < 64 ->
  Ascii.eqb (of_url (to_url (b2a_char i))) BASE64_PAD = false
  /\ a2b_index (of_url (to_url (b2a_char i))) = Some i.
Proof.
  intros Hi.
  assert (Hall : all_below 64 (fun i =>
            negb (Ascii.eqb (of_url (to_url (b2a_char i))) BASE64_PAD)
            && bool_decide (a2b_index (of_url (to_url (b2a_char i))) = Some i)) = true)
    by (vm_compute; reflexivity).
  pose proof (all_below_spec _ _ Hall i Hi) as Hc. cbv beta in Hc.
  apply andb_true_iff in Hc as [Hc1 Hc2].
  apply negb_true_iff in Hc1. apply bool_decide_eq_true in Hc2. tauto.
Qed.

Lemma sextet_ascii (i : Z) :
  0 <= i < 64 -> (byte_val (to_url (b2a_char i)) <? 128) = true.
Proof.
  intros Hi.
  assert (Hall : all_below 64 (fun i => byte_val (to_url (b2a_char i)) <? 128) = true)
    by (vm_compute; reflexivity).
  exact (all_below_spec _ _ Hall i Hi).
Qed.

Lemma quad_facts_all (a b : Z) :
  0 <= a < 256 -> 0 <= b < 256 -> quad_facts a b = true.
Proof.
  intros Ha Hb.
  assert (Hall : all_below 256 (fun a => all_below 256 (fun b => quad_facts a b)) = true)
    by (vm_compute; reflexivity).
  pose proof (all_below_spec _ _ Hall a Ha) as H1. cbv beta in H1.
  exact (all_below_spec _ _ H1 b Hb).
Qed.

Lemma a2b_loop_sextet (pos : nat) (lc : Z) (pads : nat) (i : Z) (rest : bytes) :
  0 <= i < 64 ->
  a2b_loop pos lc pads (of_url (to_url (b2a_char i)) :: rest) =
  match pos with
  | 0%nat => a2b_loop 1 i 0 rest
  | 1%nat =>
    let* out := a2b_loop 2 (Z.land i 15) 0 rest in
    Ok (byte_of (Z.lor (Z.shiftl lc 2) (Z.shiftr i 4)) :: out)
  | 2%nat =>
    let* out := a2b_loop 3 (Z.land i 3) 0 rest in
    Ok (byte_of (Z.lor (Z.shiftl lc 4) (Z.shiftr i 2)) :: out)
  | _ =>
    let* out := a2b_loop 0 0 0 rest in
    Ok (byte_of (Z.lor (Z.shiftl lc 6) i) :: out)
  end.
Proof.
  intros Hi. destruct (sextet_char i Hi) as [Hpad Hidx].
  cbn [a2b_loop]. rewrite Hpad, Hidx. reflexivity.
Qed.

Ltac quad_facts a b :=
  let H := fresh "Hq" in
  pose proof (quad_facts_all (byte_val a) (byte_val b)
                (byte_val_range a) (byte_val_range b)) as H;
  unfold quad_facts, in64 in H;
  repeat (apply andb_true_iff in H as [H ?]).

Lemma e1_zero (a : Z) : Z.shiftl (Z.land a 3) 4 = e1 a 0.
Proof. unfold e1. rewrite Z.shiftr_0_l, Z.lor_0_r. reflexivity. Qed.

Lemma e2_zero (b : Z) : Z.shiftl (Z.land b 15) 2 = e2 b 0.
Proof. unfold e2. rewrite Z.shiftr_0_l, Z.lor_0_r. reflexivity. Qed.

Lemma e0_range a : 0 <= e0 (byte_val a) < 64.
Proof. quad_facts a a. lia. Qed.
Lemma e1_range a b : 0 <= e1 (byte_val a) (byte_val b) < 64.
Proof. quad_facts a b. lia. Qed.
Lemma e2_range a b : 0 <= e2 (byte_val a) (byte_val b) < 64.
Proof. quad_facts a b. lia. Qed.
Lemma e3_range a : 0 <= e3 (byte_val a) < 64.
Proof. quad_facts a a. lia. Qed.
Lemma e1_zero_range a : 0 <= e1 (byte_val a) 0 < 64.
Proof.
  pose proof (quad_facts_all (byte_val a) 0 (byte_val_range a) ltac:(lia)) as H.
  unfold quad_facts, in64 in H. repeat (apply andb_true_iff in H as [H ?]). lia.
Qed.
Lemma e2_zero_range a : 0 <= e2 (byte_val a) 0 < 64.
Proof.
  pose proof (quad_facts_all (byte_val a) 0 (byte_val_range a) ltac:(lia)) as H.
  unfold quad_facts, in64 in H. repeat (apply andb_true_iff in H as [H ?]). lia.
Qed.

Lemma out0 a b : byte_of (Z.lor (Z.shiftl (e0 (byte_val a)) 2)
                            (Z.shiftr (e1 (byte_val a) (byte_val b)) 4)) = a.
Proof. quad_facts a b. replace (Z.lor _ _) with (byte_val a) by lia. apply byte_of_val. Qed.

Lemma out0_zero a : byte_of (Z.lor (Z.shiftl (e0 (byte_val a)) 2)
                            (Z.shiftr (e1 (byte_val a) 0) 4)) = a.
Proof.
  pose proof (quad_facts_all (byte_val a) 0 (byte_val_range a) ltac:(lia)) as H.
  unfold quad_facts, in64 in H. repeat (apply andb_true_iff in H as [H ?]).
  replace (Z.lor _ _) with (byte_val a) by lia. apply byte_of_val.
Qed.

Lemma out1 a b c : byte_of (Z.lor (Z.shiftl (Z.land (e1 (byte_val a) (byte_val b)) 15) 4)
                            (Z.shiftr (e2 (byte_val b) (byte_val c)) 2)) = b.
Proof.
  quad_facts a b. quad_facts b c.
  replace (Z.land (e1 _ _) 15) with (Z.shiftr (byte_val b) 4) by lia.
  replace (Z.lor _ _) with (byte_val b) by lia. apply byte_of_val.
Qed.

Lemma out1_zero a b : byte_of (Z.lor (Z.shiftl (Z.land (e1 (byte_val a) (byte_val b)) 15) 4)
                            (Z.shiftr (e2 (byte_val b) 0) 2)) = b.
Proof.
  quad_facts a b.
  pose proof (quad_facts_all (byte_val b) 0 (byte_val_range b) ltac:(lia)) as H'.
  unfold quad_facts, in64 in H'. repeat (apply andb_true_iff in H' as [H' ?]).
  replace (Z.land (e1 _ _) 15) with (Z.shiftr (byte_val b) 4) by lia.
  replace (Z.lor _ _) with (byte_val b) by lia. apply byte_of_val.
Qed.

Lemma out2 b c : byte_of (Z.lor (Z.shiftl (Z.land (e2 (byte_val b) (byte_val c)) 3) 6)
                            (e3 (byte_val c))) = c.
Proof.
  quad_facts b c. quad_facts c c.
  replace (Z.land (e2 _ _) 3) with (Z.shiftr (byte_val c) 6) by lia.
  replace (Z.lor _ _) with (byte_val c) by lia. apply byte_of_val.
Qed.

Lemma a2b_b2a (s : bytes) :
  a2b_loop 0 0 0 (map (fun c => of_url (to_url c)) (b2a_base64 s)) = Ok s.
Proof.
  induction s as [|a|a b|a b c s IH] using list_ind3.
  - reflexivity.
  - cbn [b2a_base64 map]. fold (e0 (byte_val a)). rewrite e1_zero.
    rewrite a2b_loop_sextet by apply e0_range.
    rewrite a2b_loop_sextet by apply e1_zero_range.
    cbn. rewrite out0_zero. reflexivity.
  - cbn [b2a_base64 map]. fold (e0 (byte_val a)) (e1 (byte_val a) (byte_val b)).
    rewrite e2_zero.
    rewrite a2b_loop_sextet by apply e0_range.
    rewrite a2b_loop_sextet by apply e1_range.
    rewrite a2b_loop_sextet by apply e2_zero_range.
    cbn. rewrite out0, out1_zero. reflexivity.
  - cbn [b2a_base64 map].
    fold (e0 (byte_val a)) (e1 (byte_val a) (byte_val b))
         (e2 (byte_val b) (byte_val c)) (e3 (byte_val c)).
    rewrite a2b_loop_sextet by apply e0_range.
    rewrite a2b_loop_sextet by apply e1_range.
    rewrite a2b_loop_sextet by apply e2_range.
    rewrite a2b_loop_sextet by apply e3_range.
    rewrite IH. cbn. rewrite out0, out1, out2. reflexivity.
Qed.

End Base64Facts.

(** [urlsafe_b64decode] undoes [urlsafe_b64encode]. *)
Lemma urlsafe_b64decode_encode (s : bytes) :
  Base64.urlsafe_b64decode (Base64.urlsafe_b64encode s) = Ok s.
Proof.
  unfold Base64.urlsafe_b64decode, Base64.urlsafe_b64encode, Base64.translate2,
    Base64.a2b_base64.
  rewrite map_map. apply Base64Facts.a2b_b2a.
Qed.

Lemma urlsafe_b64encode_inj (s t : bytes) :
  Base64.urlsafe_b64encode s = Base64.urlsafe_b64encode t -> s = t.
Proof.
  intros Heq.
  pose proof (urlsafe_b64decode_encode s) as Hs.
  rewrite Heq, urlsafe_b64decode_encode in Hs. congruence.
Qed.

(** ** Text that is plain ASCII *)

Lemma utf8_valid_ascii (b : bytes) : is_ascii b -> utf8_valid b = true.
Proof.
  induction 1 as [|c r Hc _ IH]; [reflexivity|].
  cbn [utf8_valid]. apply Z.ltb_lt in Hc. rewrite Hc. exact IH.
Qed.

Lemma decode_ascii (b : bytes) : is_ascii b -> decode b = Ok (string_of_list_ascii b).
Proof. intros Hb. unfold decode. rewrite utf8_valid_ascii by assumption. reflexivity. Qed.

Lemma encode_string_of_list (b : bytes) : encode (string_of_list_ascii b) = b.
Proof. apply list_ascii_of_string_of_list_ascii. Qed.

Lemma urlsafe_b64encode_ascii (s : bytes) : is_ascii (Base64.urlsafe_b64encode s).
Proof.
  unfold Base64.urlsafe_b64encode, Base64.translate2, is_ascii.
  induction s as [|a|a b|a b c s IH] using list_ind3; cbn [Base64.b2a_base64 map].
  - constructor.
  - fold (B64Spec.e0 (byte_val a)). rewrite Base64Facts.e1_zero.
    repeat constructor;
      try (apply Z.ltb_lt; apply Base64Facts.sextet_ascii;
           auto using Base64Facts.e0_range, Base64Facts.e1_zero_range);
      vm_compute; reflexivity.
  - fold (B64Spec.e0 (byte_val a)) (B64Spec.e1 (byte_val a) (byte_val b)).
    rewrite Base64Facts.e2_zero.
    repeat constructor;
      try (apply Z.ltb_lt; apply Base64Facts.sextet_ascii;
           auto using Base64Facts.e0_range, Base64Facts.e1_range,
             Base64Facts.e2_zero_range);
      vm_compute; reflexivity.
  - fold (B64Spec.e0 (byte_val a)) (B64Spec.e1 (byte_val a) (byte_val b))
         (B64Spec.e2 (byte_val b) (byte_val c)) (B64Spec.e3 (byte_val c)).
    repeat (constructor;
      [apply Z.ltb_lt; apply Base64Facts.sextet_ascii;
       auto using Base64Facts.e0_range, Base64Facts.e1_range,
         Base64Facts.e2_range, Base64Facts.e3_range|]).
    exact IH.
Qed.

(** ** PKCS7 *)

Lemma pad_length (data : bytes) :
  (length (PKCS7.pad data) mod 16 = 0)%nat /\ (0 < length (PKCS7.pad data))%nat.
Proof.
  unfold PKCS7.pad. rewrite length_app, repeat_length.
  pose proof (Nat.mod_upper_bound (length data) 16 ltac:(lia)) as Hm.
  pose proof (Nat.div_mod_eq (length data) 16) as Hd.
  split; [|lia].
  replace (length data + (16 - length data mod 16))%nat
    with ((length data / 16 + 1) * 16)%nat by lia.
  apply Nat.Div0.mod_mul.
Qed.

Lemma unpad_pad (data : bytes) : PKCS7.unpad (PKCS7.pad data) = Ok data.
Proof.
  destruct (pad_length data) as [Hmod Hpos].
  unfold PKCS7.unpad. 
  destruct (Nat.eqb_spec (length (PKCS7.pad data)) 0) as [?|_]; [lia|].
  rewrite Hmod. cbn [Nat.eqb negb orb].
  pose proof (Nat.mod_upper_bound (length data) 16 ltac:(lia)) as Hm.
  set (n := (16 - length data mod 16)%nat) in *.
  assert (Hn : (1 <= n <= 16)%nat) by (subst n; lia).
  assert (Hlast : Z.to_nat (byte_val (List.last (PKCS7.pad data) "000"%char)) = n).
  { unfold PKCS7.pad. fold n. destruct n as [|k]; [lia|].
    replace (repeat (byte_of (Z.of_nat (S k))) (S k))
      with (repeat (byte_of (Z.of_nat (S k))) k ++ [byte_of (Z.of_nat (S k))])
      by (symmetry; apply (repeat_cons k)).
    rewrite app_assoc, List.last_last, byte_val_of by lia. lia. }
  rewrite Hlast.
  assert (Hlen : length (PKCS7.pad data) = (length data + n)%nat).
  { unfold PKCS7.pad. fold n. rewrite length_app, repeat_length. reflexivity. }
  rewrite Hlen. replace (length data + n - n)%nat with (length data) by lia.
  unfold PKCS7.pad. fold n.
  rewrite drop_app_length, take_app_length.
  destruct (Nat.leb_spec 1 n); [|lia]. destruct (Nat.leb_spec n 16); [|lia].
  cbn [andb].
  replace (forallb _ _) with true; [reflexivity|].
  symmetry. apply forallb_forall. intros x Hx. apply repeat_spec in Hx. subst x.
  rewrite byte_val_of by lia. apply Nat.eqb_eq. lia.
Qed.
(** ** Fernet *)

Section FernetFacts.
Context `{FernetPrimitives}.

Lemma be_bytes_length (n : Z) : length (be_bytes n) = 8%nat.
Proof. reflexivity. Qed.

Lemma to_bytes8_Ok (n : Z) (ts : bytes) : to_bytes8 n = Ok ts -> ts = be_bytes n.
Proof. unfold to_bytes8. destruct (_ && _); congruence. Qed.

Lemma encrypt_Ok (f : Fernet.t) (t : Z) (iv data tok : bytes) :
  Fernet.encrypt f t iv data = Ok tok ->
  length iv = 16%nat /\ 0 <= t < 2 ^ 64
  /\ tok = Base64.urlsafe_b64encode (token_bytes f t iv data).
Proof.
  unfold Fernet.encrypt, token_bytes, to_bytes8.
  destruct (Nat.eqb_spec (length iv) 16) as [Hiv|]; cbn [negb]; [|discriminate].
  destruct ((0 <=? t) && (t <? 2 ^ 64)) eqn:Ht; cbn [rbind]; [|discriminate].
  apply andb_true_iff in Ht as [Ht1 Ht2].
  apply Z.leb_le in Ht1. apply Z.ltb_lt in Ht2.
  intros [= <-]. auto.
Qed.

Lemma encrypt_defined (f : Fernet.t) (t : Z) (iv data : bytes) :
  length iv = 16%nat -> 0 <= t < 2 ^ 64 ->
  Fernet.encrypt f t iv data = Ok (Base64.urlsafe_b64encode (token_bytes f t iv data)).
Proof.
  intros Hiv Ht. unfold Fernet.encrypt, token_bytes, to_bytes8.
  rewrite Hiv. cbn [Nat.eqb negb].
  replace ((0 <=? t) && (t <? 2 ^ 64)) with true; [reflexivity|].
  symmetry. apply andb_true_iff. split; [apply Z.leb_le|apply Z.ltb_lt]; lia.
Qed.

Lemma decrypt_token_bytes (f : Fernet.t) (t : Z) (iv data : bytes) :
  length (Fernet.encryption_key f) = 16%nat -> length iv = 16%nat ->
  Fernet.decrypt f (Base64.urlsafe_b64encode (token_bytes f t iv data)) = Ok data.
Proof.
  intros Hk Hiv. unfold Fernet.decrypt. rewrite urlsafe_b64decode_encode.
  destruct (pad_length data) as [Hmod _].
  pose proof (aes128_cbc_length (Fernet.encryption_key f) iv _ Hmod) as Hct.
  pose proof (aes128_cbc_inverse (Fernet.encryption_key f) iv _ Hk Hiv Hmod) as Hinv.
  unfold token_bytes.
  set (ct := aes128_cbc_encrypt (Fernet.encryption_key f) iv (PKCS7.pad data)) in *.
  set (bp := byte_of 128 :: be_bytes t ++ iv ++ ct).
  set (mac := hmac_sha256 (Fernet.signing_key f) bp).
  assert (Hmac : length mac = 32%nat) by apply hmac_sha256_length.
  assert (Hbp : length bp = (25 + length ct)%nat).
  { subst bp. cbn [length]. rewrite !length_app, be_bytes_length, Hiv. lia. }
  assert (Hcons : bp ++ mac = byte_of 128 :: (be_bytes t ++ iv ++ ct) ++ mac)
    by reflexivity.
  destruct (bp ++ mac) as [|v tl] eqn:Hd; [discriminate|].
  injection Hcons as Hv _. subst v. rewrite <- Hd. clear Hd tl.
  rewrite byte_val_of by lia. cbn [Z.eqb Pos.eqb negb].
  assert (Hlen : length (bp ++ mac) = (length bp + 32)%nat)
    by (rewrite length_app; lia).
  destruct (Nat.ltb_spec (length (bp ++ mac)) 9) as [?|_]; [lia|].
  rewrite Hlen. replace (length bp + 32 - 32)%nat with (length bp) by lia.
  rewrite take_app_length, drop_app_length.
  fold mac. rewrite bool_decide_eq_true_2 by reflexivity. cbn [negb].
  assert (Hiv' : take 16 (drop 9 (bp ++ mac)) = iv).
  { subst bp. change (byte_of 128 :: be_bytes t ++ iv ++ ct)
      with ((byte_of 128 :: be_bytes t) ++ iv ++ ct).
    rewrite <- !app_assoc.
    rewrite drop_app_length' by reflexivity.
    apply take_app_length'. lia. }
  assert (Hct' : take (length bp - 25) (drop 25 (bp ++ mac)) = ct).
  { subst bp. change (byte_of 128 :: be_bytes t ++ iv ++ ct)
      with ((byte_of 128 :: be_bytes t) ++ iv ++ ct).
    rewrite !app_assoc, <- (app_assoc _ ct mac).
    rewrite drop_app_length' by (rewrite length_app; cbn; lia).
    apply take_app_length'. rewrite !length_app. cbn. lia. }
  rewrite Hiv', Hct', Hiv. cbn [Nat.eqb negb].
  rewrite Hct, Hmod. cbn [Nat.eqb negb].
  rewrite Hinv, unpad_pad. reflexivity.
Qed.

Lemma derived_key_length (secret_key : string) : length (derived_key secret_key) = 32%nat.
Proof.
  unfold derived_key, ljust. rewrite length_take, length_app, repeat_length. lia.
Qed.

Lemma Fernet_new_derived (secret_key : string) :
  Fernet.new (Base64.urlsafe_b64encode (derived_key secret_key))
  = Ok (fernet_of secret_key).
Proof.
  unfold Fernet.new. rewrite urlsafe_b64decode_encode. cbn [reraise_as_ValueError rbind].
  rewrite derived_key_length. reflexivity.
Qed.

Lemma fernet_of_key_length (secret_key : string) :
  length (Fernet.encryption_key (fernet_of secret_key)) = 16%nat.
Proof.
  cbn. rewrite length_drop, derived_key_length. reflexivity.
Qed.

End FernetFacts.

(** ** The key codec of [models.py] *)

Lemma Ok_inj {A : Type} (a b : A) : Ok a = Ok b -> a = b.
Proof. intros Heq. injection Heq. trivial. Qed.

Section CodecFacts.
Context `{FernetPrimitives}.

Lemma encrypt_data_defined (env : Env) (data : string) :
  env_ok env ->
  encrypt_data env data
  = Ok (ciphertext_of (secret_of env) (time_time env) (urandom16 env) data).
Proof.
  intros (Hs & Hiv & Ht). unfold encrypt_data. rewrite Hs.
  fold (secret_of env). fold (derived_key (secret_of env)).
  rewrite Fernet_new_derived. cbn [rbind].
  rewrite encrypt_defined by assumption. cbn [rbind].
  rewrite decode_ascii by apply urlsafe_b64encode_ascii. reflexivity.
Qed.

Lemma encrypt_data_Ok (env : Env) (data c : string) :
  encrypt_data env data = Ok c ->
  env_ok env
  /\ c = ciphertext_of (secret_of env) (time_time env) (urandom16 env) data.
Proof.
  unfold encrypt_data. destruct (falsy (SECRET_KEY env)) eqn:Hs; [discriminate|].
  fold (secret_of env). fold (derived_key (secret_of env)).
  rewrite Fernet_new_derived. cbn [rbind].
  destruct (Fernet.encrypt _ _ _ _) as [tok| |] eqn:Hen;
    cbn [rbind reraise_as_ValueError]; try discriminate.
  apply encrypt_Ok in Hen as (Hiv & Ht & ->).
  rewrite decode_ascii by apply urlsafe_b64encode_ascii.
  cbn [reraise_as_ValueError].
  intros Heq. apply Ok_inj in Heq. subst c. repeat split; auto; apply Ht.
Qed.

Lemma encrypt_data_no_secret (env : Env) (data : string) :
  falsy (SECRET_KEY env) = true -> encrypt_data env data = Raise ValueError.
Proof. intros Hs. unfold encrypt_data. rewrite Hs. reflexivity. Qed.

Lemma decrypt_data_ciphertext (env : Env) (t : Z) (iv : bytes) (data : string) :
  falsy (SECRET_KEY env) = false -> length iv = 16%nat ->
  utf8_valid (encode data) = true ->
  decrypt_data env (ciphertext_of (secret_of env) t iv data) = Ok data.
Proof.
  intros Hs Hiv Hv. unfold decrypt_data. rewrite Hs.
  fold (secret_of env). fold (derived_key (secret_of env)).
  rewrite Fernet_new_derived. cbn [rbind].
  unfold ciphertext_of. rewrite encode_string_of_list.
  rewrite decrypt_token_bytes by (auto using fernet_of_key_length). cbn [rbind].
  unfold decode. rewrite Hv. unfold encode.
  rewrite string_of_list_ascii_of_string. reflexivity.
Qed.

Lemma string_of_list_ascii_inj (a b : list ascii) :
  string_of_list_ascii a = string_of_list_ascii b -> a = b.
Proof.
  intros Heq. rewrite <- (list_ascii_of_string_of_list_ascii a),
    <- (list_ascii_of_string_of_list_ascii b). congruence.
Qed.

(** The initialisation vector can be read off the token. *)
Lemma ciphertext_of_inj_iv (secret_key : string) (t : Z) (iv1 iv2 : bytes)
  (data1 data2 : string) :
  length iv1 = 16%nat -> length iv2 = 16%nat ->
  ciphertext_of secret_key t iv1 data1 = ciphertext_of secret_key t iv2 data2 ->
  iv1 = iv2.
Proof.
  intros H1 H2 Heq. apply string_of_list_ascii_inj, urlsafe_b64encode_inj in Heq.
  unfold token_bytes in Heq. cbn [app] in Heq. injection Heq as Heq.
  rewrite <- !app_assoc in Heq.
  apply (f_equal (take 16)) in Heq.
  rewrite (take_app_length' iv1), (take_app_length' iv2) in Heq by congruence. exact Heq.
Qed.

Lemma marker_bytes (b5 : Z) (tail : bytes) :
  0 <= b5 < 4 ->
  startswith "gAAAA"
    (string_of_list_ascii
       (Base64.urlsafe_b64encode
          (byte_of 128 :: byte_of 0 :: byte_of 0 :: byte_of b5 :: tail))) = true.
Proof.
  intros Hb.
  assert (Hs : Z.shiftr (byte_val (byte_of b5)) 2 = 0).
  { rewrite byte_val_of by lia. rewrite Z.shiftr_div_pow2 by lia.
    apply Z.div_small. change (2 ^ 2) with 4. lia. }
  unfold Base64.urlsafe_b64encode.
  destruct tail as [|x [|y l]];
    cbn [Base64.b2a_base64 Base64.translate2 map]; rewrite Hs; reflexivity.
Qed.

(** The marker that [save] looks for: a token made before the clock reaches
    2^42 seconds starts with [gAAAA]. *)
Lemma ciphertext_of_marker (secret_key : string) (t : Z) (iv : bytes) (data : string) :
  0 <= t < 2 ^ 42 ->
  startswith "gAAAA" (ciphertext_of secret_key t iv data) = true.
Proof.
  intros Ht. unfold ciphertext_of, token_bytes.
  assert (H7 : Z.land (Z.shiftr t (8 * 7)) 255 = 0).
  { rewrite Z.shiftr_div_pow2 by lia. rewrite Z.div_small; [reflexivity|].
    change (2 ^ (8 * 7)) with 72057594037927936. change (2 ^ 42) with 4398046511104 in Ht. lia. }
  assert (H6 : Z.land (Z.shiftr t (8 * 6)) 255 = 0).
  { rewrite Z.shiftr_div_pow2 by lia. rewrite Z.div_small; [reflexivity|].
    change (2 ^ (8 * 6)) with 281474976710656. change (2 ^ 42) with 4398046511104 in Ht. lia. }
  assert (H5 : 0 <= Z.land (Z.shiftr t (8 * 5)) 255 < 4).
  { rewrite Z.shiftr_div_pow2 by lia.
    change (2 ^ (8 * 5)) with 1099511627776. change (2 ^ 42) with 4398046511104 in Ht.
    assert (Hq : 0 <= t / 1099511627776 < 4).
    { split; [apply Z.div_pos; lia|apply Z.div_lt_upper_bound; lia]. }
    change 255 with (Z.ones 8). rewrite Z.land_ones by lia.
    rewrite Z.mod_small; [lia|]. change (2 ^ 8) with 256. lia. }
  unfold be_bytes. cbn [map app]. rewrite H7, H6.
  apply marker_bytes. exact H5.
Qed.

End CodecFacts.

(** ** JSON arrays of symbols *)

Lemma symbol_cases (x : Z) :
  is_symbol x ->
  x = 0 \/ x = 1 \/ x = 2 \/ x = 3 \/ x = 4 \/ x = 5 \/ x = 6 \/ x = 7 \/ x = 8 \/ x = 9.
Proof. unfold is_symbol. lia. Qed.

Ltac symbol_cases x H :=
  destruct (symbol_cases x H) as [->|[->|[->|[->|[->|[->|[->|[->|[->| ->]]]]]]]]].

Lemma int_repr_symbol (x : Z) : is_symbol x -> Json.int_repr x = [Json.digit_char x].
Proof. intros Hx. symbol_cases x Hx; reflexivity. Qed.

Lemma digit_char_props (x : Z) :
  is_symbol x ->
  Json.is_ws (Json.digit_char x) = false
  /\ (Ascii.eqb (Json.digit_char x) "-" || Json.is_digit (Json.digit_char x)) = true
  /\ Ascii.eqb (Json.digit_char x) "]" = false
  /\ byte_val (Json.digit_char x) < 128.
Proof. intros Hx. symbol_cases x Hx; repeat split; reflexivity. Qed.

Lemma match_number_symbol (x : Z) (rest : list ascii) :
  is_symbol x -> separated rest ->
  Json.match_number (Json.digit_char x :: rest) = Ok (x, rest).
Proof.
  intros Hx [r [-> | ->]]; symbol_cases x Hx; reflexivity.
Qed.

Lemma join_items_cons (x : Z) (c : list Z) :
  is_symbol x ->
  Json.join_items (map Json.int_repr (x :: c))
  = Json.digit_char x
    :: match c with
       | [] => []
       | _ :: _ => ","%char :: " "%char :: Json.join_items (map Json.int_repr c)
       end.
Proof.
  intros Hx. cbn [map Json.join_items]. rewrite int_repr_symbol by assumption.
  destruct c; reflexivity.
Qed.

Lemma parse_items_dumps (c : list Z) :
  symbols c -> c <> [] ->
  forall (fuel : nat) (tail : list ascii),
    (length c <= fuel)%nat ->
    Json.parse_items fuel (Json.join_items (map Json.int_repr c) ++ "]"%char :: tail)
    = Ok (c, tail).
Proof.
  induction 1 as [|x c Hx Hc IH]; [congruence|]. intros _ fuel tail Hfuel.
  destruct fuel as [|fuel]; [cbn in Hfuel; lia|].
  rewrite join_items_cons by assumption.
  destruct (digit_char_props x Hx) as (_ & Hd & _ & _).
  cbn [Json.parse_items app]. rewrite Hd.
  destruct c as [|y c'].
  - rewrite match_number_symbol by (auto; exists tail; auto). reflexivity.
  - rewrite match_number_symbol by (auto; eexists; left; reflexivity).
    cbn [rbind]. cbn [app Json.skip_ws Json.is_ws Ascii.eqb Bool.eqb orb].
    change (Json.is_ws ","%char) with false. cbv iota.
    change (Ascii.eqb "," "]") with false. change (Ascii.eqb "," ",") with true.
    cbv iota.
    assert (Hy : is_symbol y) by (inversion Hc; assumption).
    assert (Hskip : Json.skip_ws
               (Json.join_items (map Json.int_repr (y :: c')) ++ "]"%char :: tail)
             = Json.join_items (map Json.int_repr (y :: c')) ++ "]"%char :: tail).
    { rewrite join_items_cons by assumption.
      destruct (digit_char_props y Hy) as (Hw & _).
      cbn [Json.skip_ws app]. rewrite Hw. reflexivity. }
    rewrite Hskip, IH by (cbn in *; congruence || lia). reflexivity.
Qed.

Lemma join_items_length (c : list Z) :
  symbols c -> (length c <= length (Json.join_items (map Json.int_repr c)))%nat.
Proof.
  induction 1 as [|x c Hx Hc IH]; [cbn; lia|].
  rewrite join_items_cons by assumption. destruct c; cbn [length] in *; lia.
Qed.

(** [json.loads(json.dumps(c)) == c] for a list of symbols. *)
Lemma loads_dumps (c : list Z) : symbols c -> Json.loads (Json.dumps c) = Ok c.
Proof.
  intros Hc. unfold Json.loads, Json.dumps.
  rewrite list_ascii_of_string_of_list_ascii.
  cbn [Json.skip_ws]. change (Json.is_ws "["%char) with false. cbv iota.
  change (Ascii.eqb "[" "[") with true. cbv iota.
  destruct c as [|x c'].
  - reflexivity.
  - pose proof (join_items_length _ Hc) as Hlen.
    assert (Hx : is_symbol x) by (inversion Hc; assumption).
    pose proof (join_items_cons x c' Hx) as Hj.
    destruct (digit_char_props x Hx) as (Hw & _ & Hb & _).
    set (J := Json.join_items (map Json.int_repr (x :: c'))) in *.
    assert (Hs : Json.skip_ws (J ++ ["]"%char]) = J ++ ["]"%char]).
    { rewrite Hj. cbn [app Json.skip_ws]. rewrite Hw. reflexivity. }
    rewrite Hs.
    destruct (J ++ ["]"%char]) as [|d r'] eqn:Hbody.
    { rewrite Hj in Hbody. discriminate. }
    assert (Hd : Ascii.eqb d "]" = false).
    { rewrite Hj in Hbody. injection Hbody as <- _. exact Hb. }
    rewrite Hd, <- Hbody.
    subst J. rewrite parse_items_dumps; [reflexivity|assumption|congruence|].
    cbn [length] in *. rewrite length_app. cbn [length]. lia.
Qed.

Lemma dumps_ascii (c : list Z) : symbols c -> is_ascii (encode (Json.dumps c)).
Proof.
  intros Hc. unfold encode, Json.dumps. rewrite list_ascii_of_string_of_list_ascii.
  constructor; [reflexivity|].
  apply Forall_app. split; [|repeat constructor].
  induction Hc as [|x c Hx Hc IH]; [constructor|].
  rewrite join_items_cons by assumption.
  destruct (digit_char_props x Hx) as (_ & _ & _ & Ha).
  constructor; [assumption|].
  destruct c; [constructor|]. repeat (constructor; [reflexivity|]). exact IH.
Qed.

Lemma dumps_utf8 (c : list Z) : symbols c -> utf8_valid (encode (Json.dumps c)) = true.
Proof. intros Hc. apply utf8_valid_ascii, dumps_ascii, Hc. Qed.

(* ===================================================================== *)
(** * Part IV: facts about the model                                      *)
(* ===================================================================== *)

(** ** Tables and sorting *)

Lemma find_by_key {A : Type} (key : A -> Z) (id : Z) (rows : list A) (r : A) :
  find_by key id rows = Some r -> key r = id /\ In r rows.
Proof.
  unfold find_by. intros Hf. apply find_some in Hf as [Hin Hk].
  apply Z.eqb_eq in Hk. auto.
Qed.

Lemma find_by_upsert {A : Type} (key : A -> Z) (x : A) (rows : list A) :
  find_by key (key x) (upsert key x rows) = Some x.
Proof.
  unfold find_by. induction rows as [|y rows IH]; cbn [upsert find].
  - rewrite Z.eqb_refl. reflexivity.
  - destruct (key y =? key x) eqn:Hk; cbn [find].
    + rewrite Z.eqb_refl. reflexivity.
    + rewrite Hk. exact IH.
Qed.

Lemma find_by_upsert_other {A : Type} (key : A -> Z) (x : A) (id : Z) (rows : list A) :
  id <> key x -> find_by key id (upsert key x rows) = find_by key id rows.
Proof.
  intros Hne. unfold find_by. induction rows as [|y rows IH]; cbn [upsert find].
  - destruct (Z.eqb_spec (key x) id); [congruence|reflexivity].
  - destruct (Z.eqb_spec (key y) (key x)) as [Hk|Hk]; cbn [find].
    + destruct (Z.eqb_spec (key x) id); [congruence|].
      destruct (Z.eqb_spec (key y) id); [congruence|]. reflexivity.
    + destruct (Z.eqb_spec (key y) id); [reflexivity|]. exact IH.
Qed.

Lemma find_by_update_where {A : Type} (key : A -> Z) (id : Z) (f : A -> A)
  (rows : list A) :
  (forall r, key (f r) = key r) ->
  find_by key id (update_where key id f rows) = option_map f (find_by key id rows).
Proof.
  intros Hf. unfold find_by, update_where.
  induction rows as [|y rows IH]; [reflexivity|]. cbn [map find].
  destruct (Z.eqb_spec (key y) id) as [Hk|Hk].
  - rewrite Hf. destruct (Z.eqb_spec (key y) id); [reflexivity|congruence].
  - destruct (Z.eqb_spec (key y) id); [congruence|]. exact IH.
Qed.

Lemma insert_desc_perm {A : Type} (key : A -> Z) (x : A) (l : list A) :
  Permutation (insert_desc key x l) (x :: l).
Proof.
  induction l as [|y l IH]; cbn [insert_desc]; [reflexivity|].
  destruct (key y <=? key x); [reflexivity|].
  rewrite IH. apply perm_swap.
Qed.

Lemma sort_desc_perm {A : Type} (key : A -> Z) (l : list A) :
  Permutation (sort_desc key l) l.
Proof.
  unfold sort_desc. induction l as [|x l IH]; cbn [foldr]; [reflexivity|].
  rewrite insert_desc_perm, IH. reflexivity.
Qed.

Lemma sort_desc_In {A : Type} (key : A -> Z) (l : list A) (x : A) :
  In x (sort_desc key l) <-> In x l.
Proof.
  split; apply Permutation_in; [|symmetry]; apply sort_desc_perm.
Qed.

Lemma sort_desc_length {A : Type} (key : A -> Z) (l : list A) :
  length (sort_desc key l) = length l.
Proof. apply Permutation_length, sort_desc_perm. Qed.

Lemma insert_desc_sorted {A : Type} (key : A -> Z) (x : A) (l : list A) :
  descending key l -> descending key (insert_desc key x l).
Proof.
  unfold descending. induction 1 as [|y l Hl IH Hy]; cbn [insert_desc].
  - repeat constructor.
  - destruct (Z.leb_spec (key y) (key x)) as [Hle|Hlt].
    + constructor; [constructor; assumption|].
      constructor; [assumption|].
      eapply Forall_impl; [exact Hy|]. cbv beta. intros; lia.
    + constructor; [exact IH|].
      rewrite Forall_forall. intros z Hz. apply list_elem_of_In in Hz.
      apply (Permutation_in _ (insert_desc_perm key x l)) in Hz.
      destruct Hz as [<-|Hz]; [lia|].
      rewrite Forall_forall in Hy. apply Hy, list_elem_of_In, Hz.
Qed.

Lemma sort_desc_sorted {A : Type} (key : A -> Z) (l : list A) :
  descending key (sort_desc key l).
Proof.
  unfold sort_desc. induction l as [|x l IH]; cbn [foldr].
  - constructor.
  - apply insert_desc_sorted, IH.
Qed.

(** ** Sets of keys *)

Lemma size_list_to_set_le (l : list Z) : (size (list_to_set l : gset Z) <= length l)%nat.
Proof.
  induction l as [|x l IH]; cbn [length].
  - rewrite list_to_set_nil, size_empty. lia.
  - rewrite list_to_set_cons.
    pose proof (size_union_alt ({[x]} : gset Z) (list_to_set l)) as Hu.
    rewrite Hu, size_singleton.
    pose proof (subseteq_size (list_to_set l ∖ {[x]}) (list_to_set l : gset Z)
                  ltac:(set_solver)). lia.
Qed.

Lemma size_list_to_set_NoDup (l : list Z) :
  size (list_to_set l : gset Z) = length l -> NoDup l.
Proof.
  induction l as [|x l IH]; [constructor|].
  rewrite list_to_set_cons. cbn [length]. intros Hs.
  pose proof (size_list_to_set_le l) as Hle.
  destruct (decide (x ∈ l)) as [Hin|Hnin].
  - assert (Heq : ({[x]} ∪ list_to_set l : gset Z) = list_to_set l) by set_solver.
    rewrite Heq in Hs. lia.
  - rewrite size_union in Hs by set_solver. rewrite size_singleton in Hs.
    constructor; [assumption|]. apply IH. lia.
Qed.

Lemma size_list_to_set_iff (l : list Z) :
  size (list_to_set l : gset Z) = length l <-> NoDup l.
Proof.
  split; [apply size_list_to_set_NoDup|]. intros Hn. apply size_list_to_set, Hn.
Qed.

(** ** Reading the keys back *)

Section KeyFacts.
Context `{FernetPrimitives}.

Lemma ciphertext_of_nonempty (secret_key : string) (t : Z) (iv : bytes) (data : string) :
  str_empty (ciphertext_of secret_key t iv data) = false.
Proof.
  unfold ciphertext_of, token_bytes, Base64.urlsafe_b64encode. cbn [app].
  match goal with
  | |- context [Base64.b2a_base64 (?a :: ?l)] => destruct l as [|? [|? ?]]
  end; reflexivity.
Qed.

Lemma get_star_keys_ciphertext (env : Env) (t : Z) (iv : bytes) (c : list Z) :
  falsy (SECRET_KEY env) = false -> length iv = 16%nat -> symbols c ->
  get_star_keys env (Some (ciphertext_of (secret_of env) t iv (Json.dumps c))) = Ok c.
Proof.
  intros Hs Hiv Hc. unfold get_star_keys. cbn [falsy default from_option id].
  rewrite ciphertext_of_nonempty.
  rewrite decrypt_data_ciphertext by auto using dumps_utf8.
  cbn [rbind]. rewrite loads_dumps by assumption. reflexivity.
Qed.

Lemma get_star_keys_encrypted (env0 env : Env) (c : list Z) (tok : string) :
  encrypt_data env0 (Json.dumps c) = Ok tok ->
  SECRET_KEY env = SECRET_KEY env0 -> symbols c ->
  get_star_keys env (Some tok) = Ok c.
Proof.
  intros Hen Hs Hc. apply encrypt_data_Ok in Hen as ((Hf & Hiv & _) & ->).
  replace (secret_of env0) with (secret_of env) by (unfold secret_of; congruence).
  apply get_star_keys_ciphertext; auto. congruence.
Qed.

Lemma encrypted_marker (env0 : Env) (data tok : string) :
  encrypt_data env0 data = Ok tok -> time_time env0 < 2 ^ 42 ->
  startswith "gAAAA" tok = true /\ str_empty tok = false.
Proof.
  intros Hen Ht. apply encrypt_data_Ok in Hen as ((_ & _ & Ht0 & _) & ->).
  split; [apply ciphertext_of_marker; lia|apply ciphertext_of_nonempty].
Qed.

End KeyFacts.

(* ===================================================================== *)
(** * Part V: the claims                                                  *)
(* ===================================================================== *)

(** C6. With the secret configured, decrypting what the codec encrypted
    gives the plaintext back: for every combination [c] of symbols (in
    particular every six-symbol one), [decrypt_data (encrypt_data
    (json.dumps c))] is [json.dumps c], and [get_star_keys] after
    [set_star_keys c] returns [c], on a draw and on a ticket. *)
Theorem decrypt_encrypt_roundtrip `{FernetPrimitives}
  (env env' : Env) (c : list Z) (d : Draw) (fk : ForgedKey) :
  env_ok env -> SECRET_KEY env' = SECRET_KEY env -> symbols c ->
  exists tok,
    encrypt_data env (Json.dumps c) = Ok tok
    /\ decrypt_data env' tok = Ok (Json.dumps c)
    /\ (exists d', Draw_set_star_keys env d c = Ok d'
                   /\ Draw_get_star_keys env' d' = Ok c)
    /\ (exists fk', ForgedKey_set_star_keys env fk c = Ok fk'
                    /\ ForgedKey_get_star_keys env' fk' = Ok c).
Proof.
  intros Hok Hs Hc.
  pose proof (encrypt_data_defined env (Json.dumps c) Hok) as Hen.
  destruct Hok as (Hf & Hiv & Ht).
  eexists. split; [exact Hen|]. split; [|split].
  - replace (secret_of env) with (secret_of env') by (unfold secret_of; congruence).
    apply decrypt_data_ciphertext; auto using dumps_utf8. congruence.
  - unfold Draw_set_star_keys, Draw_encrypt_data. rewrite Hen. cbn [rbind].
    eexists. split; [reflexivity|]. unfold Draw_get_star_keys. cbn [d_star_keys set_d_star_keys].
    eapply get_star_keys_encrypted; eauto.
  - unfold ForgedKey_set_star_keys, ForgedKey_encrypt_data. rewrite Hen. cbn [rbind].
    eexists. split; [reflexivity|]. unfold ForgedKey_get_star_keys.
    cbn [fk_star_keys set_fk_star_keys].
    eapply get_star_keys_encrypted; eauto.
Qed.

Lemma example_env_ok (iv_byte : ascii) : env_ok (example_env iv_byte).
Proof.
  unfold env_ok, example_env. cbn [SECRET_KEY urandom16 time_time].
  split; [reflexivity|]. split; [apply repeat_length|].
  split; [discriminate|reflexivity].
Defined.

Lemma example_symbols : symbols [1; 2; 3; 4; 5; 6].
Proof. repeat constructor; discriminate. Defined.

Lemma decrypt_encrypt_roundtrip_witness :
  exists tok,
    @encrypt_data null_primitives (example_env "001") (Json.dumps [1; 2; 3; 4; 5; 6]) = Ok tok
    /\ @decrypt_data null_primitives (example_env "002") tok = Ok (Json.dumps [1; 2; 3; 4; 5; 6])
    /\ (exists d', @Draw_set_star_keys null_primitives (example_env "001")
                     (example_draw "" UPCOMING) [1; 2; 3; 4; 5; 6] = Ok d'
                   /\ @Draw_get_star_keys null_primitives (example_env "002") d'
                      = Ok [1; 2; 3; 4; 5; 6])
    /\ (exists fk', @ForgedKey_set_star_keys null_primitives (example_env "001")
                      (example_ticket 1 None) [1; 2; 3; 4; 5; 6] = Ok fk'
                    /\ @ForgedKey_get_star_keys null_primitives (example_env "002") fk'
                       = Ok [1; 2; 3; 4; 5; 6]).
Proof.
  apply (@decrypt_encrypt_roundtrip null_primitives).
  - apply example_env_ok.
  - reflexivity.
  - apply example_symbols.
Defined.

(** C7. Saving an entity whose secret field holds ciphertext (a token that
    [encrypt_data] returned while the clock was below 2^42 seconds) stores
    that token unchanged: [Draw.save], [ForgedKey.save] and
    [UserWallet.save] succeed, whatever the environment of the save, the
    field of the saved row is the old one, and the row that can be read back
    from the table is the saved one.  So no later save of a draw alters the
    encrypted combination it was created with. *)
Theorem save_keeps_ciphertext `{FernetPrimitives}
  (env0 env : Env) (data tok : string) (db : DB) :
  encrypt_data env0 data = Ok tok -> time_time env0 < 2 ^ 42 ->
  (forall d, d_star_keys d = tok ->
     exists d' db', Draw_save env d db = Ok (d', db')
       /\ d_star_keys d' = tok
       /\ find_by d_id (d_id d) (draws db') = Some d')
  /\ (forall fk, fk_star_keys fk = Some tok ->
     exists fk' db', ForgedKey_save env fk db = Ok (fk', db')
       /\ fk_star_keys fk' = Some tok
       /\ find_by fk_id (fk_id fk) (forgedkeys db') = Some fk')
  /\ (forall w, w_private_key w = Some tok ->
     exists w' db', UserWallet_save env w db = Ok (w', db')
       /\ w_private_key w' = Some tok
       /\ find_by w_id (w_id w) (userwallets db') = Some w').
Proof.
  intros Hen Ht. destruct (encrypted_marker _ _ _ Hen Ht) as [Hm He].
  split; [|split].
  - intros d Hd. unfold Draw_save. rewrite Hd, Hm, He. cbn [negb andb rbind].
    do 2 eexists. split; [reflexivity|]. split; [exact Hd|].
    cbn [draws with_draws].
    apply (find_by_upsert d_id (set_d_updated_at d (timezone_now env))).
  - intros fk Hfk. unfold ForgedKey_save. rewrite Hfk.
    cbn [falsy default from_option id]. rewrite Hm, He. cbn [negb andb rbind].
    do 2 eexists. split; [reflexivity|]. split; [exact Hfk|].
    cbn [forgedkeys with_forgedkeys].
    apply (find_by_upsert fk_id (set_fk_updated_at fk (timezone_now env))).
  - intros w Hw. unfold UserWallet_save. rewrite Hw.
    cbn [falsy default from_option id]. rewrite Hm, He. cbn [negb rbind].
    do 2 eexists. split; [reflexivity|]. split; [exact Hw|].
    cbn [userwallets with_userwallets].
    apply (find_by_upsert w_id w).
Qed.

Lemma example_encrypt (iv_byte : ascii) (c : list Z) :
  @encrypt_data null_primitives (example_env iv_byte) (Json.dumps c)
  = Ok (example_token iv_byte c).
Proof. apply (@encrypt_data_defined null_primitives), example_env_ok. Defined.

Lemma save_keeps_ciphertext_witness :
  let tok := example_token "001" [1; 2; 3; 4; 5; 6] in
  let db := example_db (example_draw tok ACTIVE) [] in
  let env := example_env "002" in
  (forall d, d_star_keys d = tok ->
     exists d' db', @Draw_save null_primitives env d db = Ok (d', db')
       /\ d_star_keys d' = tok
       /\ find_by d_id (d_id d) (draws db') = Some d')
  /\ (forall fk, fk_star_keys fk = Some tok ->
     exists fk' db', @ForgedKey_save null_primitives env fk db = Ok (fk', db')
       /\ fk_star_keys fk' = Some tok
       /\ find_by fk_id (fk_id fk) (forgedkeys db') = Some fk')
  /\ (forall w, w_private_key w = Some tok ->
     exists w' db', @UserWallet_save null_primitives env w db = Ok (w', db')
       /\ w_private_key w' = Some tok
       /\ find_by w_id (w_id w) (userwallets db') = Some w').
Proof.
  intros tok db env.
  apply (@save_keeps_ciphertext null_primitives (example_env "001") env
           (Json.dumps [1; 2; 3; 4; 5; 6]) tok db).
  - apply example_encrypt.
  - reflexivity.
Defined.

(** C1 (what the code does instead).  [encrypt_data] is not a function of the
    secret and the plaintext alone: the sixteen random bytes drawn for the
    call are part of the token.  Two calls on the same combination that
    differ only in those bytes return different tokens.  A ticket that
    stores the second token holds exactly the winning combination, and
    [map_winner], which compares the stored tokens, reports no winner and
    changes nothing. *)
Theorem encrypt_data_depends_on_iv `{FernetPrimitives}
  (env1 env2 : Env) (c : list Z) (c1 c2 : string) :
  symbols c -> length c = 6%nat ->
  SECRET_KEY env2 = SECRET_KEY env1 -> time_time env2 = time_time env1 ->
  urandom16 env2 <> urandom16 env1 ->
  encrypt_data env1 (Json.dumps c) = Ok c1 ->
  encrypt_data env2 (Json.dumps c) = Ok c2 ->
  c1 <> c2
  /\ forall (env : Env) (d : Draw) (fk : ForgedKey) (db : DB),
       SECRET_KEY env = SECRET_KEY env1 ->
       d_star_keys d = c1 -> fk_star_keys fk = Some c2 ->
       fk_draw fk = d_id d -> forgedkeys db = [fk] ->
       Draw_get_star_keys env d = Ok c
       /\ ForgedKey_get_star_keys env fk = Ok c
       /\ Draw_map_winner env d db = (Ok None, d, db).
Proof.
  intros Hc Hlen Hs Ht Hiv H1 H2.
  assert (Hne : c1 <> c2).
  { apply encrypt_data_Ok in H1 as ((_ & Hl1 & _) & ->).
    apply encrypt_data_Ok in H2 as ((_ & Hl2 & _) & ->).
    intros Heq. apply Hiv. symmetry.
    replace (secret_of env2) with (secret_of env1) in Heq
      by (unfold secret_of; congruence).
    rewrite Ht in Heq.
    eapply ciphertext_of_inj_iv; eauto. }
  split; [exact Hne|].
  intros env d fk db Hse Hd Hfk Hdraw Hdb.
  assert (Hgd : Draw_get_star_keys env d = Ok c).
  { unfold Draw_get_star_keys. rewrite Hd.
    eapply get_star_keys_encrypted; eauto. }
  assert (Hgf : ForgedKey_get_star_keys env fk = Ok c).
  { unfold ForgedKey_get_star_keys. rewrite Hfk.
    eapply get_star_keys_encrypted; eauto. congruence. }
  repeat split; auto.
  unfold Draw_map_winner. rewrite Hgd, Hlen. cbn [Nat.eqb orb negb].
  unfold forged_keys_of. rewrite Hdb. cbn [List.filter].
  rewrite Hdraw, Z.eqb_refl. cbn [sort_desc foldr insert_desc List.filter].
  rewrite Hfk, Hd. rewrite bool_decide_eq_false_2 by congruence. reflexivity.
Qed.

Lemma encrypt_data_depends_on_iv_witness :
  let c := [1; 2; 3; 4; 5; 6] in
  let c1 := example_token "001" c in
  let c2 := example_token "002" c in
  c1 <> c2
  /\ forall (env : Env) (d : Draw) (fk : ForgedKey) (db : DB),
       SECRET_KEY env = SECRET_KEY (example_env "001") ->
       d_star_keys d = c1 -> fk_star_keys fk = Some c2 ->
       fk_draw fk = d_id d -> forgedkeys db = [fk] ->
       @Draw_get_star_keys null_primitives env d = Ok c
       /\ @ForgedKey_get_star_keys null_primitives env fk = Ok c
       /\ @Draw_map_winner null_primitives env d db = (Ok None, d, db).
Proof.
  intros c c1 c2.
  apply (@encrypt_data_depends_on_iv null_primitives
           (example_env "001") (example_env "002") c c1 c2).
  - apply example_symbols.
  - reflexivity.
  - reflexivity.
  - reflexivity.
  - discriminate.
  - apply example_encrypt.
  - apply example_encrypt.
Defined.

(** ** Rarity *)

Lemma even_mod2 (k : Z) : (k mod 2 =? 0) = Z.even k.
Proof.
  rewrite <- Z.negb_odd, <- Z.bit0_odd, <- (Z.bit0_mod k).
  destruct (Z.testbit k 0); reflexivity.
Qed.

Lemma odd_mod2 (k : Z) : negb (k mod 2 =? 0) = Z.odd k.
Proof. rewrite even_mod2. apply Z.negb_even. Qed.

Lemma filter_length_all {A : Type} (p : A -> bool) (l : list A) :
  length (List.filter p l) = length l <-> forallb p l = true.
Proof.
  induction l as [|x l IH]; cbn [List.filter forallb length]; [tauto|].
  pose proof (List.filter_length_le p l) as Hle.
  destruct (p x); cbn [length andb].
  - rewrite <- IH. lia.
  - split; [lia|discriminate].
Qed.

Lemma all_identical_parity (keys : list Z) :
  all_identical keys = true ->
  forallb Z.even keys = true \/ forallb Z.odd keys = true.
Proof.
  destruct keys as [|x rest]; [auto|]. cbn [all_identical forallb]. intros Hall.
  rewrite forallb_forall in Hall.
  destruct (Z.even x) eqn:He; [left|right]; cbn [andb].
  - apply forallb_forall. intros y Hy. apply Hall, Z.eqb_eq in Hy. congruence.
  - rewrite <- Z.negb_even, He. cbn [negb andb].
    apply forallb_forall. intros y Hy. apply Hall, Z.eqb_eq in Hy. subst y.
    rewrite <- Z.negb_even, He. reflexivity.
Qed.

Lemma size_one_identical (keys : list Z) :
  size (list_to_set keys : gset Z) = 1%nat -> all_identical keys = true.
Proof.
  intros Hs. destruct keys as [|x rest]; [reflexivity|]. cbn [all_identical].
  apply forallb_forall. intros y Hy. apply Z.eqb_eq.
  apply (size_singleton_inv (list_to_set (x :: rest) : gset Z)); auto.
  - set_solver.
  - apply elem_of_list_to_set, list_elem_of_In. right. exact Hy.
Qed.

Lemma rarity_of_keys_six (keys : list Z) :
  length keys = 6%nat -> rarity_of_keys keys = rarity_spec keys.
Proof.
  intros Hlen. unfold rarity_of_keys, rarity_spec. rewrite Hlen. cbn [Nat.eqb].
  destruct (Nat.eqb_spec (size (list_to_set keys : gset Z)) 6) as [Hs|Hs].
  - rewrite bool_decide_eq_true_2; [reflexivity|].
    apply size_list_to_set_NoDup. congruence.
  - rewrite bool_decide_eq_false_2
      by (intros Hn; apply Hs; rewrite size_list_to_set by assumption; exact Hlen).
    rewrite (List.filter_ext (fun k => k mod 2 =? 0) Z.even even_mod2 keys).
    rewrite (List.filter_ext (fun k => negb (k mod 2 =? 0)) Z.odd odd_mod2 keys).
    destruct (forallb Z.even keys) eqn:Hev.
    { apply filter_length_all in Hev. rewrite Hev, Hlen. reflexivity. }
    destruct (Nat.eqb_spec (length (List.filter Z.even keys)) 6) as [He|_].
    { rewrite <- Hlen in He. apply filter_length_all in He. congruence. }
    destruct (forallb Z.odd keys) eqn:Hod.
    { apply filter_length_all in Hod. rewrite Hod, Hlen. reflexivity. }
    destruct (Nat.eqb_spec (length (List.filter Z.odd keys)) 6) as [Ho|_].
    { rewrite <- Hlen in Ho. apply filter_length_all in Ho. congruence. }
    destruct (all_identical keys) eqn:Hid.
    { apply all_identical_parity in Hid. destruct Hid; congruence. }
    destruct (Nat.eqb_spec (size (list_to_set keys : gset Z)) 1) as [H1|_];
      [|reflexivity].
    apply size_one_identical in H1. congruence.
Qed.

Lemma calculate_rarity_six `{FernetPrimitives} (env : Env) (fk : ForgedKey)
  (keys : list Z) :
  ForgedKey_get_star_keys env fk = Ok keys -> length keys = 6%nat ->
  ForgedKey_calculate_rarity env fk = Ok (rarity_spec keys).
Proof.
  intros Hk Hlen. unfold ForgedKey_calculate_rarity. rewrite Hk. cbn [rbind].
  rewrite rarity_of_keys_six by assumption. reflexivity.
Qed.

(** C8. On six symbols [calculate_rarity] follows the priority order of the
    specification, each test short-circuiting the next: pairwise distinct
    gives Rare, else all even gives Epic, else all odd gives Epic, else all
    identical gives Legendary, else Common.  Six identical symbols are Epic,
    and Legendary is never the answer. *)
Theorem calculate_rarity_priority `{FernetPrimitives} (env : Env) (fk : ForgedKey)
  (keys : list Z) :
  ForgedKey_get_star_keys env fk = Ok keys -> length keys = 6%nat ->
  ForgedKey_calculate_rarity env fk = Ok (rarity_spec keys)
  /\ (all_identical keys = true -> ForgedKey_calculate_rarity env fk = Ok Epic)
  /\ ForgedKey_calculate_rarity env fk <> Ok Legendary.
Proof.
  intros Hk Hlen. rewrite (calculate_rarity_six env fk keys Hk Hlen).
  assert (Hnd : all_identical keys = true -> NoDup keys -> False).
  { destruct keys as [|x [|y rest]]; try discriminate. cbn [all_identical forallb].
    intros Ha Hn. apply andb_true_iff in Ha as [Ha _]. apply Z.eqb_eq in Ha. subst y.
    apply NoDup_cons in Hn as [Hn _]. apply Hn. left. }
  split; [reflexivity|]. split.
  - intros Hid. unfold rarity_spec.
    rewrite bool_decide_eq_false_2 by (intros Hn; exact (Hnd Hid Hn)).
    destruct (all_identical_parity keys Hid) as [-> | Ho]; [reflexivity|].
    rewrite Ho. destruct (forallb Z.even keys); reflexivity.
  - unfold rarity_spec. destruct (bool_decide (NoDup keys)); [discriminate|].
    destruct (forallb Z.even keys) eqn:He; [discriminate|].
    destruct (forallb Z.odd keys) eqn:Ho; [discriminate|].
    destruct (all_identical keys) eqn:Hid; [|discriminate].
    destruct (all_identical_parity keys Hid); congruence.
Qed.

Lemma example_get_star_keys (iv_byte : ascii) (id : Z) (c : list Z) :
  symbols c ->
  @ForgedKey_get_star_keys null_primitives (example_env "002")
    (example_ticket id (Some (example_token iv_byte c))) = Ok c.
Proof.
  intros Hc. unfold ForgedKey_get_star_keys. cbn [fk_star_keys example_ticket].
  apply (@get_star_keys_encrypted null_primitives (example_env iv_byte)).
  - apply example_encrypt.
  - reflexivity.
  - exact Hc.
Defined.

Lemma calculate_rarity_priority_witness :
  let fk := example_ticket 1 (Some (example_token "001" [7; 7; 7; 7; 7; 7])) in
  @ForgedKey_calculate_rarity null_primitives (example_env "002") fk
    = Ok (rarity_spec [7; 7; 7; 7; 7; 7])
  /\ (all_identical [7; 7; 7; 7; 7; 7] = true ->
      @ForgedKey_calculate_rarity null_primitives (example_env "002") fk = Ok Epic)
  /\ @ForgedKey_calculate_rarity null_primitives (example_env "002") fk <> Ok Legendary.
Proof.
  intros fk.
  apply (@calculate_rarity_priority null_primitives).
  - apply example_get_star_keys. repeat constructor; discriminate.
  - reflexivity.
Defined.

(** C9, refuted as stated: on a ticket that holds [1,3,1,3,1,3] the result
    of [calculate_rarity] is not Common. *)
Lemma calculate_rarity_131313_not_common :
  @ForgedKey_get_star_keys null_primitives (example_env "002")
    (example_ticket 1 (Some (example_token "001" [1; 3; 1; 3; 1; 3])))
  = Ok [1; 3; 1; 3; 1; 3]
  /\ @ForgedKey_calculate_rarity null_primitives (example_env "002")
       (example_ticket 1 (Some (example_token "001" [1; 3; 1; 3; 1; 3])))
     <> Ok Common.
Proof.
  assert (Hk : @ForgedKey_get_star_keys null_primitives (example_env "002")
                 (example_ticket 1 (Some (example_token "001" [1; 3; 1; 3; 1; 3])))
               = Ok [1; 3; 1; 3; 1; 3]).
  { apply example_get_star_keys. repeat constructor; discriminate. }
  split; [exact Hk|].
  unfold ForgedKey_calculate_rarity. rewrite Hk. cbn [rbind].
  vm_compute. discriminate.
Qed.

(** C9, amended: [calculate_rarity] classifies the combination
    [1,3,1,3,1,3] as Epic, by the all-odd rule. *)
Theorem calculate_rarity_131313 `{FernetPrimitives} (env : Env) (fk : ForgedKey) :
  ForgedKey_get_star_keys env fk = Ok [1; 3; 1; 3; 1; 3] ->
  ForgedKey_calculate_rarity env fk = Ok Epic.
Proof.
  intros Hk.
  rewrite (calculate_rarity_six env fk _ Hk eq_refl). reflexivity.
Qed.

Lemma calculate_rarity_131313_witness :
  @ForgedKey_calculate_rarity null_primitives (example_env "002")
    (example_ticket 1 (Some (example_token "001" [1; 3; 1; 3; 1; 3]))) = Ok Epic.
Proof.
  apply (@calculate_rarity_131313 null_primitives).
  apply example_get_star_keys. repeat constructor; discriminate.
Defined.

(** ** The views *)

Section ViewFacts.
Context `{FernetPrimitives} `{Float64}.

Lemma map_winner_none (env : Env) (d d1 : Draw) (db0 db1 : DB) :
  Draw_map_winner env d db0 = (Ok None, d1, db1) -> d1 = d /\ db1 = db0.
Proof.
  unfold Draw_map_winner.
  destruct (Draw_get_star_keys env d) as [keys| |]; try discriminate.
  destruct (_ || _); [intros [= <- <-]; auto|].
  destruct (head _) as [fk|]; [|intros [= <- <-]; auto].
  destruct (Draw_save _ _ _) as [[d2 db2]| |]; discriminate.
Qed.

Lemma process_draw_staff (env : Env) (request : Request) (draw_id : Z) (w : World) :
  is_staff_post request ->
  process_draw env request draw_id w =
  (let '(r, w') :=
     match get_object_or_404 d_id (draws (db w)) draw_id with
     | Ok draw =>
       if negb (DrawStatus_eqb (d_status draw) ACTIVE)
          || (timezone_now env <? d_draw_datetime draw)
       then (rejected, w)
       else process_draw_run env draw_id draw w
     | Raise e => (Raise e, w)
     | Unmodelled => (Unmodelled, w)
     end in
   match r with
   | Raise e => (Ok (json_failure (JStrOf e)), w')
   | _ => (r, w')
   end).
Proof.
  intros (user & Hu & Hs & Hm). unfold process_draw. rewrite Hu, Hm, Hs. reflexivity.
Qed.

Lemma guard_rejects (env : Env) (d : Draw) :
  d_status d <> ACTIVE \/ timezone_now env < d_draw_datetime d ->
  negb (DrawStatus_eqb (d_status d) ACTIVE) || (timezone_now env <? d_draw_datetime d)
  = true.
Proof.
  intros [Hs|Ht].
  - destruct (d_status d); try reflexivity. congruence.
  - apply Z.ltb_lt in Ht. rewrite Ht. apply orb_true_r.
Qed.

Lemma process_draw_guard (env : Env) (request : Request) (draw_id : Z) (w : World)
  (d : Draw) :
  find_by d_id draw_id (draws (db w)) = Some d ->
  d_status d <> ACTIVE \/ timezone_now env < d_draw_datetime d ->
  snd (process_draw env request draw_id w) = w
  /\ (is_staff_post request -> process_draw env request draw_id w = (rejected, w)).
Proof.
  intros Hf Hg. split.
  - unfold process_draw. destruct (req_user request) as [user|]; [|reflexivity].
    destruct (negb _); [reflexivity|]. destruct (negb _); [reflexivity|].
    unfold get_object_or_404. rewrite Hf, guard_rejects by assumption. reflexivity.
  - intros Hr. rewrite process_draw_staff by assumption.
    unfold get_object_or_404. rewrite Hf, guard_rejects by assumption. reflexivity.
Qed.

(** A run that answers [success: true] leaves the draw ENDED. *)
Lemma process_draw_success_ended (env : Env) (request : Request) (draw_id : Z)
  (w w' : World) (body : list (string * jval)) :
  is_staff_post request ->
  process_draw env request draw_id w
  = (Ok (JsonResponse (JDict (("success"%string, JBool true) :: body))), w') ->
  exists d, find_by d_id draw_id (draws (db w)) = Some d
            /\ find_by d_id draw_id (draws (db w')) = Some (set_d_status d ENDED).
Proof.
  intros Hr. rewrite process_draw_staff by assumption.
  unfold get_object_or_404.
  destruct (find_by d_id draw_id (draws (db w))) as [d|] eqn:Hf; [|discriminate].
  destruct (negb _ || _); [discriminate|].
  unfold process_draw_run.
  destruct (Draw_map_winner env d (db w)) as [[found d1] db1] eqn:Hmw.
  destruct found as [[fk|]| |]; try discriminate.
  apply map_winner_none in Hmw as [-> ->].
  cbv [atomic]. intros Heq. injection Heq as _ <-. exists d. split; [reflexivity|].
  cbn [db cache_delete_many draws with_draws].
  rewrite find_by_update_where by reflexivity. rewrite Hf. reflexivity.
Qed.

End ViewFacts.

(** C5. [process_draw] turns down every draw that is not ACTIVE or whose
    scheduled time is still ahead: the database and the cache are left as
    they were, whoever asks, and a staff member's POST gets the structured
    failure.  In particular a draw that a run has just ended cannot be run
    again: the second call is turned down and changes nothing. *)
Theorem process_draw_rejects `{FernetPrimitives} `{Float64}
  (env : Env) (request : Request) (draw_id : Z) (w : World) :
  (forall d,
     find_by d_id draw_id (draws (db w)) = Some d ->
     d_status d <> ACTIVE \/ timezone_now env < d_draw_datetime d ->
     snd (process_draw env request draw_id w) = w
     /\ (is_staff_post request -> process_draw env request draw_id w = (rejected, w)))
  /\ (forall env0 w0 body,
     is_staff_post request ->
     process_draw env0 request draw_id w0
     = (Ok (JsonResponse (JDict (("success"%string, JBool true) :: body))), w) ->
     process_draw env request draw_id w = (rejected, w)).
Proof.
  split.
  - intros d. apply process_draw_guard.
  - intros env0 w0 body Hr Hrun.
    destruct (process_draw_success_ended _ _ _ _ _ _ Hr Hrun) as (d & _ & Hf).
    apply (process_draw_guard env request draw_id w _ Hf); [|exact Hr].
    left. destruct d; discriminate.
Qed.

Lemma staff_post_is_staff_post : is_staff_post staff_post.
Proof. exists example_user. repeat split. Defined.

Lemma process_draw_rejects_witness :
  let env := example_env "002" in
  let w0 := example_world (example_draw (example_token "001" [1; 2; 3; 4; 5; 6]) ACTIVE) [] in
  let w1 := snd (@process_draw null_primitives exact_float env staff_post 1 w0) in
  let w2 := example_world (example_draw "" UPCOMING) [] in
  @process_draw null_primitives exact_float env staff_post 1 w1 = (rejected, w1)
  /\ @process_draw null_primitives exact_float env staff_post 1 w2 = (rejected, w2).
Proof.
  intros env w0 w1 w2. split.
  - destruct (@process_draw_rejects null_primitives exact_float env staff_post 1 w1)
      as [_ Hagain].
    apply (Hagain env w0
             [("winner"%string, JNull);
              ("message"%string, JStr "Draw processed successfully")]).
    + apply staff_post_is_staff_post.
    + vm_compute. reflexivity.
  - destruct (@process_draw_rejects null_primitives exact_float env staff_post 1 w2)
      as [Hguard _].
    apply (Hguard (example_draw "" UPCOMING)).
    + reflexivity.
    + left. discriminate.
    + apply staff_post_is_staff_post.
Defined.

(** C10. While a draw is not ENDED the answer of [draw_detail] carries no
    winning combination: it has no [winning_keys] entry, and two draws that
    differ only in the stored combination get the same answer.  An answer
    carries [winning_keys] only for an ENDED draw, and then they are the
    decrypted keys of that draw.  For an ENDED draw without a winner wallet
    the keys are in the answer; for one with a winner wallet the view raises
    [FieldError] instead of answering. *)
Theorem draw_detail_hides_keys `{FernetPrimitives} `{Float64}
  (env : Env) (request : Request) (draw_id : Z) :
  (forall (w1 w2 : World) (d1 d2 : Draw),
     find_by d_id draw_id (draws (db w1)) = Some d1 ->
     find_by d_id draw_id (draws (db w2)) = Some d2 ->
     d2 = set_d_star_keys d1 (d_star_keys d2) ->
     d_status d1 <> ENDED ->
     draw_detail env request draw_id w1 = draw_detail env request draw_id w2
     /\ forall body,
          draw_detail env request draw_id w1
          = Ok (JsonResponse (JDict [("draw"%string, JDict body)])) ->
          dict_get "winning_keys" body = None)
  /\ (forall (w : World) (d : Draw) (body : list (string * jval)) (v : jval),
     find_by d_id draw_id (draws (db w)) = Some d ->
     draw_detail env request draw_id w
     = Ok (JsonResponse (JDict [("draw"%string, JDict body)])) ->
     dict_get "winning_keys" body = Some v ->
     d_status d = ENDED
     /\ exists keys, Draw_get_star_keys env d = Ok keys /\ v = JIntList keys)
  /\ (forall (w : World) (d : Draw) (keys : list Z) (user : User),
     find_by d_id draw_id (draws (db w)) = Some d ->
     d_status d = ENDED ->
     Draw_get_star_keys env d = Ok keys ->
     req_user request = Some user ->
     (d_winner_wallet d = None \/ d_winner_wallet d = Some 0 ->
      exists body,
        draw_detail env request draw_id w
        = Ok (JsonResponse (JDict [("draw"%string, JDict body)]))
        /\ dict_get "winning_keys" body = Some (JIntList keys))
     /\ (forall wid, d_winner_wallet d = Some wid -> wid <> 0 ->
         draw_detail env request draw_id w = Raise FieldError)).
Proof.
  split; [|split].
  - intros w1 w2 d1 d2 Hf1 Hf2 Hd Hs.
    unfold draw_detail, get_object_or_404. rewrite Hf1, Hf2. cbn [rbind].
    assert (Hs2 : DrawStatus_eqb (d_status d2) ENDED = false).
    { rewrite Hd. cbn [d_status set_d_star_keys]. destruct (d_status d1); try reflexivity.
      congruence. }
    assert (Hs1 : DrawStatus_eqb (d_status d1) ENDED = false).
    { destruct (d_status d1); try reflexivity. congruence. }
    rewrite Hs1, Hs2.
    destruct (req_user request) as [user|]; [|split; [reflexivity|discriminate]].
    split.
    + rewrite Hd. reflexivity.
    + intros body Hb. injection Hb as <-. reflexivity.
  - intros w d body v Hf. unfold draw_detail, get_object_or_404. rewrite Hf.
    destruct (req_user request) as [user|]; [|discriminate]. cbn [rbind].
    destruct (d_status d) eqn:Hs; cbn [DrawStatus_eqb];
      try (intros Hb; injection Hb as <-; discriminate).
    destruct (Draw_get_star_keys env d) as [keys| |]; try discriminate. cbn [rbind].
    assert (Hbody : forall b, Ok (JsonResponse (JDict [("draw"%string, JDict b)]))
                              = Ok (JsonResponse (JDict [("draw"%string, JDict body)])) ->
                              b = body) by (intros b Hb; injection Hb; trivial).
    destruct (d_winner_wallet d) as [wid|]; [destruct (negb (wid =? 0)); [discriminate|]|];
      intros Hb; apply Hbody in Hb; subst body; cbn; intros [= <-];
      (split; [reflexivity|exists keys; split; reflexivity]).
  - intros w d keys user Hf Hs Hk Hu. split.
    + intros Hw. unfold draw_detail, get_object_or_404. rewrite Hu, Hf. cbn [rbind].
      rewrite Hs. cbn [DrawStatus_eqb]. rewrite Hk. cbn [rbind].
      destruct Hw as [-> | ->]; cbn [Z.eqb negb];
        eexists; (split; [reflexivity|]); reflexivity.
    + intros wid Hw Hne. unfold draw_detail, get_object_or_404. rewrite Hu, Hf.
      cbn [rbind]. rewrite Hs. cbn [DrawStatus_eqb]. rewrite Hk. cbn [rbind].
      rewrite Hw. destruct (Z.eqb_spec wid 0) as [|_]; [contradiction|]. reflexivity.
Qed.

Lemma draw_detail_hides_keys_witness :
  let env := example_env "002" in
  let tok := example_token "001" [1; 2; 3; 4; 5; 6] in
  let w1 := example_world (example_draw tok ACTIVE) [] in
  let w2 := example_world (example_draw (example_token "003" [9; 9; 9; 9; 9; 9]) ACTIVE) [] in
  let w := example_world (example_draw tok ENDED) [] in
  let won := set_d_winner (example_draw tok ENDED) (Some "AK000100070001"%string) (Some 7) in
  (@draw_detail null_primitives exact_float env staff_post 1 w1
   = @draw_detail null_primitives exact_float env staff_post 1 w2
   /\ forall body,
        @draw_detail null_primitives exact_float env staff_post 1 w1
        = Ok (JsonResponse (JDict [("draw"%string, JDict body)])) ->
        dict_get "winning_keys" body = None)
  /\ (exists body,
        @draw_detail null_primitives exact_float env staff_post 1 w
        = Ok (JsonResponse (JDict [("draw"%string, JDict body)]))
        /\ dict_get "winning_keys" body = Some (JIntList [1; 2; 3; 4; 5; 6]))
  /\ @draw_detail null_primitives exact_float env staff_post 1 (example_world won [])
     = Raise FieldError.
Proof.
  intros env tok w1 w2 w won.
  destruct (@draw_detail_hides_keys null_primitives exact_float env staff_post 1)
    as (Hhide & _ & Hshow).
  assert (Hkeys : @Draw_get_star_keys null_primitives env (example_draw tok ENDED)
                  = Ok [1; 2; 3; 4; 5; 6]).
  { apply (@get_star_keys_encrypted null_primitives (example_env "001")).
    - apply example_encrypt.
    - reflexivity.
    - apply example_symbols. }
  split; [|split].
  - apply (Hhide w1 w2 (example_draw tok ACTIVE)
             (example_draw (example_token "003" [9; 9; 9; 9; 9; 9]) ACTIVE)).
    + reflexivity.
    + reflexivity.
    + reflexivity.
    + discriminate.
  - destruct (Hshow w (example_draw tok ENDED) [1; 2; 3; 4; 5; 6] example_user
                eq_refl eq_refl Hkeys eq_refl) as [Hnone _].
    apply Hnone. left. reflexivity.
  - destruct (Hshow (example_world won []) won [1; 2; 3; 4; 5; 6] example_user
                eq_refl eq_refl Hkeys eq_refl) as [_ Hwon].
    apply (Hwon 7); [reflexivity|discriminate].
Defined.

(** ** Winner resolution *)

Lemma head_filter_In {A : Type} (p : A -> bool) (l : list A) (x : A) :
  In x l -> p x = true ->
  exists y, head (List.filter p l) = Some y /\ In y l /\ p y = true.
Proof.
  induction l as [|a l IH]; [contradiction|]. intros Hin Hp. cbn [List.filter].
  destruct (p a) eqn:Hpa.
  - exists a. cbn. auto.
  - destruct Hin as [->|Hin]; [congruence|].
    destruct (IH Hin Hp) as (y & Hy & Hiny & Hpy). exists y. cbn. auto.
Qed.

Lemma forged_keys_of_In (d : Draw) (db0 : DB) (fk : ForgedKey) :
  In fk (forged_keys_of d db0) <-> In fk (forgedkeys db0) /\ fk_draw fk = d_id d.
Proof.
  unfold forged_keys_of. rewrite sort_desc_In, filter_In, Z.eqb_eq. tauto.
Qed.

Section ResolutionFacts.
Context `{FernetPrimitives} `{Float64}.

(** C2 (what the code does instead).  [map_nearest_winner] tests the size
    of the winning keys after turning them into a set.  A winning
    combination of six symbols with a repeated symbol therefore yields no
    near-winner at all, whatever the tickets and the threshold, although a
    ticket with the same combination shares every symbol with it.  And a
    ticket whose stored combination is missing is not skipped: it is scored
    as zero matches, and is returned when the threshold is zero. *)
Theorem map_nearest_winner_divergence
  (env0 env : Env) (c : list Z) (d : Draw) (db0 : DB) :
  encrypt_data env0 (Json.dumps c) = Ok (d_star_keys d) ->
  SECRET_KEY env = SECRET_KEY env0 ->
  symbols c -> length c = 6%nat ->
  (~ NoDup c ->
   forall min_matches, Draw_map_nearest_winner env d db0 min_matches = Ok [])
  /\ (NoDup c ->
      forall fk, forgedkeys db0 = [fk] -> fk_draw fk = d_id d -> fk_star_keys fk = None ->
        Draw_map_nearest_winner env d db0 0
        = Ok [ {| forged_key := fk; match_count := 0; matched_keys := ∅ |} ]).
Proof.
  intros Hen Hs Hc Hlen.
  assert (Hk : Draw_get_star_keys env d = Ok c).
  { unfold Draw_get_star_keys. eapply get_star_keys_encrypted; eauto. }
  split.
  - intros Hdup min_matches. unfold Draw_map_nearest_winner. rewrite Hk. cbn [rbind].
    destruct (Nat.eqb_spec (size (list_to_set c : gset Z)) 6) as [Hsz|Hsz].
    + exfalso. apply Hdup, size_list_to_set_NoDup. congruence.
    + cbn [negb]. rewrite orb_true_r. reflexivity.
  - intros Hnd fk Hdb Hdraw Hnone. unfold Draw_map_nearest_winner. rewrite Hk. cbn [rbind].
    rewrite size_list_to_set, Hlen by assumption. cbn [Nat.eqb negb orb].
    unfold forged_keys_of. rewrite Hdb. cbn [List.filter]. rewrite Hdraw, Z.eqb_refl.
    cbn [sort_desc foldr insert_desc nearest_loop].
    unfold ForgedKey_get_star_keys, get_star_keys. rewrite Hnone. cbn [falsy rbind].
    rewrite !list_to_set_nil, !intersection_empty_r_L, !size_empty. reflexivity.
Qed.

End ResolutionFacts.

Lemma map_nearest_winner_divergence_witness :
  let env := example_env "002" in
  let c := [1; 1; 2; 3; 4; 5] in
  let d := example_draw (example_token "001" c) ACTIVE in
  let fk := example_ticket 1 (Some (example_token "003" c)) in
  let d6 := example_draw (example_token "001" [1; 2; 3; 4; 5; 6]) ACTIVE in
  let lost := example_ticket 2 None in
  @ForgedKey_get_star_keys null_primitives env fk = Ok c
  /\ @Draw_map_nearest_winner null_primitives env d (example_db d [fk]) 5 = Ok []
  /\ @Draw_map_nearest_winner null_primitives env d6 (example_db d6 [lost]) 0
     = Ok [ {| forged_key := lost; match_count := 0; matched_keys := ∅ |} ].
Proof.
  intros env c d fk d6 lost.
  assert (Hc : symbols c) by (repeat constructor; discriminate).
  split; [apply example_get_star_keys, Hc|]. split.
  - destruct (@map_nearest_winner_divergence null_primitives
                (example_env "001") env c d (example_db d [fk])) as [Hdup _].
    + apply example_encrypt.
    + reflexivity.
    + exact Hc.
    + reflexivity.
    + apply Hdup. intros Hn. apply NoDup_cons in Hn as [Hn _]. apply Hn. left.
  - destruct (@map_nearest_winner_divergence null_primitives
                (example_env "001") env [1; 2; 3; 4; 5; 6] d6 (example_db d6 [lost]))
      as [_ Hlost].
    + apply example_encrypt.
    + reflexivity.
    + apply example_symbols.
    + reflexivity.
    + apply Hlost; [|reflexivity|reflexivity|reflexivity].
      apply (bool_decide_eq_true_1 (NoDup [1; 2; 3; 4; 5; 6])). vm_compute. reflexivity.
Defined.

Section ProcessFacts.
Context `{FernetPrimitives} `{Float64}.

(** [map_winner] on a draw that has a ticket with the draw's own token. *)
Lemma map_winner_exact (env0 env : Env) (c : list Z) (d : Draw) (db0 : DB)
  (fk : ForgedKey) :
  encrypt_data env0 (Json.dumps c) = Ok (d_star_keys d) ->
  time_time env0 < 2 ^ 42 ->
  SECRET_KEY env = SECRET_KEY env0 -> symbols c -> length c = 6%nat ->
  In fk (forgedkeys db0) -> fk_draw fk = d_id d ->
  fk_star_keys fk = Some (d_star_keys d) ->
  exists fk0,
    In fk0 (forgedkeys db0) /\ fk_draw fk0 = d_id d
    /\ fk_star_keys fk0 = Some (d_star_keys d)
    /\ let d' := set_d_updated_at
                   (set_d_winner d (Some (fk_serial_number fk0)) (Some (fk_user_wallet fk0)))
                   (timezone_now env) in
       Draw_map_winner env d db0
       = (Ok (Some fk0), d', with_draws db0 (upsert d_id d' (draws db0))).
Proof.
  intros Hen Ht Hs Hc Hlen Hin Hdraw Hkeys.
  assert (Hk : Draw_get_star_keys env d = Ok c).
  { unfold Draw_get_star_keys. eapply get_star_keys_encrypted; eauto. }
  destruct (encrypted_marker _ _ _ Hen Ht) as [Hm He].
  destruct (head_filter_In
              (fun fk => bool_decide (fk_star_keys fk = Some (d_star_keys d)))
              (forged_keys_of d db0) fk) as (fk0 & Hhead & Hin0 & Hp0).
  { apply forged_keys_of_In. auto. }
  { apply bool_decide_eq_true_2, Hkeys. }
  apply forged_keys_of_In in Hin0 as [Hin0 Hdraw0].
  apply bool_decide_eq_true_1 in Hp0.
  exists fk0. repeat split; auto.
  unfold Draw_map_winner. rewrite Hk, Hlen. cbn [Nat.eqb orb negb].
  rewrite Hhead. unfold Draw_save. cbn [d_star_keys set_d_winner].
  rewrite Hm, He. cbn [negb andb rbind]. reflexivity.
Qed.

End ProcessFacts.

(** C3 (what the code does instead).  [map_winner] saves the winner fields
    before the transaction of [process_draw] starts, and inside it the prize
    is computed as [draw.prize_pool * 0.7], a [Decimal] times a [float],
    which raises [TypeError].  So whenever a ticket holds the draw's own
    token, a staff member's POST on an ACTIVE draw whose time has come is
    answered with a failure, and the draw is left half updated: the winning
    serial and wallet are stored, the status is still ACTIVE and no prize
    is recorded. *)
Theorem process_draw_partial_update `{FernetPrimitives} `{Float64}
  (env0 env : Env) (request : Request) (draw_id : Z) (w : World)
  (c : list Z) (d : Draw) (fk : ForgedKey) :
  is_staff_post request ->
  find_by d_id draw_id (draws (db w)) = Some d ->
  d_status d = ACTIVE -> d_draw_datetime d <= timezone_now env ->
  encrypt_data env0 (Json.dumps c) = Ok (d_star_keys d) ->
  time_time env0 < 2 ^ 42 ->
  SECRET_KEY env = SECRET_KEY env0 -> symbols c -> length c = 6%nat ->
  In fk (forgedkeys (db w)) -> fk_draw fk = draw_id ->
  fk_star_keys fk = Some (d_star_keys d) ->
  exists fk0 w',
    process_draw env request draw_id w = (Ok (json_failure (JStrOf TypeError)), w')
    /\ In fk0 (forgedkeys (db w))
    /\ fk_star_keys fk0 = Some (d_star_keys d)
    /\ find_by d_id draw_id (draws (db w'))
       = Some (set_d_updated_at
                 (set_d_winner d (Some (fk_serial_number fk0)) (Some (fk_user_wallet fk0)))
                 (timezone_now env))
    /\ cache w' = cache w.
Proof.
  intros Hr Hf Hst Htime Hen Ht Hs Hc Hlen Hin Hdraw Hkeys.
  destruct (find_by_key _ _ _ _ Hf) as [Hid _].
  destruct (map_winner_exact env0 env c d (db w) fk) as (fk0 & Hin0 & _ & Hk0 & Hmw);
    auto; [congruence|].
  cbv zeta in Hmw.
  exists fk0. eexists. split; [|split; [exact Hin0|split; [exact Hk0|]]].
  - rewrite process_draw_staff by assumption.
    unfold get_object_or_404. rewrite Hf, Hst. cbn [DrawStatus_eqb negb orb].
    replace (timezone_now env <? d_draw_datetime d) with false
      by (symmetry; apply Z.ltb_ge; exact Htime).
    unfold process_draw_run. rewrite Hmw. cbv [atomic py_mul]. reflexivity.
  - cbn [db cache draws with_draws]. split; [|reflexivity].
    rewrite <- Hid at 1.
    apply (find_by_upsert d_id
             (set_d_updated_at
                (set_d_winner d (Some (fk_serial_number fk0)) (Some (fk_user_wallet fk0)))
                (timezone_now env))).
Qed.

Lemma process_draw_partial_update_witness :
  let env := example_env "002" in
  let tok := example_token "001" [1; 2; 3; 4; 5; 6] in
  let d := example_draw tok ACTIVE in
  let w := example_world d [example_ticket 1 (Some tok)] in
  exists fk0 w',
    @process_draw null_primitives exact_float env staff_post 1 w
    = (Ok (json_failure (JStrOf TypeError)), w')
    /\ In fk0 (forgedkeys (db w))
    /\ fk_star_keys fk0 = Some (d_star_keys d)
    /\ find_by d_id 1 (draws (db w'))
       = Some (set_d_updated_at
                 (set_d_winner d (Some (fk_serial_number fk0)) (Some (fk_user_wallet fk0)))
                 (timezone_now env))
    /\ cache w' = cache w.
Proof.
  intros env tok d w.
  apply (@process_draw_partial_update null_primitives exact_float
           (example_env "001") env staff_post 1 w [1; 2; 3; 4; 5; 6] d
           (example_ticket 1 (Some tok))).
  - apply staff_post_is_staff_post.
  - reflexivity.
  - reflexivity.
  - discriminate.
  - apply example_encrypt.
  - reflexivity.
  - reflexivity.
  - apply example_symbols.
  - reflexivity.
  - left. reflexivity.
  - reflexivity.
  - reflexivity.
Defined.

(** ** Reading keys *)

Lemma match_number_raises (s : list ascii) (e : exn) :
  Json.match_number s = Raise e -> is_ValueError e = true.
Proof.
  unfold Json.match_number.
  destruct (match s with [] => _ | c :: r => _ end) as [neg s1].
  destruct s1 as [|c r]; [intros [= <-]; reflexivity|].
  destruct (if Ascii.eqb c "0" then _ else _) as [[[ok v] r'] n].
  destruct (negb ok).
  { destruct (_ && _); [intros [= <-]; reflexivity|discriminate]. }
  destruct (Json.max_str_digits <? Z.of_nat n).
  - destruct r' as [|x r'']; [intros [= <-]; reflexivity|].
    destruct (_ || _); [discriminate|intros [= <-]; reflexivity].
  - destruct r' as [|x r'']; [discriminate|]. destruct (_ || _); discriminate.
Qed.

Lemma parse_items_raises (fuel : nat) (s : list ascii) (e : exn) :
  Json.parse_items fuel s = Raise e -> is_ValueError e = true.
Proof.
  revert s. induction fuel as [|fuel IH]; intros s; cbn [Json.parse_items];
    [discriminate|].
  destruct s as [|c r]; [intros [= <-]; reflexivity|].
  destruct (_ || _).
  2:{ destruct (Json.starts_other_value c); [discriminate|intros [= <-]; reflexivity]. }
  destruct (Json.match_number (c :: r)) as [[v rest]|e'|] eqn:Hm; cbn [rbind];
    [|intros [= <-]; eapply match_number_raises; eassumption|discriminate].
  destruct (Json.skip_ws rest) as [|x r']; [intros [= <-]; reflexivity|].
  destruct (Ascii.eqb x "]"); [discriminate|].
  destruct (Ascii.eqb x ","); [|intros [= <-]; reflexivity].
  destruct (Json.parse_items fuel (Json.skip_ws r')) as [items|e'|] eqn:Hi; cbn [rbind];
    [discriminate| |discriminate].
  intros [= <-]. eapply IH; eassumption.
Qed.

Lemma loads_raises (s : string) (e : exn) :
  Json.loads s = Raise e -> is_ValueError e = true.
Proof.
  unfold Json.loads. destruct (Json.skip_ws _) as [|c r]; [intros [= <-]; reflexivity|].
  destruct (Ascii.eqb c "[").
  2:{ destruct (_ || _); [discriminate|intros [= <-]; reflexivity]. }
  destruct (Json.skip_ws r) as [|x r']; cbn [rbind]; [intros [= <-]; reflexivity|].
  destruct (Ascii.eqb x "]").
  - cbn [rbind snd fst].
    destruct (Json.skip_ws r'); [discriminate|intros [= <-]; reflexivity].
  - destruct (Json.parse_items _ _) as [items|e'|] eqn:Hi; cbn [rbind].
    + destruct (Json.skip_ws (snd items)); [discriminate|intros [= <-]; reflexivity].
    + intros [= <-]. eapply parse_items_raises; eassumption.
    + discriminate.
Qed.

Section ReadFacts.
Context `{FernetPrimitives}.

Lemma decrypt_data_raises (env : Env) (s : string) (e : exn) :
  decrypt_data env s = Raise e -> e = ValueError.
Proof.
  unfold decrypt_data, reraise_as_ValueError.
  destruct (if falsy (SECRET_KEY env) then _ else _); congruence.
Qed.

Lemma decrypt_data_no_secret (env : Env) (s : string) :
  falsy (SECRET_KEY env) = true -> decrypt_data env s = Raise ValueError.
Proof. intros Hs. unfold decrypt_data. rewrite Hs. reflexivity. Qed.

Lemma get_star_keys_undecryptable (env : Env) (s : string) (e : exn) :
  decrypt_data env s = Raise e -> get_star_keys env (Some s) = Ok [].
Proof.
  intros Hd. unfold get_star_keys. cbn [falsy default from_option id].
  destruct (str_empty s); [reflexivity|].
  rewrite Hd. apply decrypt_data_raises in Hd. subst e. reflexivity.
Qed.

Lemma get_star_keys_no_secret (env : Env) (star_keys : option string) :
  falsy (SECRET_KEY env) = true -> get_star_keys env star_keys = Ok [].
Proof.
  intros Hs. unfold get_star_keys. destruct (falsy star_keys); [reflexivity|].
  rewrite decrypt_data_no_secret by assumption. reflexivity.
Qed.

Lemma get_star_keys_unparsable (env : Env) (s plain : string) (e : exn) :
  decrypt_data env s = Ok plain -> Json.loads plain = Raise e ->
  get_star_keys env (Some s) = Ok [].
Proof.
  intros Hd Hl. unfold get_star_keys. cbn [falsy default from_option id].
  destruct (str_empty s); [reflexivity|].
  rewrite Hd. cbn [rbind]. rewrite Hl. apply loads_raises in Hl.
  rewrite Hl, orb_true_r. reflexivity.
Qed.

(** Where the model of [get_star_keys] has an answer, the answer is a list:
    the exceptions it models are the ones the method catches. *)
Lemma get_star_keys_not_Raise (env : Env) (star_keys : option string) (e : exn) :
  get_star_keys env star_keys <> Raise e.
Proof.
  unfold get_star_keys. destruct (falsy star_keys); [discriminate|].
  destruct (decrypt_data env _) as [plain|e'|] eqn:Hd; cbn [rbind].
  - destruct (Json.loads plain) as [keys|e'|] eqn:Hl; try discriminate.
    apply loads_raises in Hl. rewrite Hl, orb_true_r. discriminate.
  - apply decrypt_data_raises in Hd. subst e'. discriminate.
  - discriminate.
Qed.

End ReadFacts.

(** ** The prize breakdown *)



Section PrizeFacts.
Context `{FernetPrimitives} `{Float64}.




End PrizeFacts.

(** ** Rounding to binary64 *)

Lemma round_half_even_error (q : Q) :
  (Qabs (inject_Z (round_half_even q) - q) <= 1 # 2)%Q.
Proof.
  unfold round_half_even.
  pose proof (Qfloor_le q) as Hlo. pose proof (Qlt_floor q) as Hhi.
  rewrite inject_Z_plus in Hhi. change (inject_Z 1) with 1%Q in Hhi.
  apply Qabs_Qle_condition.
  destruct (Qcompare_spec (q - inject_Z (Qfloor q)) (1 # 2)) as [He|Hl|Hg].
  - destruct (Z.even (Qfloor q)).
    + split; lra.
    + rewrite inject_Z_plus. change (inject_Z 1) with 1%Q. split; lra.
  - split; lra.
  - rewrite inject_Z_plus. change (inject_Z 1) with 1%Q. split; lra.
Qed.







Lemma binary64_zero : binary64 0%Q = 0%Q.
Proof. reflexivity. Qed.







(** ** Who the near winners are *)

Section ExactMatches.
Context `{FernetPrimitives}.

Lemma nearest_loop_exact (env : Env) (d : Draw) (keys : list Z) (min_matches : Z)
  (tickets : list ForgedKey) (matches : list Match) :
  Draw_get_star_keys env d = Ok keys ->
  nearest_loop env (list_to_set keys) min_matches tickets = Ok matches ->
  matches = map (near_match env d)
              (List.filter (fun fk => min_matches <=? shared_count env d fk) tickets).
Proof.
  intros Hk. revert matches.
  induction tickets as [|fk rest IH]; cbn [nearest_loop List.filter map]; intros matches.
  - intros [= <-]. reflexivity.
  - destruct (ForgedKey_get_star_keys env fk) as [ks|e|] eqn:Hfk; [| |discriminate].
    + assert (Hsym : shared_symbols env d fk
                     = (list_to_set keys : gset Z) ∩ list_to_set ks).
      { unfold shared_symbols. rewrite Hk, Hfk. reflexivity. }
      assert (Hcount : shared_count env d fk
                       = Z.of_nat (size ((list_to_set keys : gset Z) ∩ list_to_set ks))).
      { unfold shared_count. rewrite Hsym. reflexivity. }
      destruct (nearest_loop env (list_to_set keys) min_matches rest) as [ms| |];
        try discriminate.
      cbn [rbind]. specialize (IH ms eq_refl). rewrite Hcount.
      destruct (min_matches <=? Z.of_nat (size ((list_to_set keys : gset Z) ∩ list_to_set ks)));
        intros [= <-]; [|exact IH].
      cbn [map]. f_equal; [|exact IH].
      unfold near_match. rewrite Hcount, Hsym. reflexivity.
    + exfalso. exact (get_star_keys_not_Raise env (fk_star_keys fk) e Hfk).
Qed.

Lemma map_nearest_winner_exact (env : Env) (d : Draw) (db0 : DB) (min_matches : Z)
  (matches : list Match) :
  Draw_map_nearest_winner env d db0 min_matches = Ok matches ->
  matches = if six_distinct env d then near_winners env d db0 min_matches else [].
Proof.
  unfold Draw_map_nearest_winner, six_distinct.
  destruct (Draw_get_star_keys env d) as [keys| |] eqn:Hk; try discriminate.
  cbn [rbind keys_read].
  destruct (Nat.eqb (size (list_to_set keys : gset Z)) 6) eqn:Hsix.
  - apply Nat.eqb_eq in Hsix. rewrite Hsix. cbn [Nat.eqb negb orb].
    destruct (nearest_loop _ _ _ _) as [ms| |] eqn:Hloop; try discriminate.
    cbn [rbind]. intros [= <-].
    rewrite (nearest_loop_exact env d keys min_matches _ ms Hk Hloop). reflexivity.
  - cbn [negb]. rewrite orb_true_r. intros [= <-]. reflexivity.
Qed.

End ExactMatches.




(* ===================================================================== *)
(** * Part VI: further properties of the code                             *)
(* ===================================================================== *)

(** ** What [get_star_keys] swallows *)

Section SwallowFacts.
Context `{FernetPrimitives}.

(** X1. [get_star_keys] answers the empty list when the field is empty or
    NULL, when no secret is configured, when the stored value does not
    decrypt (whatever [decrypt_data] raises is a [ValueError]), and when
    [json.loads] rejects the decrypted text with [JSONDecodeError] or with
    the [ValueError] of an integer of more than 4300 digits: a text that
    is empty, that has no JSON value where one is expected, or whose array
    of integers is cut short or followed by other text. *)
Theorem get_star_keys_swallows_codec_errors (env : Env) (star_keys : option string) :
  (falsy star_keys = true -> get_star_keys env star_keys = Ok [])
  /\ (falsy (SECRET_KEY env) = true -> get_star_keys env star_keys = Ok [])
  /\ (forall s e, star_keys = Some s -> decrypt_data env s = Raise e ->
        e = ValueError /\ get_star_keys env star_keys = Ok [])
  /\ (forall s plain e, star_keys = Some s -> decrypt_data env s = Ok plain ->
        Json.loads plain = Raise e ->
        is_ValueError e = true /\ get_star_keys env star_keys = Ok [])
  /\ (forall s plain, star_keys = Some s -> decrypt_data env s = Ok plain ->
        (Json.skip_ws (list_ascii_of_string plain) = []
         \/ exists c rest, Json.skip_ws (list_ascii_of_string plain) = c :: rest
              /\ Json.starts_other_value c = false /\ c <> "-"%char
              /\ Json.is_digit c = false) ->
        get_star_keys env star_keys = Ok []).
Proof.
  split; [|split; [|split; [|split]]].
  - intros Hf. unfold get_star_keys. rewrite Hf. reflexivity.
  - apply get_star_keys_no_secret.
  - intros s e -> Hd. split; [eapply decrypt_data_raises, Hd|].
    eapply get_star_keys_undecryptable, Hd.
  - intros s plain e -> Hd Hl. split; [eapply loads_raises, Hl|].
    eapply get_star_keys_unparsable; eassumption.
  - intros s plain -> Hd Hbad.
    apply (get_star_keys_unparsable env s plain JSONDecodeError Hd).
    unfold Json.loads. destruct Hbad as [-> | (c & rest & -> & Hv & Hm & Hdg)];
      [reflexivity|].
    destruct (Ascii.eqb_spec c "[") as [->|_]; [discriminate Hv|].
    rewrite Hv, Hdg. destruct (Ascii.eqb_spec c "-") as [->|_]; [congruence|].
    reflexivity.
Qed.

End SwallowFacts.

Lemma get_star_keys_swallows_codec_errors_witness :
  @get_star_keys null_primitives example_env_no_secret
    (Some (example_token "001" [1; 2; 3; 4; 5; 6])) = Ok []
  /\ @get_star_keys null_primitives (example_env "001") (Some "not a token"%string) = Ok []
  /\ @get_star_keys null_primitives (example_env "001")
       (Some (@ciphertext_of null_primitives "s3cret" 1700000000 (repeat "001"%char 16)
                "keys?")) = Ok [].
Proof.
  split; [|split].
  - destruct (@get_star_keys_swallows_codec_errors null_primitives example_env_no_secret
                (Some (example_token "001" [1; 2; 3; 4; 5; 6])))
      as (_ & Hsecret & _).
    apply Hsecret. reflexivity.
  - destruct (@get_star_keys_swallows_codec_errors null_primitives (example_env "001")
                (Some "not a token"%string))
      as (_ & _ & Hdec & _).
    apply (Hdec "not a token"%string ValueError); reflexivity.
  - destruct (@get_star_keys_swallows_codec_errors null_primitives (example_env "001")
                (Some (@ciphertext_of null_primitives "s3cret" 1700000000
                         (repeat "001"%char 16) "keys?")))
      as (_ & _ & _ & _ & Htext).
    apply (Htext _ "keys?"%string eq_refl).
    + apply (@decrypt_data_ciphertext null_primitives (example_env "001")); reflexivity.
    + right. exists "k"%char, (list_ascii_of_string "eys?").
      split; [reflexivity|]. split; [|split]; [|discriminate|reflexivity].
      reflexivity.
Defined.

(** ** Without a secret *)

Section NoSecret.
Context `{FernetPrimitives} `{Float64}.

(** X2. With no [SECRET_KEY] in the environment the codec raises
    [ValueError] in both directions, saving a draw whose combination is
    still plaintext raises it too, [set_star_keys] raises it, and winner
    resolution finds nobody: [map_winner] returns None and leaves the draw
    and the database alone, [map_nearest_winner] returns the empty list. *)
Theorem no_secret_behaviour (env : Env) :
  falsy (SECRET_KEY env) = true ->
  (forall data, encrypt_data env data = Raise ValueError
                /\ decrypt_data env data = Raise ValueError)
  /\ (forall d db0, str_empty (d_star_keys d) = false ->
        startswith "gAAAA" (d_star_keys d) = false ->
        Draw_save env d db0 = Raise ValueError)
  /\ (forall d c, Draw_set_star_keys env d c = Raise ValueError)
  /\ (forall fk c, ForgedKey_set_star_keys env fk c = Raise ValueError)
  /\ (forall d db0, Draw_map_winner env d db0 = (Ok None, d, db0))
  /\ (forall d db0 m, Draw_map_nearest_winner env d db0 m = Ok []).
Proof.
  intros Hs.
  assert (Hk : forall sk, get_star_keys env sk = Ok []).
  { intros sk. apply get_star_keys_no_secret, Hs. }
  repeat split.
  - apply encrypt_data_no_secret, Hs.
  - apply decrypt_data_no_secret, Hs.
  - intros d db0 He Hm. unfold Draw_save, Draw_encrypt_data. rewrite He, Hm.
    cbn [negb andb]. rewrite encrypt_data_no_secret by assumption. reflexivity.
  - intros d c. unfold Draw_set_star_keys, Draw_encrypt_data.
    rewrite encrypt_data_no_secret by assumption. reflexivity.
  - intros fk c. unfold ForgedKey_set_star_keys, ForgedKey_encrypt_data.
    rewrite encrypt_data_no_secret by assumption. reflexivity.
  - intros d db0. unfold Draw_map_winner, Draw_get_star_keys. rewrite Hk. reflexivity.
  - intros d db0 m. unfold Draw_map_nearest_winner, Draw_get_star_keys. rewrite Hk.
    reflexivity.
Qed.

End NoSecret.

Lemma no_secret_behaviour_witness :
  let env := example_env_no_secret in
  let d := example_draw (example_token "001" [1; 2; 3; 4; 5; 6]) ACTIVE in
  let db0 := example_db d [example_ticket 1 (Some (d_star_keys d))] in
  @Draw_map_winner null_primitives env d db0 = (Ok None, d, db0)
  /\ @Draw_save null_primitives env (example_draw "[1, 2, 3, 4, 5, 6]" UPCOMING) db0
     = Raise ValueError.
Proof.
  intros env d db0.
  destruct (@no_secret_behaviour null_primitives env eq_refl)
    as (_ & Hsave & _ & _ & Hmw & _).
  split; [apply Hmw|]. apply Hsave; reflexivity.
Defined.

(** ** What [process_draw] changes *)

Section ProcessFrame.
Context `{FernetPrimitives} `{Float64}.

(** X3. A run of [process_draw] that answers [success: true] reports no
    winner.  Its only effects are that the status of the draw goes from
    ACTIVE to ENDED and that the two statistics keys leave the cache: users,
    wallets, tickets, the other draws and the other fields of the draw are
    as before. *)
Theorem process_draw_success_frame (env : Env) (request : Request) (draw_id : Z)
  (w w' : World) (body : list (string * jval)) :
  is_staff_post request ->
  process_draw env request draw_id w
  = (Ok (JsonResponse (JDict (("success"%string, JBool true) :: body))), w') ->
  JsonResponse (JDict (("success"%string, JBool true) :: body)) = processed_no_winner
  /\ db w' = ended draw_id (db w)
  /\ cache w' = cache w ∖ list_to_set ["platform_stats"; "landing_page_data"]%string
  /\ exists d, find_by d_id draw_id (draws (db w)) = Some d
               /\ d_status d = ACTIVE /\ d_draw_datetime d <= timezone_now env
               /\ find_by d_id draw_id (draws (db w')) = Some (set_d_status d ENDED).
Proof.
  intros Hr. rewrite process_draw_staff by assumption.
  unfold get_object_or_404.
  destruct (find_by d_id draw_id (draws (db w))) as [d|] eqn:Hf; [|discriminate].
  destruct (negb _ || _) eqn:Hg; [discriminate|].
  apply orb_false_iff in Hg as [Hst Hdue].
  apply negb_false_iff in Hst. apply Z.ltb_ge in Hdue.
  unfold process_draw_run.
  destruct (Draw_map_winner env d (db w)) as [[found d1] db1] eqn:Hmw.
  destruct found as [[fk|]| |]; try discriminate.
  apply map_winner_none in Hmw as [-> ->].
  cbv [atomic]. intros Heq. injection Heq as <- <-.
  split; [reflexivity|]. split; [reflexivity|]. split; [reflexivity|].
  exists d. split; [reflexivity|]. split; [destruct (d_status d); try discriminate; reflexivity|].
  split; [exact Hdue|].
  cbn [db cache_delete_many draws with_draws].
  rewrite find_by_update_where by reflexivity. rewrite Hf. reflexivity.
Qed.

(** X4. [process_draw] leaves the database and the cache untouched unless
    the caller is a staff member using POST and the draw exists, is ACTIVE
    and is due.  The anonymous caller is sent to the login page, another
    method is refused, a non-staff caller is told so, and an unknown draw
    gives a failure that carries the 404. *)
Theorem process_draw_only_when_allowed (env : Env) (request : Request) (draw_id : Z)
  (w : World) :
  (snd (process_draw env request draw_id w) <> w ->
   is_staff_post request
   /\ exists d, find_by d_id draw_id (draws (db w)) = Some d
                /\ d_status d = ACTIVE /\ d_draw_datetime d <= timezone_now env)
  /\ (req_user request = None ->
      process_draw env request draw_id w = (Ok RedirectToLogin, w))
  /\ (forall user, req_user request = Some user ->
      req_method request <> "POST"%string ->
      process_draw env request draw_id w = (Ok HttpResponseNotAllowed, w))
  /\ (forall user, req_user request = Some user ->
      req_method request = "POST"%string -> u_is_staff user = false ->
      process_draw env request draw_id w
      = (Ok (json_failure (JStr "Admin access required")), w))
  /\ (is_staff_post request -> find_by d_id draw_id (draws (db w)) = None ->
      process_draw env request draw_id w = (Ok (json_failure (JStrOf Http404)), w)).
Proof.
  split; [|split; [|split; [|split]]].
  - unfold process_draw.
    destruct (req_user request) as [user|] eqn:Hu; [|cbn; congruence].
    destruct (String.eqb_spec (req_method request) "POST") as [Hm|Hm];
      cbn [negb]; [|cbn; congruence].
    destruct (u_is_staff user) eqn:Hs; cbn [negb]; [|cbn; congruence].
    unfold get_object_or_404.
    destruct (find_by d_id draw_id (draws (db w))) as [d|] eqn:Hf; [|cbn; congruence].
    destruct (negb _ || _) eqn:Hg; [cbn; congruence|].
    apply orb_false_iff in Hg as [Hst Hdue].
    apply negb_false_iff in Hst. apply Z.ltb_ge in Hdue.
    intros _. split; [exists user; auto|]. exists d. split; [reflexivity|].
    split; [destruct (d_status d); try discriminate; reflexivity|exact Hdue].
  - intros Hu. unfold process_draw. rewrite Hu. reflexivity.
  - intros user Hu Hm. unfold process_draw. rewrite Hu.
    destruct (String.eqb_spec (req_method request) "POST"); [contradiction|reflexivity].
  - intros user Hu Hm Hs. unfold process_draw. rewrite Hu, Hm, Hs. reflexivity.
  - intros Hr Hf. rewrite process_draw_staff by assumption.
    unfold get_object_or_404. rewrite Hf. reflexivity.
Qed.

(** X5. A draw never takes tickets and a processing run at the same time:
    while [can_participate] holds, [process_draw] is turned down and changes
    nothing; and an ENDED or CANCELLED draw takes no tickets. *)
Theorem participation_excludes_processing (env : Env) (request : Request) (w : World)
  (d : Draw) :
  (Draw_can_participate env d = true ->
   find_by d_id (d_id d) (draws (db w)) = Some d ->
   snd (process_draw env request (d_id d) w) = w
   /\ (is_staff_post request -> process_draw env request (d_id d) w = (rejected, w)))
  /\ (d_status d = ENDED \/ d_status d = CANCELLED -> Draw_can_participate env d = false).
Proof.
  split.
  - intros Hc Hf. apply (process_draw_guard env request (d_id d) w d Hf).
    unfold Draw_can_participate in Hc. apply andb_true_iff in Hc as [_ Hc].
    apply Z.ltb_lt in Hc. right. exact Hc.
  - unfold Draw_can_participate. intros [-> | ->]; reflexivity.
Qed.

End ProcessFrame.

Lemma process_draw_success_frame_witness :
  let env := example_env "002" in
  let d := example_draw (example_token "001" [1; 2; 3; 4; 5; 6]) ACTIVE in
  let w := example_world d [example_ticket 1 (Some (example_token "003" [1; 2; 3; 4; 5; 6]))] in
  let w' := snd (@process_draw null_primitives exact_float env staff_post 1 w) in
  db w' = ended 1 (db w)
  /\ cache w' = cache w ∖ list_to_set ["platform_stats"; "landing_page_data"]%string.
Proof.
  intros env d w w'.
  destruct (@process_draw_success_frame null_primitives exact_float env staff_post 1 w w'
              [("winner"%string, JNull);
               ("message"%string, JStr "Draw processed successfully")])
    as (_ & Hdb & Hcache & _).
  - apply staff_post_is_staff_post.
  - vm_compute. reflexivity.
  - split; assumption.
Defined.

Lemma participation_excludes_processing_witness :
  let env := example_env "002" in
  let d := set_d_status (example_draw "" UPCOMING) ACTIVE in
  let d' := {| d_id := 1; d_title := d_title d; d_prize_pool := 1000;
               d_star_keys := ""; d_nft_id := None; d_hcs_message_id := None;
               d_status := ACTIVE; d_draw_datetime := 1800000000; d_updated_at := 0;
               d_total_tickets_sold := 0; d_total_prize_distributed := 0;
               d_winning_ticket_serial := None; d_winner_wallet := None |} in
  let w := example_world d' [] in
  @process_draw null_primitives exact_float env staff_post 1 w = (rejected, w).
Proof.
  intros env d d' w.
  destruct (@participation_excludes_processing null_primitives exact_float
              env staff_post w d') as [Hp _].
  apply Hp.
  - reflexivity.
  - reflexivity.
  - apply staff_post_is_staff_post.
Defined.

Lemma process_draw_only_when_allowed_witness :
  let w := example_world (example_draw "" ACTIVE) [] in
  let anonymous := {| req_user := None; req_method := "POST" |} in
  @process_draw null_primitives exact_float (example_env "001") anonymous 1 w
  = (Ok RedirectToLogin, w).
Proof.
  intros w anonymous.
  destruct (@process_draw_only_when_allowed null_primitives exact_float
              (example_env "001") anonymous 1 w)
    as (_ & Hanon & _).
  apply Hanon. reflexivity.
Defined.

(** ** Exact and near matches *)

Lemma head_filter_descending {A : Type} (key : A -> Z) (p : A -> bool) (l : list A)
  (x : A) :
  descending key l -> head (List.filter p l) = Some x ->
  In x l /\ p x = true /\ forall y, In y l -> p y = true -> key y <= key x.
Proof.
  unfold descending. induction 1 as [|a l Hl IH Ha]; cbn [List.filter]; [discriminate|].
  destruct (p a) eqn:Hpa.
  - cbn [head]. intros [= <-]. split; [left; reflexivity|]. split; [exact Hpa|].
    intros y [<-|Hy] _; [lia|].
    rewrite Forall_forall in Ha. apply Ha, list_elem_of_In, Hy.
  - intros Hh. destruct (IH Hh) as (Hin & Hpx & Hmax).
    split; [right; exact Hin|]. split; [exact Hpx|].
    intros y [<-|Hy] Hpy; [congruence|]. apply Hmax; assumption.
Qed.

Section MatchFacts.
Context `{FernetPrimitives}.

(** X6. What [map_winner] returns.  A ticket is returned only if it belongs
    to the draw and stores the very token of the draw, so that both decrypt
    to the same six keys; among such tickets it is a most recently created
    one.  If the stored combination of the draw carries the [gAAAA] marker,
    the draw is then saved with the serial and the wallet of that ticket and
    nothing else changed but [updated_at].  When None is returned, neither
    the draw nor the database has changed. *)
Theorem map_winner_sound (env : Env) (d d' : Draw) (db0 db' : DB)
  (r : res (option ForgedKey)) :
  Draw_map_winner env d db0 = (r, d', db') ->
  (forall fk, r = Ok (Some fk) ->
     In fk (forgedkeys db0) /\ fk_draw fk = d_id d
     /\ fk_star_keys fk = Some (d_star_keys d)
     /\ (forall fk', In fk' (forgedkeys db0) -> fk_draw fk' = d_id d ->
           fk_star_keys fk' = Some (d_star_keys d) ->
           fk_created_at fk' <= fk_created_at fk)
     /\ (exists keys, Draw_get_star_keys env d = Ok keys
                      /\ ForgedKey_get_star_keys env fk = Ok keys
                      /\ length keys = 6%nat)
     /\ (startswith "gAAAA" (d_star_keys d) = true ->
         d' = set_d_updated_at
                (set_d_winner d (Some (fk_serial_number fk)) (Some (fk_user_wallet fk)))
                (timezone_now env)
         /\ db' = with_draws db0 (upsert d_id d' (draws db0))
         /\ find_by d_id (d_id d) (draws db') = Some d'))
  /\ (r = Ok None -> d' = d /\ db' = db0).
Proof.
  intros Hmw. split; [|intros ->; eapply map_winner_none; exact Hmw].
  intros fk ->. revert Hmw. unfold Draw_map_winner.
  destruct (Draw_get_star_keys env d) as [keys| |] eqn:Hk; try discriminate.
  destruct (Nat.eqb (length keys) 0 || negb (Nat.eqb (length keys) 6)) eqn:Hlen;
    [discriminate|].
  apply orb_false_iff in Hlen as [_ Hlen]. apply negb_false_iff, Nat.eqb_eq in Hlen.
  destruct (head _) as [fk0|] eqn:Hhead; [|discriminate].
  apply (head_filter_descending fk_created_at) in Hhead
    as (Hin & Hp & Hmax); [|apply sort_desc_sorted].
  apply forged_keys_of_In in Hin as [Hin Hdraw].
  apply bool_decide_eq_true_1 in Hp.
  intros Hsave.
  assert (Hfk : fk0 = fk).
  { destruct (Draw_save env _ db0) as [[d2 db2]| |]; congruence. }
  subst fk0.
  split; [exact Hin|]. split; [exact Hdraw|]. split; [exact Hp|]. split.
  { intros fk' Hin' Hd' Hk'. apply Hmax; [apply forged_keys_of_In; auto|].
    apply bool_decide_eq_true_2, Hk'. }
  split.
  { exists keys. unfold ForgedKey_get_star_keys. rewrite Hp. auto. }
  intros Hmark. revert Hsave. unfold Draw_save. cbn [d_star_keys set_d_winner].
  rewrite Hmark. cbn [negb]. rewrite andb_false_r. cbn [rbind].
  intros Hsave.
  assert (Hd' : d' = set_d_updated_at
                       (set_d_winner d (Some (fk_serial_number fk))
                          (Some (fk_user_wallet fk)))
                       (timezone_now env)) by congruence.
  assert (Hdb' : db' = with_draws db0
                         (upsert d_id
                            (set_d_updated_at
                               (set_d_winner d (Some (fk_serial_number fk))
                                  (Some (fk_user_wallet fk)))
                               (timezone_now env))
                            (draws db0))) by congruence.
  clear Hsave. subst d' db'. split; [reflexivity|]. split; [reflexivity|].
  cbn [draws with_draws].
  apply (find_by_upsert d_id
           (set_d_updated_at
              (set_d_winner d (Some (fk_serial_number fk)) (Some (fk_user_wallet fk)))
              (timezone_now env))).
Qed.

End MatchFacts.

Lemma map_winner_sound_witness :
  let env := example_env "002" in
  let tok := example_token "001" [1; 2; 3; 4; 5; 6] in
  let d := example_draw tok ACTIVE in
  let db0 := example_db d [example_ticket 1 (Some tok); example_ticket 2 (Some tok)] in
  let fk := example_ticket 2 (Some tok) in
  let d' := set_d_updated_at
              (set_d_winner d (Some (fk_serial_number fk)) (Some (fk_user_wallet fk)))
              (timezone_now env) in
  @Draw_map_winner null_primitives env d db0
  = (Ok (Some fk), d', with_draws db0 (upsert d_id d' (draws db0)))
  /\ fk_star_keys fk = Some (d_star_keys d)
  /\ (exists keys, @Draw_get_star_keys null_primitives env d = Ok keys
                   /\ @ForgedKey_get_star_keys null_primitives env fk = Ok keys
                   /\ length keys = 6%nat)
  /\ find_by d_id (d_id d) (draws (with_draws db0 (upsert d_id d' (draws db0)))) = Some d'.
Proof.
  intros env tok d db0 fk d'.
  assert (Hrun : @Draw_map_winner null_primitives env d db0
                 = (Ok (Some fk), d', with_draws db0 (upsert d_id d' (draws db0))))
    by (vm_compute; reflexivity).
  split; [exact Hrun|].
  destruct (@map_winner_sound null_primitives env d d' db0
              (with_draws db0 (upsert d_id d' (draws db0))) (Ok (Some fk)) Hrun)
    as [Hsome _].
  destruct (Hsome fk eq_refl) as (_ & _ & Hk & _ & Hkeys & Hsaved).
  split; [exact Hk|]. split; [exact Hkeys|].
  apply Hsaved. vm_compute. reflexivity.
Defined.

Section NearestFacts.
Context `{FernetPrimitives}.

Lemma nearest_loop_spec (env : Env) (wk : gset Z) (min_matches : Z)
  (tickets : list ForgedKey) :
  (forall fk, In fk tickets -> exists keys, ForgedKey_get_star_keys env fk = Ok keys) ->
  exists matches,
    nearest_loop env wk min_matches tickets = Ok matches
    /\ forall mt, In mt matches <->
         exists fk keys, In fk tickets /\ ForgedKey_get_star_keys env fk = Ok keys
           /\ min_matches <= Z.of_nat (size (wk ∩ list_to_set keys))
           /\ mt = {| forged_key := fk;
                      match_count := Z.of_nat (size (wk ∩ list_to_set keys));
                      matched_keys := wk ∩ list_to_set keys |}.
Proof.
  induction tickets as [|fk rest IH]; intros Hall.
  - exists []. split; [reflexivity|]. intros mt. split; [contradiction|].
    intros (fk & keys & [] & _).
  - destruct IH as (ms & Hms & Hspec); [intros fk' Hin; apply Hall; right; exact Hin|].
    destruct (Hall fk (or_introl eq_refl)) as [keys Hk].
    cbn [nearest_loop]. rewrite Hk, Hms. cbn [rbind].
    destruct (Z.leb_spec min_matches (Z.of_nat (size (wk ∩ list_to_set keys))))
      as [Hle|Hlt].
    + eexists. split; [reflexivity|]. intros mt. cbn [In]. rewrite Hspec. split.
      * intros [<-|(fk' & keys' & Hin & Hk' & Hm & ->)].
        -- exists fk, keys. auto.
        -- exists fk', keys'. auto.
      * intros (fk' & keys' & [<-|Hin] & Hk' & Hm & ->).
        -- left. rewrite Hk in Hk'. injection Hk' as <-. reflexivity.
        -- right. exists fk', keys'. auto.
    + exists ms. split; [reflexivity|]. intros mt. rewrite Hspec. split.
      * intros (fk' & keys' & Hin & Hk' & Hm & ->). exists fk', keys'. cbn [In]. auto.
      * intros (fk' & keys' & [<-|Hin] & Hk' & Hm & ->).
        -- rewrite Hk in Hk'. injection Hk' as <-. lia.
        -- exists fk', keys'. auto.
Qed.

(** X7. When the winning keys have exactly six distinct values and the keys
    of every ticket of the draw can be read, [map_nearest_winner] returns
    exactly one entry for each ticket of the draw that shares at least
    [min_matches] distinct symbols with the winning keys, and nothing else:
    the result is the list of these entries, sorted best first and in the
    order of the table among equals, so it has as many entries as there
    are such tickets.  The entry carries that number of shared symbols. *)
Theorem map_nearest_winner_complete (env : Env) (d : Draw) (db0 : DB)
  (min_matches : Z) (c : list Z) :
  Draw_get_star_keys env d = Ok c ->
  size (list_to_set c : gset Z) = 6%nat ->
  (forall fk, In fk (forgedkeys db0) -> fk_draw fk = d_id d ->
     exists keys, ForgedKey_get_star_keys env fk = Ok keys) ->
  exists matches,
    Draw_map_nearest_winner env d db0 min_matches = Ok matches
    /\ matches
       = sort_desc match_count
           (map (near_match env d) (qualifying_tickets env d db0 min_matches))
    /\ Permutation matches
         (map (near_match env d) (qualifying_tickets env d db0 min_matches))
    /\ length matches = length (qualifying_tickets env d db0 min_matches)
    /\ descending match_count matches
    /\ forall fk n,
         (exists mt, In mt matches /\ forged_key mt = fk /\ match_count mt = n)
         <-> (In fk (forgedkeys db0) /\ fk_draw fk = d_id d /\ min_matches <= n
              /\ exists keys, ForgedKey_get_star_keys env fk = Ok keys
                   /\ n = Z.of_nat (size ((list_to_set c : gset Z) ∩ list_to_set keys))).
Proof.
  intros Hk Hsz Hall.
  assert (Hrun : exists matches, Draw_map_nearest_winner env d db0 min_matches = Ok matches
            /\ forall fk n,
                 (exists mt, In mt matches /\ forged_key mt = fk /\ match_count mt = n)
                 <-> (In fk (forgedkeys db0) /\ fk_draw fk = d_id d /\ min_matches <= n
                      /\ exists keys, ForgedKey_get_star_keys env fk = Ok keys
                           /\ n = Z.of_nat (size ((list_to_set c : gset Z)
                                                  ∩ list_to_set keys)))).
  { unfold Draw_map_nearest_winner. rewrite Hk. cbn [rbind].
    rewrite Hsz. cbn [Nat.eqb negb orb].
    destruct (nearest_loop_spec env (list_to_set c) min_matches (forged_keys_of d db0))
      as (ms & Hms & Hspec).
    { intros fk Hin. apply forged_keys_of_In in Hin as [Hin Hd]. auto. }
    rewrite Hms. cbn [rbind]. eexists. split; [reflexivity|].
    intros fk n. split.
    - intros (mt & Hin & <- & <-). apply sort_desc_In, Hspec in Hin
        as (fk & keys & Hfk & Hkeys & Hm & ->).
      apply forged_keys_of_In in Hfk as [Hfk Hd]. cbn [forged_key match_count].
      repeat split; auto. exists keys. auto.
    - intros (Hin & Hd & Hm & keys & Hkeys & ->).
      eexists. split; [apply sort_desc_In, Hspec; exists fk, keys|].
      + split; [apply forged_keys_of_In; auto|]. repeat split; auto.
      + split; reflexivity. }
  destruct Hrun as (matches & Hrun & Hiff). exists matches.
  pose proof (map_nearest_winner_exact env d db0 min_matches matches Hrun) as Hexact.
  assert (Hsix : six_distinct env d = true).
  { unfold six_distinct. rewrite Hk. cbn [keys_read]. rewrite Hsz. reflexivity. }
  rewrite Hsix in Hexact. unfold near_winners in Hexact.
  split; [exact Hrun|]. split; [exact Hexact|].
  split; [rewrite Hexact; apply sort_desc_perm|].
  split; [rewrite Hexact, sort_desc_length, length_map; reflexivity|].
  split; [rewrite Hexact; apply sort_desc_sorted|exact Hiff].
Qed.

End NearestFacts.

Lemma map_nearest_winner_complete_witness :
  let env := example_env "002" in
  let c := [1; 2; 3; 4; 5; 6] in
  let d := example_draw (example_token "001" c) ACTIVE in
  let db0 := example_db d [example_ticket 1 (Some (example_token "003" [1; 2; 3; 4; 5; 0]));
                           example_ticket 2 None] in
  exists matches,
    @Draw_map_nearest_winner null_primitives env d db0 5 = Ok matches
    /\ matches
       = sort_desc match_count
           (map (@near_match null_primitives env d)
              (@qualifying_tickets null_primitives env d db0 5))
    /\ length matches = 1%nat
    /\ descending match_count matches.
Proof.
  intros env c d db0.
  destruct (@map_nearest_winner_complete null_primitives env d db0 5 c)
    as (matches & Hrun & Hexact & _ & Hlen & Hsorted & _).
  - apply (@get_star_keys_encrypted null_primitives (example_env "001")).
    + apply example_encrypt.
    + reflexivity.
    + apply example_symbols.
  - vm_compute. reflexivity.
  - intros fk [<-|[<-|[]]] _.
    + eexists. apply example_get_star_keys. repeat constructor; discriminate.
    + exists []. reflexivity.
  - exists matches. split; [exact Hrun|]. split; [exact Hexact|].
    split; [|exact Hsorted].
    rewrite Hlen. vm_compute. reflexivity.
Defined.

(** ** Saving plaintext *)

Section SaveFacts.
Context `{FernetPrimitives}.

Lemma marker_differs (a b : string) :
  startswith "gAAAA" a = true -> startswith "gAAAA" b = false -> a <> b.
Proof. intros Ha Hb Heq. congruence. Qed.

(** X8. [Draw.save] encrypts a plaintext combination exactly once.  With the
    secret configured, saving a draw whose [star_keys] is non-empty text
    without the [gAAAA] marker stores a token instead of the text; the token
    decrypts to the text, and when the text is the JSON of a combination
    [get_star_keys] reads that combination back; saving the result again,
    in whatever environment, leaves the token as it is. *)
Theorem Draw_save_encrypts_once (env env2 : Env) (d : Draw) (db0 : DB) :
  env_ok env -> time_time env < 2 ^ 42 ->
  str_empty (d_star_keys d) = false ->
  startswith "gAAAA" (d_star_keys d) = false ->
  utf8_valid (encode (d_star_keys d)) = true ->
  exists d1 db1,
    Draw_save env d db0 = Ok (d1, db1)
    /\ d_star_keys d1 <> d_star_keys d
    /\ find_by d_id (d_id d) (draws db1) = Some d1
    /\ (forall env', SECRET_KEY env' = SECRET_KEY env ->
          decrypt_data env' (d_star_keys d1) = Ok (d_star_keys d))
    /\ (forall env' c, SECRET_KEY env' = SECRET_KEY env -> symbols c ->
          d_star_keys d = Json.dumps c -> Draw_get_star_keys env' d1 = Ok c)
    /\ exists d2 db2,
         Draw_save env2 d1 db1 = Ok (d2, db2) /\ d_star_keys d2 = d_star_keys d1.
Proof.
  intros Hok Ht He Hm Hv.
  pose proof (encrypt_data_defined env (d_star_keys d) Hok) as Hen.
  destruct (encrypted_marker _ _ _ Hen Ht) as [Hm1 He1].
  unfold Draw_save at 1. rewrite He, Hm. cbn [negb andb].
  unfold Draw_encrypt_data. rewrite Hen. cbn [rbind].
  do 2 eexists. split; [reflexivity|].
  cbn [d_star_keys set_d_star_keys set_d_updated_at draws with_draws].
  split; [apply marker_differs; assumption|]. split.
  { apply (find_by_upsert d_id
             (set_d_updated_at
                (set_d_star_keys d
                   (ciphertext_of (secret_of env) (time_time env) (urandom16 env)
                      (d_star_keys d)))
                (timezone_now env))). }
  destruct Hok as (Hs & Hiv & Ht0).
  split; [|split].
  - intros env' Hs'.
    replace (secret_of env) with (secret_of env') by (unfold secret_of; congruence).
    apply decrypt_data_ciphertext; auto. congruence.
  - intros env' c Hs' Hc Hd. unfold Draw_get_star_keys.
    cbn [d_star_keys set_d_star_keys set_d_updated_at]. rewrite Hd.
    replace (secret_of env) with (secret_of env') by (unfold secret_of; congruence).
    apply get_star_keys_ciphertext; auto. congruence.
  - unfold Draw_save. cbn [d_star_keys set_d_star_keys set_d_updated_at].
    rewrite Hm1. cbn [negb]. rewrite andb_false_r. cbn [rbind].
    do 2 eexists. split; reflexivity.
Qed.

(** X9. [UserWallet.save] and [decrypt_key].  With the secret configured,
    saving a wallet whose private key is plaintext (non-empty, without the
    [gAAAA] marker) stores a token, from which [decrypt_key] gives the key
    back, and a second save keeps the token.  A wallet without a private key
    is stored as it is, and [decrypt_key] on it raises [ValueError]. *)
Theorem UserWallet_private_key_roundtrip (env env2 : Env) (w : UserWallet) (db0 : DB)
  (key : string) :
  env_ok env -> time_time env < 2 ^ 42 ->
  str_empty key = false -> startswith "gAAAA" key = false ->
  utf8_valid (encode key) = true ->
  (w_private_key w = Some key ->
   exists w1 db1,
     UserWallet_save env w db0 = Ok (w1, db1)
     /\ w_private_key w1 <> Some key
     /\ find_by w_id (w_id w) (userwallets db1) = Some w1
     /\ (forall env', SECRET_KEY env' = SECRET_KEY env ->
           UserWallet_decrypt_key env' w1 = Ok key)
     /\ exists w2 db2,
          UserWallet_save env2 w1 db1 = Ok (w2, db2)
          /\ w_private_key w2 = w_private_key w1)
  /\ (w_private_key w = None ->
      UserWallet_save env2 w db0
      = Ok (w, with_userwallets db0 (upsert w_id w (userwallets db0)))
      /\ UserWallet_decrypt_key env2 w = Raise ValueError).
Proof.
  intros Hok Ht He Hm Hv. split.
  - intros Hw.
    pose proof (encrypt_data_defined env key Hok) as Hen.
    destruct (encrypted_marker _ _ _ Hen Ht) as [Hm1 He1].
    unfold UserWallet_save at 1. rewrite Hw. cbn [falsy default from_option id].
    rewrite He, Hm. cbn [negb]. unfold UserWallet_encrypt_key. rewrite Hen.
    cbn [rbind].
    do 2 eexists. split; [reflexivity|].
    cbn [w_private_key set_w_private_key userwallets with_userwallets].
    split.
    { intros Heq. injection Heq as Heq. revert Heq. apply marker_differs; assumption. }
    split.
    { apply (find_by_upsert w_id
               (set_w_private_key w
                  (Some (ciphertext_of (secret_of env) (time_time env) (urandom16 env)
                           key)))). }
    destruct Hok as (Hs & Hiv & Ht0). split.
    + intros env' Hs'. unfold UserWallet_decrypt_key.
      cbn [w_private_key set_w_private_key].
      replace (secret_of env) with (secret_of env') by (unfold secret_of; congruence).
      apply decrypt_data_ciphertext; auto. congruence.
    + unfold UserWallet_save. cbn [w_private_key set_w_private_key].
      cbn [falsy default from_option id]. rewrite He1, Hm1. cbn [negb rbind].
      do 2 eexists. split; reflexivity.
  - intros Hw. unfold UserWallet_save, UserWallet_decrypt_key. rewrite Hw.
    split; reflexivity.
Qed.

End SaveFacts.

Lemma Draw_save_encrypts_once_witness :
  let env := example_env "001" in
  let d := example_draw "[1, 2, 3, 4, 5, 6]" UPCOMING in
  exists d1 db1,
    @Draw_save null_primitives env d (example_db d []) = Ok (d1, db1)
    /\ d_star_keys d1 <> d_star_keys d
    /\ find_by d_id (d_id d) (draws db1) = Some d1
    /\ (forall env', SECRET_KEY env' = SECRET_KEY env ->
          @decrypt_data null_primitives env' (d_star_keys d1) = Ok (d_star_keys d))
    /\ (forall env' c, SECRET_KEY env' = SECRET_KEY env -> symbols c ->
          d_star_keys d = Json.dumps c ->
          @Draw_get_star_keys null_primitives env' d1 = Ok c)
    /\ exists d2 db2,
         @Draw_save null_primitives example_env_no_secret d1 db1 = Ok (d2, db2)
         /\ d_star_keys d2 = d_star_keys d1.
Proof.
  intros env d.
  apply (@Draw_save_encrypts_once null_primitives env example_env_no_secret d
           (example_db d [])).
  - apply example_env_ok.
  - reflexivity.
  - reflexivity.
  - reflexivity.
  - reflexivity.
Defined.

Lemma UserWallet_private_key_roundtrip_witness :
  let env := example_env "001" in
  let key := "302e020100300506032b657004220420"%string in
  exists w1 db1,
    @UserWallet_save null_primitives env example_wallet (example_db (example_draw "" UPCOMING) [])
    = Ok (w1, db1)
    /\ w_private_key w1 <> Some key
    /\ find_by w_id (w_id example_wallet) (userwallets db1) = Some w1
    /\ (forall env', SECRET_KEY env' = SECRET_KEY env ->
          @UserWallet_decrypt_key null_primitives env' w1 = Ok key)
    /\ exists w2 db2,
         @UserWallet_save null_primitives example_env_no_secret w1 db1 = Ok (w2, db2)
         /\ w_private_key w2 = w_private_key w1.
Proof.
  intros env key.
  destruct (@UserWallet_private_key_roundtrip null_primitives env example_env_no_secret
              example_wallet (example_db (example_draw "" UPCOMING) []) key)
    as [Hsave _].
  - apply example_env_ok.
  - reflexivity.
  - reflexivity.
  - reflexivity.
  - reflexivity.
  - apply Hsave. reflexivity.
Defined.

(** ** Rarity and match counts beyond six symbols *)

Lemma all_identical_size (keys : list Z) :
  keys <> [] -> all_identical keys = true -> size (list_to_set keys : gset Z) = 1%nat.
Proof.
  destruct keys as [|x rest]; [congruence|]. intros _ Hall. cbn [all_identical] in Hall.
  rewrite forallb_forall in Hall.
  assert (Heq : (list_to_set (x :: rest) : gset Z) = {[x]}).
  { apply set_eq. intros y. rewrite elem_of_list_to_set, elem_of_singleton.
    rewrite list_elem_of_In. cbn [In]. split.
    - intros [<-|Hy]; [reflexivity|]. apply Hall, Z.eqb_eq in Hy. congruence.
    - intros ->. left. reflexivity. }
  rewrite Heq. apply size_singleton.
Qed.

Lemma all_identical_filter (p : Z -> bool) (keys : list Z) :
  all_identical keys = true ->
  length (List.filter p keys) = length keys \/ length (List.filter p keys) = 0%nat.
Proof.
  destruct keys as [|x rest]; [auto|]. cbn [all_identical]. intros Hall.
  rewrite forallb_forall in Hall.
  destruct (p x) eqn:Hp.
  - left. apply filter_length_all. cbn [forallb]. rewrite Hp.
    apply forallb_forall. intros y Hy. apply Hall, Z.eqb_eq in Hy. congruence.
  - right. cbn [List.filter]. rewrite Hp.
    assert (Hnone : List.filter p rest = []).
    { induction rest as [|y rest IH]; [reflexivity|]. cbn [List.filter].
      assert (Hy : x = y) by (apply Z.eqb_eq, Hall; left; reflexivity). subst y.
      rewrite Hp. apply IH. intros z Hz. apply Hall. right. exact Hz. }
    rewrite Hnone. reflexivity.
Qed.

(** X10. [calculate_rarity] outside the six-symbol case.  No keys give
    Common, so a ticket without stored keys, or read without a secret, is
    Common.  Rare is returned exactly when the keys have six distinct
    values, whatever their number.  Legendary is returned exactly for a
    non-empty list of identical keys whose length is not six. *)
Theorem calculate_rarity_edges `{FernetPrimitives} (env : Env) (fk : ForgedKey)
  (keys : list Z) :
  rarity_of_keys [] = Common
  /\ (falsy (fk_star_keys fk) = true \/ falsy (SECRET_KEY env) = true ->
      ForgedKey_calculate_rarity env fk = Ok Common)
  /\ (rarity_of_keys keys = Rare
      <-> keys <> [] /\ size (list_to_set keys : gset Z) = 6%nat)
  /\ (rarity_of_keys keys = Legendary
      <-> keys <> [] /\ all_identical keys = true /\ length keys <> 6%nat).
Proof.
  split; [reflexivity|]. split; [|split].
  - intros Hcase. unfold ForgedKey_calculate_rarity, ForgedKey_get_star_keys.
    destruct Hcase as [Hc|Hc].
    + unfold get_star_keys. rewrite Hc. reflexivity.
    + rewrite get_star_keys_no_secret by exact Hc. reflexivity.
  - unfold rarity_of_keys. destruct keys as [|x rest].
    { cbn [length Nat.eqb]. split; [discriminate|]. intros [Hne _]. congruence. }
    cbn [length Nat.eqb].
    destruct (Nat.eqb_spec (size (list_to_set (x :: rest) : gset Z)) 6) as [Hs|Hs].
    + split; [intros _; split; [discriminate|exact Hs]|reflexivity].
    + split; [|intros [_ Hs']; contradiction].
      repeat match goal with |- context [if ?b then _ else _] => destruct b end;
        discriminate.
  - unfold rarity_of_keys. destruct keys as [|x rest].
    { cbn [length Nat.eqb]. split; [discriminate|]. intros [Hne _]. congruence. }
    set (keys := x :: rest). assert (Hne : keys <> []) by discriminate.
    replace (length keys =? 0)%nat with false by reflexivity.
    pose proof (size_list_to_set_le keys) as Hle.
    destruct (Nat.eqb_spec (size (list_to_set keys : gset Z)) 6) as [Hs|Hs].
    { split; [discriminate|]. intros (_ & Hid & Hlen).
      rewrite (all_identical_size keys Hne Hid) in Hs. discriminate. }
    rewrite (List.filter_ext (fun k => k mod 2 =? 0) Z.even even_mod2 keys).
    rewrite (List.filter_ext (fun k => negb (k mod 2 =? 0)) Z.odd odd_mod2 keys).
    destruct (Nat.eqb_spec (length (List.filter Z.even keys)) 6) as [He|He].
    { split; [discriminate|]. intros (_ & Hid & Hlen).
      destruct (all_identical_filter Z.even keys Hid); congruence. }
    destruct (Nat.eqb_spec (length (List.filter Z.odd keys)) 6) as [Ho|Ho].
    { split; [discriminate|]. intros (_ & Hid & Hlen).
      destruct (all_identical_filter Z.odd keys Hid); congruence. }
    destruct (Nat.eqb_spec (size (list_to_set keys : gset Z)) 1) as [H1|H1].
    + split; [intros _|reflexivity]. split; [exact Hne|].
      pose proof (size_one_identical keys H1) as Hid. split; [exact Hid|].
      intros Hlen.
      destruct (all_identical_parity keys Hid) as [Hev|Hod].
      * apply filter_length_all in Hev. congruence.
      * apply filter_length_all in Hod. congruence.
    + split; [discriminate|]. intros (_ & Hid & _).
      rewrite (all_identical_size keys Hne Hid) in H1. congruence.
Qed.

(** X11. [is_winner] and [get_match_count] only speak about ENDED draws:
    before that the first is False and the second 0.  On an ENDED draw the
    count is the number of distinct symbols the ticket shares with the
    winning keys; it is at most the number of distinct winning symbols and
    at most the number of distinct symbols of the ticket. *)
Theorem match_count_bounds `{FernetPrimitives} (env : Env) (db0 : DB) (fk : ForgedKey)
  (d : Draw) :
  find_by d_id (fk_draw fk) (draws db0) = Some d ->
  (d_status d <> ENDED ->
   ForgedKey_is_winner db0 fk = Ok false
   /\ ForgedKey_get_match_count env db0 fk = Ok 0)
  /\ (d_status d = ENDED ->
      forall dk uk, Draw_get_star_keys env d = Ok dk ->
        ForgedKey_get_star_keys env fk = Ok uk ->
        exists n, ForgedKey_get_match_count env db0 fk = Ok n
          /\ n = Z.of_nat (size ((list_to_set dk : gset Z) ∩ list_to_set uk))
          /\ 0 <= n <= Z.of_nat (size (list_to_set dk : gset Z))
          /\ n <= Z.of_nat (size (list_to_set uk : gset Z))
          /\ n <= Z.of_nat (length dk) /\ n <= Z.of_nat (length uk)).
Proof.
  intros Hf. split.
  - intros Hs. unfold ForgedKey_is_winner, ForgedKey_get_match_count, ForgedKey_draw.
    rewrite Hf. cbn [rbind].
    destruct (d_status d); try congruence; split; reflexivity.
  - intros Hs dk uk Hdk Huk. unfold ForgedKey_get_match_count, ForgedKey_draw.
    rewrite Hf. cbn [rbind]. rewrite Hs. cbn [DrawStatus_eqb negb].
    rewrite Hdk, Huk. cbn [rbind]. eexists. split; [reflexivity|].
    split; [reflexivity|].
    pose proof (subseteq_size ((list_to_set dk : gset Z) ∩ list_to_set uk)
                  (list_to_set dk) (intersection_subseteq_l _ _)) as H1.
    pose proof (subseteq_size ((list_to_set dk : gset Z) ∩ list_to_set uk)
                  (list_to_set uk) (intersection_subseteq_r _ _)) as H2.
    pose proof (size_list_to_set_le dk). pose proof (size_list_to_set_le uk). lia.
Qed.

Lemma calculate_rarity_edges_witness :
  @ForgedKey_calculate_rarity null_primitives (example_env "001") (example_ticket 1 None)
  = Ok Common.
Proof.
  destruct (@calculate_rarity_edges null_primitives (example_env "001")
              (example_ticket 1 None) [7; 7; 7]) as (_ & Hc & _).
  apply Hc. left. reflexivity.
Defined.

Lemma match_count_bounds_witness :
  let env := example_env "002" in
  let d := example_draw (example_token "001" [1; 2; 3; 4; 5; 6]) ENDED in
  let fk := example_ticket 1 (Some (example_token "003" [1; 2; 3; 9; 9; 9])) in
  exists n, @ForgedKey_get_match_count null_primitives env (example_db d [fk]) fk = Ok n
    /\ n = Z.of_nat (size ((list_to_set [1; 2; 3; 4; 5; 6] : gset Z)
                            ∩ list_to_set [1; 2; 3; 9; 9; 9]))
    /\ 0 <= n <= Z.of_nat (size (list_to_set [1; 2; 3; 4; 5; 6] : gset Z))
    /\ n <= Z.of_nat (size (list_to_set [1; 2; 3; 9; 9; 9] : gset Z))
    /\ n <= Z.of_nat (length [1; 2; 3; 4; 5; 6]) /\ n <= Z.of_nat (length [1; 2; 3; 9; 9; 9]).
Proof.
  intros env d fk.
  destruct (@match_count_bounds null_primitives env (example_db d [fk]) fk d eq_refl)
    as [_ Hended].
  apply Hended.
  - reflexivity.
  - apply (@get_star_keys_encrypted null_primitives (example_env "001")).
    + apply example_encrypt.
    + reflexivity.
    + apply example_symbols.
  - apply example_get_star_keys. repeat constructor; discriminate.
Defined.

(** ** Submitting keys *)

Lemma In_upsert {A : Type} (key : A -> Z) (x y : A) (rows : list A) :
  In y (upsert key x rows) -> y = x \/ In y rows.
Proof.
  induction rows as [|a rows IH]; cbn [upsert In].
  - intros [<-|[]]. auto.
  - destruct (key a =? key x); cbn [In].
    + intros [<-|Hy]; auto.
    + intros [<-|Hy]; auto. destruct (IH Hy); auto.
Qed.

Lemma upsert_fresh {A : Type} (key : A -> Z) (x : A) (rows : list A) :
  (forall r, In r rows -> key r <> key x) -> upsert key x rows = rows ++ [x].
Proof.
  induction rows as [|a rows IH]; intros Hfresh; cbn [upsert app]; [reflexivity|].
  destruct (Z.eqb_spec (key a) (key x)) as [Heq|_].
  - exfalso. apply (Hfresh a); [left; reflexivity|exact Heq].
  - rewrite IH; [reflexivity|]. intros r Hr. apply Hfresh. right. exact Hr.
Qed.

Section SubmitFacts.
Context `{FernetPrimitives} `{Float64}.

Lemma submit_keys_atomic_Done (env : Env) (draw_id wallet_id new_pk : Z)
  (star_keys : list Z) (d d2 : DB) (serial : string) :
  submit_keys_atomic env draw_id wallet_id new_pk star_keys d = Done (serial, d2) ->
  let row :=
    {| fk_id := new_pk; fk_user_wallet := wallet_id; fk_draw := draw_id;
       fk_star_keys := None; fk_serial_number := serial;
       fk_created_at := timezone_now env; fk_updated_at := timezone_now env |} in
  serial = serial_of draw_id wallet_id
             (Z.of_nat (length (List.filter (fun fk => fk_draw fk =? draw_id) (forgedkeys d))) + 1)
  /\ (forall fk, In fk (forgedkeys d) -> fk_serial_number fk <> serial)
  /\ falsy (SECRET_KEY env) = false
  /\ d2 = with_draws (with_forgedkeys d (upsert fk_id row (forgedkeys d)))
            (update_where d_id draw_id
               (fun r => set_d_total_tickets_sold r (d_total_tickets_sold r + 1))
               (draws d)).
Proof.
  unfold submit_keys_atomic.
  set (serial0 := serial_of _ _ _).
  destruct (negb (existsb _ (userwallets d)) || existsb _ (forgedkeys d)) eqn:Hguard;
    [discriminate|].
  apply orb_false_iff in Hguard as [_ Hex].
  unfold ForgedKey_save. cbn [fk_star_keys falsy andb negb rbind].
  unfold ForgedKey_set_star_keys, ForgedKey_encrypt_data.
  destruct (encrypt_data env (Json.dumps star_keys)) as [c| |] eqn:Hen; cbn [rbind];
    try discriminate.
  intros Heq. injection Heq as <- <-. cbv zeta.
  split; [reflexivity|]. split; [|split].
  - intros fk Hin Hs.
    assert (Ht : existsb (fun fk => String.eqb (fk_serial_number fk) serial0) (forgedkeys d)
                 = true).
    { apply existsb_exists. exists fk. split; [exact Hin|]. apply String.eqb_eq, Hs. }
    congruence.
  - apply encrypt_data_Ok in Hen as ((Hs & _) & _). exact Hs.
  - reflexivity.
Qed.

(** X12. [submit_keys] does not store the submitted keys.  Every ticket
    that is in the table after a call was there before or has no stored
    keys.  When the call answers success, the new row holds the announced
    serial and NULL keys, so reading its keys gives the empty list in every
    environment, and the ticket counter of the draw went up by one; users,
    wallets and the other columns of the draws are as before. *)
Theorem submit_keys_stores_no_keys (env : Env) (request : Request) (body : SubmitBody)
  (cached_wallet : option Z) (new_pk draw_id : Z) (w w' : World)
  (r : attempt Response) :
  submit_keys env request body cached_wallet new_pk draw_id w = (r, w') ->
  (forall fk, In fk (forgedkeys (db w')) ->
     In fk (forgedkeys (db w)) \/ fk_star_keys fk = None)
  /\ (forall rest,
        r = Done (JsonResponse (JDict (("success"%string, JBool true) :: rest))) ->
        exists serial wallet_id,
          rest = [("serial_number", JStr serial);
                  ("message", JStr "Keys submitted successfully!")]%string
          /\ let row :=
               {| fk_id := new_pk; fk_user_wallet := wallet_id; fk_draw := draw_id;
                  fk_star_keys := None; fk_serial_number := serial;
                  fk_created_at := timezone_now env;
                  fk_updated_at := timezone_now env |} in
             find_by fk_id new_pk (forgedkeys (db w')) = Some row
             /\ (forall env', ForgedKey_get_star_keys env' row = Ok [])
             /\ (forall fk, In fk (forgedkeys (db w)) -> fk_serial_number fk <> serial)
             /\ draws (db w')
                = update_where d_id draw_id
                    (fun r => set_d_total_tickets_sold r (d_total_tickets_sold r + 1))
                    (draws (db w))
             /\ users (db w') = users (db w)
             /\ userwallets (db w') = userwallets (db w)).
Proof.
  unfold submit_keys.
  destruct (req_user request) as [user|]; [|intros [= <- <-]; split; [auto|discriminate]].
  destruct (negb (String.eqb _ _)); [intros [= <- <-]; split; [auto|discriminate]|].
  destruct (find_by d_id draw_id (draws (db w))) as [draw|];
    [|intros [= <- <-]; split; [auto|discriminate]].
  destruct (negb (Draw_can_participate env draw));
    [intros [= <- <-]; split; [auto|discriminate]|].
  destruct body as [|items]; [intros [= <- <-]; split; [auto|discriminate]|].
  destruct (_ || _); [intros [= <- <-]; split; [auto|discriminate]|].
  set (looked_up := match match cached_wallet with Some _ => _ | None => _ end with
                    | Some hit => Some hit | None => _ end).
  assert (Hdb : forall wid w1, looked_up = Some (wid, w1) -> db w1 = db w).
  { subst looked_up. intros wid w1.
    destruct cached_wallet as [id|]; [destruct (id =? 0)|].
    - destruct (List.find _ _); [intros [= _ <-]; reflexivity|discriminate].
    - intros [= _ <-]. reflexivity.
    - destruct (List.find _ _); [intros [= _ <-]; reflexivity|discriminate]. }
  destruct looked_up as [[wid w1]|]; [|intros [= <- <-]; split; [auto|discriminate]].
  specialize (Hdb wid w1 eq_refl).
  destruct (existsb _ (forgedkeys (db w1)));
    [intros [= <- <-]; rewrite Hdb; split; [auto|discriminate]|].
  destruct (submit_keys_atomic env draw_id wid new_pk (map item_value items) (db w1))
    as [[serial d2]| |] eqn:Hat;
    [|intros [= <- <-]; rewrite Hdb; split; [auto|discriminate]
     |intros [= <- <-]; rewrite Hdb; split; [auto|discriminate]].
  apply submit_keys_atomic_Done in Hat as (Hserial & Hnew & Hsecret & ->).
  rewrite Hdb in *. intros [= <- <-].
  cbn [db cache_delete_many forgedkeys draws users userwallets with_draws with_forgedkeys].
  split.
  - intros fk Hin. apply In_upsert in Hin as [->|Hin]; auto.
  - intros rest [= <-]. exists serial, wid. split; [reflexivity|]. cbv zeta.
    split; [|split; [|split; [|split; [|split]]]]; try reflexivity.
    + apply (find_by_upsert fk_id
               {| fk_id := new_pk; fk_user_wallet := wid; fk_draw := draw_id;
                  fk_star_keys := None; fk_serial_number := serial;
                  fk_created_at := timezone_now env;
                  fk_updated_at := timezone_now env |}).
    + exact Hnew.
Qed.

(** X13. [submit_keys] writes to the database only when it accepts the
    ticket: the caller is logged in and uses POST, the draw exists and can
    be participated in, the body carries exactly six integers between 0 and
    9, and the codec has its secret.  In every other case, a list of five
    keys or a key 10 included, the database is unchanged. *)
Theorem submit_keys_only_when_valid (env : Env) (request : Request) (body : SubmitBody)
  (cached_wallet : option Z) (new_pk draw_id : Z) (w w' : World)
  (r : attempt Response) :
  submit_keys env request body cached_wallet new_pk draw_id w = (r, w') ->
  (db w' <> db w ->
   exists user draw items,
     req_user request = Some user /\ req_method request = "POST"%string
     /\ find_by d_id draw_id (draws (db w)) = Some draw
     /\ Draw_can_participate env draw = true
     /\ body = StarKeys items /\ length items = 6%nat
     /\ (forall i, In i items -> exists k, i = KInt k /\ 0 <= k <= 9)
     /\ falsy (SECRET_KEY env) = false)
  /\ (forall user draw items,
        req_user request = Some user -> req_method request = "POST"%string ->
        find_by d_id draw_id (draws (db w)) = Some draw ->
        Draw_can_participate env draw = true ->
        body = StarKeys items ->
        length items <> 6%nat \/ (exists i, In i items /\ item_valid i = false) ->
        r = Done (submission_failure "Invalid keys format") /\ w' = w).
Proof.
  intros Hrun. split.
  - revert Hrun. unfold submit_keys.
    destruct (req_user request) as [user|]; [|intros [= <- <-]; congruence].
    destruct (String.eqb_spec (req_method request) "POST") as [Hm|_]; cbn [negb];
      [|intros [= <- <-]; congruence].
    destruct (find_by d_id draw_id (draws (db w))) as [draw|];
      [|intros [= <- <-]; congruence].
    destruct (Draw_can_participate env draw) eqn:Hcan; cbn [negb];
      [|intros [= <- <-]; congruence].
    destruct body as [|items]; [intros [= <- <-]; congruence|].
    destruct (_ || _) eqn:Hval; [intros [= <- <-]; congruence|].
    apply orb_false_iff in Hval as [Hlen Hall].
    apply negb_false_iff, Nat.eqb_eq in Hlen. apply negb_false_iff in Hall.
    set (looked_up := match match cached_wallet with Some _ => _ | None => _ end with
                      | Some hit => Some hit | None => _ end).
    assert (Hdb : forall wid w1, looked_up = Some (wid, w1) -> db w1 = db w).
    { subst looked_up. intros wid w1.
      destruct cached_wallet as [id|]; [destruct (id =? 0)|].
      - destruct (List.find _ _); [intros [= _ <-]; reflexivity|discriminate].
      - intros [= _ <-]. reflexivity.
      - destruct (List.find _ _); [intros [= _ <-]; reflexivity|discriminate]. }
    destruct looked_up as [[wid w1]|]; [|intros [= <- <-]; congruence].
    specialize (Hdb wid w1 eq_refl).
    destruct (existsb _ (forgedkeys (db w1))); [intros [= <- <-]; congruence|].
    destruct (submit_keys_atomic env draw_id wid new_pk (map item_value items) (db w1))
      as [[serial d2]| |] eqn:Hat; [|intros [= <- <-]; congruence|intros [= <- <-]; congruence].
    apply submit_keys_atomic_Done in Hat as (_ & _ & Hsecret & _).
    intros _ _. exists user, draw, items. repeat split; auto.
    intros i Hi. rewrite forallb_forall in Hall. specialize (Hall i Hi).
    destruct i as [k|]; [|discriminate]. exists k. split; [reflexivity|].
    cbn [item_valid] in Hall. lia.
  - intros user draw items Hu Hm Hf Hcan -> Hbad. revert Hrun. unfold submit_keys.
    rewrite Hu, Hm, Hf, Hcan. cbn [String.eqb negb].
    replace (String.eqb "POST" "POST") with true by reflexivity. cbn [negb].
    assert (Hval : negb (Nat.eqb (length items) 6) || negb (forallb item_valid items) = true).
    { destruct Hbad as [Hlen|(i & Hi & Hv)].
      - apply Nat.eqb_neq in Hlen. rewrite Hlen. reflexivity.
      - apply orb_true_iff. right. apply negb_true_iff.
        destruct (forallb item_valid items) eqn:Hall; [|reflexivity].
        rewrite forallb_forall in Hall. rewrite (Hall i Hi) in Hv. discriminate. }
    rewrite Hval. intros [= <- <-]. auto.
Qed.

End SubmitFacts.

Lemma submit_keys_stores_no_keys_witness :
  let env := example_env "001" in
  let w := example_world example_open_draw [] in
  let run := @submit_keys null_primitives env staff_post
               (StarKeys (map KInt [1; 2; 3; 4; 5; 6])) None 10 1 w in
  exists serial wallet_id,
    let row :=
      {| fk_id := 10; fk_user_wallet := wallet_id; fk_draw := 1;
         fk_star_keys := None; fk_serial_number := serial;
         fk_created_at := timezone_now env; fk_updated_at := timezone_now env |} in
    fst run = Done (JsonResponse
                      (JDict [("success", JBool true); ("serial_number", JStr serial);
                              ("message", JStr "Keys submitted successfully!")]%string))
    /\ find_by fk_id 10 (forgedkeys (db (snd run))) = Some row
    /\ (forall env', @ForgedKey_get_star_keys null_primitives env' row = Ok []).
Proof.
  intros env w run.
  assert (Hrun : run = (fst run, snd run)) by (vm_compute; reflexivity).
  destruct (@submit_keys_stores_no_keys null_primitives env staff_post
              (StarKeys (map KInt [1; 2; 3; 4; 5; 6])) None 10 1 w (snd run) (fst run) Hrun)
    as [_ Hdone].
  destruct (Hdone [("serial_number", JStr "AK000100070001");
                   ("message", JStr "Keys submitted successfully!")]%string)
    as (serial & wid & Hrest & Hfind & Hkeys & _).
  - vm_compute. reflexivity.
  - exists serial, wid. cbv zeta in *. split; [|split; [exact Hfind|exact Hkeys]].
    injection Hrest as <-. vm_compute. reflexivity.
Defined.

Lemma submit_keys_only_when_valid_witness :
  let env := example_env "001" in
  let w := example_world example_open_draw [] in
  let body := StarKeys (map KInt [1; 2; 3; 4; 5; 6]) in
  exists user draw items,
    req_user staff_post = Some user /\ req_method staff_post = "POST"%string
    /\ find_by d_id 1 (draws (db w)) = Some draw
    /\ Draw_can_participate env draw = true
    /\ body = StarKeys items /\ length items = 6%nat
    /\ (forall i, In i items -> exists k, i = KInt k /\ 0 <= k <= 9)
    /\ falsy (SECRET_KEY env) = false.
Proof.
  intros env w body.
  pose (run := @submit_keys null_primitives env staff_post body None 10 1 w).
  assert (Hrun : run = (fst run, snd run)) by (vm_compute; reflexivity).
  destruct (@submit_keys_only_when_valid null_primitives env staff_post body None 10 1 w
              (snd run) (fst run) Hrun) as [Hvalid _].
  apply Hvalid. intros Heq.
  apply (f_equal (fun d => length (forgedkeys d))) in Heq.
  vm_compute in Heq. discriminate.
Defined.

(** ** Serial numbers *)

Lemma fmt_04d_small (n : Z) :
  0 <= n < 10000 -> length (fmt_04d n) = 4%nat /\ digits_value (fmt_04d n) = n.
Proof.
  intros Hn.
  assert (Hall : all_below (Z.to_nat 10000)
                   (fun n => Nat.eqb (length (fmt_04d n)) 4
                             && (digits_value (fmt_04d n) =? n)) = true)
    by (vm_compute; reflexivity).
  pose proof (all_below_spec _ _ Hall n) as Hc. cbv beta in Hc.
  apply andb_true_iff in Hc as [Hl Hv]; [|lia].
  apply Nat.eqb_eq in Hl. apply Z.eqb_eq in Hv. auto.
Qed.

Lemma app_inj_length {A : Type} (a b c d : list A) :
  length a = length c -> a ++ b = c ++ d -> a = c /\ b = d.
Proof.
  revert c. induction a as [|x a IH]; intros [|y c] Hl Heq; try discriminate.
  - auto.
  - cbn in Hl, Heq. injection Heq as -> Heq. destruct (IH c) as [-> ->]; auto.
Qed.

(** X14. The serial [AK{draw_id:04d}{wallet_id:04d}{next_serial:04d}] of
    [submit_keys] identifies the draw, the wallet and the ticket index as
    long as all three are between 0 and 9999.  Beyond that range the fields
    run into each other and distinct tickets get the same serial. *)
Theorem serial_of_injective :
  (forall a b c a' b' c',
     0 <= a < 10000 -> 0 <= b < 10000 -> 0 <= c < 10000 ->
     0 <= a' < 10000 -> 0 <= b' < 10000 -> 0 <= c' < 10000 ->
     serial_of a b c = serial_of a' b' c' -> a = a' /\ b = b' /\ c = c')
  /\ (exists a b c a' b' c',
        0 < a /\ 0 < b /\ 0 < c /\ 0 < a' /\ 0 < b' /\ 0 < c'
        /\ (a, b, c) <> (a', b', c')
        /\ serial_of a b c = serial_of a' b' c').
Proof.
  split.
  - intros a b c a' b' c' Ha Hb Hc Ha' Hb' Hc' Heq.
    unfold serial_of in Heq. apply string_of_list_ascii_inj in Heq.
    injection Heq as Heq.
    destruct (fmt_04d_small a Ha) as [La Va], (fmt_04d_small b Hb) as [Lb Vb],
      (fmt_04d_small c Hc) as [Lc Vc], (fmt_04d_small a' Ha') as [La' Va'],
      (fmt_04d_small b' Hb') as [Lb' Vb'], (fmt_04d_small c' Hc') as [Lc' Vc'].
    apply app_inj_length in Heq as [Ea Heq]; [|congruence].
    apply app_inj_length in Heq as [Eb Ec]; [|congruence].
    repeat split; congruence.
  - exists 1000, 12345, 1, 10001, 2345, 1.
    do 6 (split; [lia|]). split; [discriminate|]. vm_compute. reflexivity.
Qed.

Lemma serial_of_injective_witness :
  serial_of 1 7 1 = "AK000100070001"%string
  /\ serial_of 1 7 1 <> serial_of 1 7 2.
Proof.
  split; [reflexivity|].
  intros Heq.
  destruct serial_of_injective as [Hinj _].
  assert (Hc : 1 = 1 /\ 7 = 7 /\ 1 = 2) by (apply Hinj; [lia..|exact Heq]).
  destruct Hc as (_ & _ & Hc). discriminate Hc.
Defined.

(** ** Creating a draw *)

Lemma round_half_even_Z (q : Q) (z : Z) :
  (q == inject_Z z)%Q -> round_half_even q = z.
Proof.
  intros Hq. unfold round_half_even.
  assert (Hf : Qfloor q = z) by (rewrite Hq; apply Qfloor_Z).
  rewrite Hf.
  destruct (Qcompare_spec (q - inject_Z z) (1 # 2)) as [He|Hl|Hg]; try reflexivity.
  - rewrite Hq in He. exfalso. lra.
  - rewrite Hq in Hg. exfalso. lra.
Qed.

Lemma quantize_prize_pool_Ok (p stored : Q) :
  quantize_prize_pool p = Ok stored ->
  (exists cents, Z.abs cents < 10 ^ 15 /\ stored = (inject_Z cents / 100)%Q)
  /\ (Qabs (stored - p) <= 1 # 200)%Q.
Proof.
  unfold quantize_prize_pool.
  destruct (Z.ltb_spec (Z.abs (round_half_even (p * 100))) (10 ^ 15)) as [Hlt|_];
    [|discriminate].
  intros [= <-]. split; [eexists; split; [exact Hlt|reflexivity]|].
  pose proof (round_half_even_error (p * 100)) as Hr.
  set (c := inject_Z (round_half_even (p * 100))) in *.
  apply Qabs_Qle_condition in Hr. destruct Hr as [Hr1 Hr2].
  assert (Hc : (c / 100 == c * (1 # 100))%Q) by field.
  apply Qabs_Qle_condition. rewrite Hc. split; lra.
Qed.

Lemma quantize_prize_pool_cents (p : Q) (cents : Z) :
  Z.abs cents < 10 ^ 15 -> (p == inject_Z cents / 100)%Q ->
  quantize_prize_pool p = Ok (inject_Z cents / 100)%Q.
Proof.
  intros Hc Hp. unfold quantize_prize_pool.
  assert (Hr : round_half_even (p * 100) = cents).
  { apply round_half_even_Z. rewrite Hp. field. }
  rewrite Hr. destruct (Z.ltb_spec (Z.abs cents) (10 ^ 15)); [reflexivity|lia].
Qed.

Lemma quantize_prize_pool_large (p : Q) :
  (inject_Z (10 ^ 13) <= Qabs p)%Q -> quantize_prize_pool p = Raise InvalidOperation.
Proof.
  intros Hp. unfold quantize_prize_pool.
  destruct (Z.ltb_spec (Z.abs (round_half_even (p * 100))) (10 ^ 15)) as [Hlt|_];
    [|reflexivity].
  exfalso.
  pose proof (round_half_even_error (p * 100)) as Hr.
  apply Qabs_Qle_condition in Hr. destruct Hr as [Hr1 Hr2].
  assert (Hq : (inject_Z (Z.abs (round_half_even (p * 100))) <= inject_Z (10 ^ 15 - 1))%Q)
    by (rewrite <- Zle_Qle; lia).
  change (inject_Z (Z.abs (round_half_even (p * 100))))
    with (Qabs (inject_Z (round_half_even (p * 100)))) in Hq.
  set (c := inject_Z (round_half_even (p * 100))) in *.
  change (inject_Z (10 ^ 15 - 1)) with (999999999999999 # 1)%Q in Hq.
  change (inject_Z (10 ^ 13)) with (10000000000000 # 1)%Q in Hp.
  revert Hq Hp. apply Qabs_case; apply Qabs_case; intros; lra.
Qed.

Section CreateFacts.
Context `{FernetPrimitives}.

(** X15. [create_draw] for a staff member, with the three fields present,
    a title of at most 100 characters, a prize pool that the column takes
    (which stores it rounded to cents) and a working codec, answers success
    with the id and the title only, and stores one new row for the draw:
    status UPCOMING, the pool in cents, and in [star_keys] a token that
    carries the [gAAAA] marker and that [get_star_keys] reads back as the
    generated combination under the same secret.  Tickets, wallets and
    users are untouched and the two cache entries are dropped. *)
Theorem create_draw_stores_encrypted (env : Env) (request : Request) (title : string)
  (prize_pool stored_pool : Q) (draw_datetime : Z) (winning_keys : list Z) (new_pk : Z)
  (w : World) :
  is_staff_post request -> env_ok env -> time_time env < 2 ^ 42 ->
  symbols winning_keys ->
  (String.length title <= 100)%nat ->
  quantize_prize_pool prize_pool = Ok stored_pool ->
  exists tok w',
    create_draw env request (Fields (Some title) (Some prize_pool) (Some draw_datetime))
      winning_keys new_pk w
    = (Ok (JsonResponse
             (JDict [("success", JBool true); ("draw_id", JInt new_pk);
                     ("draw_title", JStr title);
                     ("message", JStr "Draw created successfully")]%string)), w')
    /\ find_by d_id new_pk (draws (db w'))
       = Some (created_draw env new_pk title stored_pool draw_datetime tok)
    /\ (Qabs (stored_pool - prize_pool) <= 1 # 200)%Q
    /\ (forall cents, Z.abs cents < 10 ^ 15 -> (prize_pool == inject_Z cents / 100)%Q ->
          (stored_pool == prize_pool)%Q)
    /\ (forall id, id <> new_pk ->
          find_by d_id id (draws (db w')) = find_by d_id id (draws (db w)))
    /\ startswith "gAAAA" tok = true
    /\ (forall env', SECRET_KEY env' = SECRET_KEY env ->
          Draw_get_star_keys env'
            (created_draw env new_pk title stored_pool draw_datetime tok)
          = Ok winning_keys)
    /\ forgedkeys (db w') = forgedkeys (db w)
    /\ userwallets (db w') = userwallets (db w)
    /\ users (db w') = users (db w)
    /\ cache w' = cache w ∖ {[ "platform_stats"; "landing_page_data" ]}%string.
Proof.
  intros (user & Hu & Hstaff & Hm) Hok Ht Hsym Hlen Hq.
  pose proof (encrypt_data_defined env (Json.dumps winning_keys) Hok) as Hen.
  destruct (encrypted_marker _ _ _ Hen Ht) as [Hmark Hne].
  set (tok := ciphertext_of (secret_of env) (time_time env) (urandom16 env)
                (Json.dumps winning_keys)) in *.
  unfold create_draw. rewrite Hu, Hm, Hstaff.
  replace (String.eqb "POST" "POST") with true by reflexivity. cbn [negb].
  destruct (Nat.ltb_spec 100 (String.length title)) as [Hbad|_]; [lia|].
  rewrite Hq.
  unfold Draw_save at 1. cbn [d_star_keys str_empty negb andb rbind].
  unfold Draw_set_star_keys, Draw_encrypt_data. rewrite Hen. cbn [rbind].
  unfold Draw_save. cbn [d_star_keys set_d_star_keys set_d_updated_at].
  rewrite Hmark. cbn [negb]. rewrite andb_false_r. cbn [rbind].
  exists tok. eexists. split; [reflexivity|].
  cbn [db cache cache_delete_many draws forgedkeys userwallets users with_draws
       d_id d_title set_d_updated_at set_d_star_keys].
  fold (created_draw env new_pk title stored_pool draw_datetime "").
  fold (created_draw env new_pk title stored_pool draw_datetime tok).
  split; [|split; [|split; [|split; [|split; [|split; [|split; [|split; [|split]]]]]]]];
    try reflexivity.
  - apply (find_by_upsert d_id
             (created_draw env new_pk title stored_pool draw_datetime tok)).
  - apply quantize_prize_pool_Ok in Hq. apply Hq.
  - intros cents Hc Hp. rewrite (quantize_prize_pool_cents _ _ Hc Hp) in Hq.
    injection Hq as <-. symmetry. exact Hp.
  - intros id Hid.
    rewrite (find_by_upsert_other d_id
               (created_draw env new_pk title stored_pool draw_datetime tok)) by exact Hid.
    apply (find_by_upsert_other d_id
             (created_draw env new_pk title stored_pool draw_datetime "")). exact Hid.
  - exact Hmark.
  - intros env' Hs. unfold Draw_get_star_keys. cbn [created_draw d_star_keys].
    apply (get_star_keys_encrypted env env' winning_keys tok); assumption.
Qed.

(** X16. [create_draw] is not atomic.  When the codec has no secret, the
    staff member is told of the failure, yet the draw created before the
    combination was encrypted stays in the table (for a title of at most
    100 characters and a pool that the column takes), with an empty
    [star_keys], so that it has no winning combination: [get_star_keys]
    gives the empty list for it, and [map_winner] finds no winner whatever
    the tickets are. *)
Theorem create_draw_without_secret (env : Env) (request : Request) (title : string)
  (prize_pool stored_pool : Q) (draw_datetime : Z) (winning_keys : list Z) (new_pk : Z)
  (w : World) :
  is_staff_post request -> falsy (SECRET_KEY env) = true ->
  (String.length title <= 100)%nat ->
  quantize_prize_pool prize_pool = Ok stored_pool ->
  let row := created_draw env new_pk title stored_pool draw_datetime "" in
  exists w',
    create_draw env request (Fields (Some title) (Some prize_pool) (Some draw_datetime))
      winning_keys new_pk w
    = (Ok (json_failure (JStrOf ValueError)), w')
    /\ find_by d_id new_pk (draws (db w')) = Some row
    /\ cache w' = cache w
    /\ (forall env', Draw_get_star_keys env' row = Ok [])
    /\ (forall env' db0, Draw_map_winner env' row db0 = (Ok None, row, db0)).
Proof.
  intros (user & Hu & Hstaff & Hm) Hs Hlen Hq row.
  unfold create_draw. rewrite Hu, Hm, Hstaff.
  replace (String.eqb "POST" "POST") with true by reflexivity. cbn [negb].
  destruct (Nat.ltb_spec 100 (String.length title)) as [Hbad|_]; [lia|].
  rewrite Hq.
  unfold Draw_save at 1. cbn [d_star_keys str_empty negb andb rbind].
  unfold Draw_set_star_keys, Draw_encrypt_data.
  rewrite encrypt_data_no_secret by exact Hs. cbn [rbind].
  eexists. split; [reflexivity|].
  cbn [db cache draws with_draws set_d_updated_at].
  split; [|split; [reflexivity|split]].
  - apply (find_by_upsert d_id row).
  - intros env'. reflexivity.
  - intros env' db0. reflexivity.
Qed.

(** X17. [create_draw] changes nothing, database or cache, unless the
    caller is a staff member using POST and the body is a JSON object with
    [title], [prize_pool] and [draw_datetime]. *)
Theorem create_draw_only_staff (env : Env) (request : Request) (body : CreateBody)
  (winning_keys : list Z) (new_pk : Z) (w w' : World) (r : res Response) :
  create_draw env request body winning_keys new_pk w = (r, w') ->
  w' <> w ->
  is_staff_post request
  /\ exists title prize_pool draw_datetime,
       body = Fields (Some title) (Some prize_pool) (Some draw_datetime).
Proof.
  unfold create_draw, is_staff_post.
  destruct (req_user request) as [user|]; [|intros [= <- <-]; congruence].
  destruct (String.eqb_spec (req_method request) "POST") as [Hm|_]; cbn [negb];
    [|intros [= <- <-]; congruence].
  destruct (u_is_staff user) eqn:Hstaff; cbn [negb]; [|intros [= <- <-]; congruence].
  destruct body as [|[title|] [prize_pool|] [draw_datetime|]];
    try (intros [= <- <-]; congruence).
  intros _ _. split; [exists user; auto|]. eauto.
Qed.

(** X18. A prize pool of 10^13 or more, of either sign, does not fit the
    column of 15 digits with two decimals: [create_draw] answers the staff
    member with a failure that carries the [InvalidOperation], and nothing
    is stored or dropped from the cache. *)
Theorem create_draw_refuses_large_pool (env : Env) (request : Request) (title : string)
  (prize_pool : Q) (draw_datetime : Z) (winning_keys : list Z) (new_pk : Z) (w : World) :
  is_staff_post request ->
  (String.length title <= 100)%nat ->
  (inject_Z (10 ^ 13) <= Qabs prize_pool)%Q ->
  create_draw env request (Fields (Some title) (Some prize_pool) (Some draw_datetime))
    winning_keys new_pk w
  = (Ok (json_failure (JStrOf InvalidOperation)), w).
Proof.
  intros (user & Hu & Hstaff & Hm) Hlen Hlarge.
  unfold create_draw. rewrite Hu, Hm, Hstaff.
  replace (String.eqb "POST" "POST") with true by reflexivity. cbn [negb].
  destruct (Nat.ltb_spec 100 (String.length title)) as [Hbad|_]; [lia|].
  rewrite (quantize_prize_pool_large _ Hlarge). reflexivity.
Qed.

End CreateFacts.

Lemma create_draw_stores_encrypted_witness :
  let env := example_env "001" in
  let w := example_world (example_draw "" UPCOMING) [] in
  exists tok w',
    @create_draw null_primitives env staff_post
      (Fields (Some "Nebula-2"%string) (Some (1 # 8)%Q) (Some 1800000000))
      [1; 2; 3; 4; 5; 6] 2 w
    = (Ok (JsonResponse
             (JDict [("success", JBool true); ("draw_id", JInt 2);
                     ("draw_title", JStr "Nebula-2");
                     ("message", JStr "Draw created successfully")]%string)), w')
    /\ find_by d_id 2 (draws (db w'))
       = Some (created_draw env 2 "Nebula-2" (inject_Z 12 / 100)%Q 1800000000 tok)
    /\ startswith "gAAAA" tok = true
    /\ @Draw_get_star_keys null_primitives (example_env "002")
         (created_draw env 2 "Nebula-2" (inject_Z 12 / 100)%Q 1800000000 tok)
       = Ok [1; 2; 3; 4; 5; 6].
Proof.
  intros env w.
  destruct (@create_draw_stores_encrypted null_primitives env staff_post "Nebula-2"
              (1 # 8)%Q (inject_Z 12 / 100)%Q 1800000000 [1; 2; 3; 4; 5; 6] 2 w)
    as (tok & w' & Hrun & Hfind & _ & _ & _ & Hmark & Hread & _).
  - apply staff_post_is_staff_post.
  - apply example_env_ok.
  - reflexivity.
  - apply example_symbols.
  - vm_compute. lia.
  - reflexivity.
  - exists tok, w'. repeat split; auto.
Defined.

Lemma create_draw_without_secret_witness :
  let env := example_env_no_secret in
  let w := example_world (example_draw "" UPCOMING) [] in
  exists w',
    @create_draw null_primitives env staff_post
      (Fields (Some "Nebula-2"%string) (Some 500%Q) (Some 1800000000))
      [1; 2; 3; 4; 5; 6] 2 w
    = (Ok (json_failure (JStrOf ValueError)), w')
    /\ find_by d_id 2 (draws (db w'))
       = Some (created_draw env 2 "Nebula-2" (inject_Z 50000 / 100)%Q 1800000000 "").
Proof.
  intros env w.
  destruct (@create_draw_without_secret null_primitives env staff_post "Nebula-2"
              500%Q (inject_Z 50000 / 100)%Q 1800000000 [1; 2; 3; 4; 5; 6] 2 w)
    as (w' & Hrun & Hfind & _).
  - apply staff_post_is_staff_post.
  - reflexivity.
  - vm_compute. lia.
  - reflexivity.
  - exists w'. split; [exact Hrun|exact Hfind].
Defined.

Lemma create_draw_only_staff_witness :
  is_staff_post staff_post
  /\ exists title prize_pool draw_datetime,
       Fields (Some "Nebula-2"%string) (Some 500%Q) (Some 1800000000)
       = Fields (Some title) (Some prize_pool) (Some draw_datetime).
Proof.
  apply (@create_draw_only_staff null_primitives (example_env "001") staff_post
           (Fields (Some "Nebula-2"%string) (Some 500%Q) (Some 1800000000))
           [1; 2; 3; 4; 5; 6] 2 (example_world (example_draw "" UPCOMING) [])
           (snd (@create_draw null_primitives (example_env "001") staff_post
                   (Fields (Some "Nebula-2"%string) (Some 500%Q) (Some 1800000000))
                   [1; 2; 3; 4; 5; 6] 2 (example_world (example_draw "" UPCOMING) [])))
           (fst (@create_draw null_primitives (example_env "001") staff_post
                   (Fields (Some "Nebula-2"%string) (Some 500%Q) (Some 1800000000))
                   [1; 2; 3; 4; 5; 6] 2 (example_world (example_draw "" UPCOMING) [])))).
  - vm_compute. reflexivity.
  - intros Heq. apply (f_equal (fun x => length (draws (db x)))) in Heq.
    vm_compute in Heq. discriminate.
Defined.

Lemma create_draw_refuses_large_pool_witness :
  let w := example_world (example_draw "" UPCOMING) [] in
  @create_draw null_primitives (example_env "001") staff_post
    (Fields (Some "Nebula-2"%string) (Some (inject_Z (10 ^ 13))) (Some 1800000000))
    [1; 2; 3; 4; 5; 6] 2 w
  = (Ok (json_failure (JStrOf InvalidOperation)), w).
Proof.
  intros w.
  apply (@create_draw_refuses_large_pool null_primitives (example_env "001") staff_post
           "Nebula-2" (inject_Z (10 ^ 13)) 1800000000 [1; 2; 3; 4; 5; 6] 2 w).
  - apply staff_post_is_staff_post.
  - vm_compute. lia.
  - apply Qle_bool_imp_le. vm_compute. reflexivity.
Defined.
